(** * Py_Ae: a shallow embedding of the After Effects project browser

    The repository holds two revisions of one PyQt5 program, [py_ae_v3.py]
    and its refactoring [py_ae.py].  Both are a table-backed file manager
    glued to process launches.  This development embeds the methods of the
    class [AfterEffectsPipeline] (and of the worker [AfterEffectsThread]) as
    functions of a state-and-exception monad over an explicit world: the
    file system, the [QSettings] store, the process list, the dialogs shown
    and the worker threads started.

    Layout: Python text and the [json] module, the world (operating system
    and Qt widgets), then module [V3] for [py_ae_v3.py] and module [PyAe]
    for [py_ae.py]; the facts proved about them follow the definitions. *)

From Stdlib Require Import ZArith NArith Ascii String Lia.
From stdpp Require Import gmap list.

Set Warnings "-register-all".

Open Scope N_scope.

(* ================================================================== *)
(** ** Python text *)
(* ================================================================== *)

(** A Python [str] is a sequence of Unicode code points. *)
Abbreviation str := (list N).

(** [u "lit"] is the [str] of an ASCII literal of the source. *)
Definition u (s : string) : str := N_of_ascii <$> list_ascii_of_string s.

(** Code points the source and the JSON grammar name. *)
Definition QUOTE : N := 34.      (* the double quote *)
Definition BACKSLASH : N := 92.
Definition SLASH : N := 47.
Definition NEWLINE : N := 10.

(** [s.startswith(p)] *)
Fixpoint startswith (p s : str) : bool :=
  match p, s with
  | [], _ => true
  | _ :: _, [] => false
  | a :: p', b :: s' => (a =? b) && startswith p' s'
  end.

(** [s.endswith(p)] *)
Definition endswith (p s : str) : bool := startswith (rev p) (rev s).

(** [sub in s]: the substring test of Python's [in] on two strings. *)
Fixpoint str_in (sub s : str) : bool :=
  startswith sub s ||
  match s with
  | [] => false
  | _ :: s' => str_in sub s'
  end.

(** [s.replace(old, new)] for a non-empty [old]: occurrences are replaced
    from the left and do not overlap.  [skip] counts the characters of the
    occurrence being replaced that are still to be dropped. *)
Fixpoint replace_from (old new : str) (skip : nat) (s : str) : str :=
  match s with
  | [] => []
  | c :: s' =>
      match skip with
      | S k => replace_from old new k s'
      | O =>
          if startswith old s
          then new ++ replace_from old new (Nat.pred (length old)) s'
          else c :: replace_from old new O s'
      end
  end.

Definition replace (old new s : str) : str := replace_from old new O s.

(** [sep.join(parts)] *)
Fixpoint join (sep : str) (parts : list str) : str :=
  match parts with
  | [] => []
  | p :: rest =>
      p ++ match rest with
           | [] => []
           | _ :: _ => sep ++ join sep rest
           end
  end.

(** A path separator: [/] or the backslash. *)
Definition is_sep (c : N) : bool := (c =? SLASH) || (c =? BACKSLASH).

(** [os.path.basename(p)], which is also [Path(p).name] on a path that
    does not end in a separator: what follows the last separator. *)
Fixpoint basename_from (acc : str) (s : str) : str :=
  match s with
  | [] => acc
  | c :: s' => if is_sep c then basename_from s' s' else basename_from acc s'
  end.

Definition basename (p : str) : str := basename_from p p.

(** [os.path.dirname(p)]: what precedes the last separator. *)
Fixpoint dirname (p : str) : str :=
  match p with
  | [] => []
  | c :: p' => if existsb is_sep p' then c :: dirname p' else []
  end.

(** [pathlib.Path]: a path is identified with its text, so [Path(s)] and
    [str(p)] are the two directions of that identification. *)
Abbreviation path := str.
Definition Path (s : str) : path := s.
Definition str_of_path (p : path) : str := p.
Definition path_name (p : path) : str := basename (str_of_path p).
Definition as_posix (p : path) : str := str_of_path p.

(** [Path(folder, child)] for a relative [child]. *)
Definition Path_join (folder : path) (child : str) : path :=
  Path (str_of_path folder ++ [SLASH] ++ child).

(** What the program takes from the platform without computing it: the
    Unicode lower-casing of [str.lower()] and the rendering of a time stamp
    by [strftime('%Y-%m-%d %H:%M:%S')]. *)
Class Platform := {
  str_lower : str -> str;
  str_lower_empty : str_lower [] = [];
  strftime : Z -> str
}.

(* ================================================================== *)
(** ** Exceptions and the state-and-exception monad *)
(* ================================================================== *)

Inductive exn :=
| JSONDecodeError
| KeyError
| TypeError
| AttributeError
| IndexError
| FileNotFoundError
| FileExistsError
| SameFileError
| OSError              (* any other failure of a file operation *)
| CalledProcessError.

Inductive res (A : Type) :=
| Val (a : A)
| Exc (e : exn).
Arguments Val {A} a.
Arguments Exc {A} e.

(** A computation over a state [S]: an exception keeps the state reached
    when it was raised. *)
Definition M (St A : Type) : Type := St -> res A * St.

Definition ret {St A} (a : A) : M St A := fun s => (Val a, s).

Definition bind {St A B} (c : M St A) (k : A -> M St B) : M St B :=
  fun s =>
    match c s with
    | (Val a, s') => k a s'
    | (Exc e, s') => (Exc e, s')
    end.

Definition raise {St A} (e : exn) : M St A := fun s => (Exc e, s).
Definition get {St} : M St St := fun s => (Val s, s).
Definition put {St} (s : St) : M St unit := fun _ => (Val tt, s).
Definition modify {St} (f : St -> St) : M St unit := fun s => (Val tt, f s).
Definition gets {St A} (f : St -> A) : M St A := fun s => (Val (f s), s).

(** [try: c  except <those exceptions h catches>: h e] *)
Definition try_except {St A} (c : M St A) (h : exn -> option (M St A)) : M St A :=
  fun s =>
    match c s with
    | (Val a, s') => (Val a, s')
    | (Exc e, s') =>
        match h e with
        | Some handler => handler s'
        | None => (Exc e, s')
        end
    end.

(** [try: c  finally: f] *)
Definition try_finally {St A} (c : M St A) (f : M St unit) : M St A :=
  fun s =>
    match c s with
    | (r, s') =>
        match f s' with
        | (Val _, s'') => (r, s'')
        | (Exc e, s'') => (Exc e, s'')
        end
    end.

(** Lifting a pure result that may be an exception. *)
Definition lift {St A} (r : res A) : M St A := fun s => (r, s).

Declare Scope monad_scope.
Delimit Scope monad_scope with monad.
Notation "x <- c ;; k" := (bind c (fun x => k))
  (at level 200, c at level 99, k at level 200, only parsing) : monad_scope.
Notation "c ;;; k" := (bind c (fun _ => k))
  (at level 200, k at level 200, only parsing) : monad_scope.
Open Scope monad_scope.

(** [for x in l: body x] *)
Fixpoint for_each {St A} (l : list A) (body : A -> M St unit) : M St unit :=
  match l with
  | [] => ret tt
  | x :: l' => body x ;;; for_each l' body
  end.

(** [for i, x in enumerate(l): body i x], counting from [i]. *)
Fixpoint for_enumerate {St A} (i : nat) (l : list A)
    (body : nat -> A -> M St unit) : M St unit :=
  match l with
  | [] => ret tt
  | x :: l' => body i x ;;; for_enumerate (S i) l' body
  end.

(** A comprehension [[f x for x in l]] whose [f] may raise. *)
Fixpoint map_res {A B} (f : A -> res B) (l : list A) : res (list B) :=
  match l with
  | [] => Val []
  | x :: l' =>
      match f x with
      | Exc e => Exc e
      | Val y =>
          match map_res f l' with
          | Exc e => Exc e
          | Val ys => Val (y :: ys)
          end
      end
  end.

(** A comprehension [[x for x in l if p x]] whose test may raise. *)
Fixpoint filter_res {A} (p : A -> res bool) (l : list A) : res (list A) :=
  match l with
  | [] => Val []
  | x :: l' =>
      match p x with
      | Exc e => Exc e
      | Val b =>
          match filter_res p l' with
          | Exc e => Exc e
          | Val ys => Val (if b then x :: ys else ys)
          end
      end
  end.

(* ================================================================== *)
(** ** The [json] module *)
(* ================================================================== *)

(** The objects [json.loads] builds and [json.dumps] accepts.  A dictionary
    keeps its keys in insertion order.  A number is kept as the text that
    denotes it. *)
Inductive value :=
| VNone
| VBool (b : bool)
| VNum (lexeme : str)
| VStr (s : str)
| VList (items : list value)
| VDict (entries : list (str * value)).

(** [d[k] = v] on the entries of a dictionary: an existing key keeps its
    place and takes the new value; a new key goes last. *)
Fixpoint dict_set (k : str) (v : value) (d : list (str * value))
    : list (str * value) :=
  match d with
  | [] => [(k, v)]
  | (k', v') :: d' =>
      if decide (k' = k) then (k, v) :: d' else (k', v') :: dict_set k v d'
  end.

(** [dict(pairs)] *)
Definition dict_of_pairs (pairs : list (str * value)) : list (str * value) :=
  fold_left (fun d kv => dict_set kv.1 kv.2 d) pairs [].

(** [d.get(k)] on the entries of a dictionary. *)
Fixpoint dict_lookup (k : str) (d : list (str * value)) : option value :=
  match d with
  | [] => None
  | (k', v) :: d' => if decide (k' = k) then Some v else dict_lookup k d'
  end.

Module Json.

(** *** Encoding: [json.dumps] with its default arguments *)

Definition hexdigit (d : N) : N := if d <? 10 then 48 + d else 87 + d.

(** ['{0:04x}'.format(n)] for [n < 0x10000] *)
Definition hex4 (n : N) : str :=
  [hexdigit (n / 4096 mod 16); hexdigit (n / 256 mod 16);
   hexdigit (n / 16 mod 16); hexdigit (n mod 16)].

Definition uXXXX (n : N) : str := BACKSLASH :: 117 :: hex4 n.

(** The replacement [encode_basestring_ascii] makes for one character:
    the two-character escapes of [ESCAPE_DCT], the printable ASCII
    characters as they are, and a [\uXXXX] escape for the others, a
    surrogate pair of them beyond the basic plane. *)
Definition escape_char (c : N) : str :=
  if c =? QUOTE then [BACKSLASH; QUOTE]
  else if c =? BACKSLASH then [BACKSLASH; BACKSLASH]
  else if c =? 8 then [BACKSLASH; 98]
  else if c =? 12 then [BACKSLASH; 102]
  else if c =? 10 then [BACKSLASH; 110]
  else if c =? 13 then [BACKSLASH; 114]
  else if c =? 9 then [BACKSLASH; 116]
  else if (32 <=? c) && (c <=? 126) then [c]
  else if c <? 65536 then uXXXX c
  else
    let n := c - 65536 in
    uXXXX (55296 + (n / 1024) mod 1024) ++ uXXXX (56320 + n mod 1024).

Definition encode_basestring_ascii (s : str) : str :=
  QUOTE :: flat_map escape_char s ++ [QUOTE].

Definition item_separator : str := [44; 32].
Definition key_separator : str := [58; 32].

Fixpoint dumps (v : value) : str :=
  match v with
  | VNone => u "null"
  | VBool true => u "true"
  | VBool false => u "false"
  | VNum lexeme => lexeme
  | VStr s => encode_basestring_ascii s
  | VList items =>
      91 :: (fix elems (l : list value) : str :=
               match l with
               | [] => []
               | x :: l' =>
                   dumps x ++ match l' with
                              | [] => []
                              | _ :: _ => item_separator ++ elems l'
                              end
               end) items ++ [93]
  | VDict entries =>
      123 :: (fix members (l : list (str * value)) : str :=
                match l with
                | [] => []
                | (k, x) :: l' =>
                    encode_basestring_ascii k ++ key_separator ++ dumps x ++
                    match l' with
                    | [] => []
                    | _ :: _ => item_separator ++ members l'
                    end
                end) entries ++ [125]
  end.

(** *** Decoding: [json.loads] with its default arguments.
    [None] stands for a [JSONDecodeError]. *)

(** [WHITESPACE]: blank, tab, line feed, carriage return. *)
Definition is_ws (c : N) : bool :=
  (c =? 32) || (c =? 9) || (c =? 10) || (c =? 13).

Fixpoint skip_ws (s : str) : str :=
  match s with
  | [] => []
  | c :: s' => if is_ws c then skip_ws s' else s
  end.

Definition is_digit (c : N) : bool := (48 <=? c) && (c <=? 57).

(** One character of [HEXDIGITS]. *)
Definition hexval (c : N) : option N :=
  if (48 <=? c) && (c <=? 57) then Some (c - 48)
  else if (97 <=? c) && (c <=? 102) then Some (c - 87)
  else if (65 <=? c) && (c <=? 70) then Some (c - 55)
  else None.

(** [_decode_uXXXX] on the four characters after [\u]. *)
Definition decode_uXXXX (a b c d : N) : option N :=
  match hexval a, hexval b, hexval c, hexval d with
  | Some x, Some y, Some z, Some w => Some (x * 4096 + y * 256 + z * 16 + w)
  | _, _, _, _ => None
  end.

(** [BACKSLASH]: the one-character escapes. *)
Definition unescape (e : N) : option N :=
  if e =? QUOTE then Some QUOTE
  else if e =? BACKSLASH then Some BACKSLASH
  else if e =? SLASH then Some SLASH
  else if e =? 98 then Some 8
  else if e =? 102 then Some 12
  else if e =? 110 then Some 10
  else if e =? 114 then Some 13
  else if e =? 116 then Some 9
  else None.

Definition is_high_surrogate (n : N) : bool := (55296 <=? n) && (n <=? 56319).
Definition is_low_surrogate (n : N) : bool := (56320 <=? n) && (n <=? 57343).

Definition cons_char (c : N) (r : option (str * str)) : option (str * str) :=
  match r with
  | Some (x, rest) => Some (c :: x, rest)
  | None => None
  end.

(** [py_scanstring] in strict mode, from the character after the opening
    quote: the text of the string and what follows its closing quote. *)
Fixpoint scanstring (s : str) : option (str * str) :=
  match s with
  | [] => None
  | c :: s1 =>
      if c =? QUOTE then Some ([], s1)
      else if c =? BACKSLASH then
        match s1 with
        | [] => None
        | e :: s2 =>
            if e =? 117 then
              match s2 with
              | h1 :: h2 :: h3 :: h4 :: s6 =>
                  match decode_uXXXX h1 h2 h3 h4 with
                  | None => None
                  | Some uni =>
                      match s6 with
                      | b2 :: u2 :: s8 =>
                          if is_high_surrogate uni && (b2 =? BACKSLASH) && (u2 =? 117)
                          then
                            match s8 with
                            | k1 :: k2 :: k3 :: k4 :: s12 =>
                                match decode_uXXXX k1 k2 k3 k4 with
                                | None => None
                                | Some uni2 =>
                                    if is_low_surrogate uni2
                                    then cons_char
                                           (65536 + ((uni - 55296) * 1024
                                                     + (uni2 - 56320)))
                                           (scanstring s12)
                                    else cons_char uni (scanstring s6)
                                end
                            | _ => None
                            end
                          else cons_char uni (scanstring s6)
                      | _ => cons_char uni (scanstring s6)
                      end
                  end
              | _ => None
              end
            else
              match unescape e with
              | Some c' => cons_char c' (scanstring s2)
              | None => None
              end
        end
      else if c <? 32 then None
      else cons_char c (scanstring s1)
  end.

(** The longest run of decimal digits at the head of [s]. *)
Fixpoint span_digits (s : str) : str * str :=
  match s with
  | [] => ([], [])
  | c :: s' =>
      if is_digit c
      then let (ds, rest) := span_digits s' in (c :: ds, rest)
      else ([], s)
  end.

(** [NUMBER_RE]: an integer part, then an optional fraction, then an
    optional exponent; the text matched and what follows it. *)
Definition match_int (s : str) : option (str * str) :=
  let (sign, s0) :=
    match s with
    | c :: s' => if c =? 45 then ([45], s') else ([], s)
    | [] => ([], s)
    end in
  match s0 with
  | c :: s1 =>
      if c =? 48 then Some (sign ++ [48], s1)
      else if is_digit c then
        let (ds, rest) := span_digits s1 in Some (sign ++ c :: ds, rest)
      else None
  | [] => None
  end.

Definition match_frac (s : str) : str * str :=
  match s with
  | c :: s1 =>
      if c =? 46 then
        match span_digits s1 with
        | ([], _) => ([], s)
        | (ds, rest) => (46 :: ds, rest)
        end
      else ([], s)
  | [] => ([], s)
  end.

Definition match_exp (s : str) : str * str :=
  match s with
  | c :: s1 =>
      if (c =? 101) || (c =? 69) then
        let (sign, s2) :=
          match s1 with
          | d :: s' => if (d =? 43) || (d =? 45) then ([d], s') else ([], s1)
          | [] => ([], s1)
          end in
        match span_digits s2 with
        | ([], _) => ([], s)
        | (ds, rest) => (c :: sign ++ ds, rest)
        end
      else ([], s)
  | [] => ([], s)
  end.

Definition match_number (s : str) : option (str * str) :=
  match match_int s with
  | None => None
  | Some (i, s1) =>
      let (f, s2) := match_frac s1 in
      let (e, s3) := match_exp s2 in
      Some (i ++ f ++ e, s3)
  end.

(** A constant of the grammar at the head of [s]. *)
Definition literal (name : str) (v : value) (s : str) : option (value * str) :=
  if startswith name s then Some (v, drop (length name) s) else None.

Definition first_of {A} (a b : option A) : option A :=
  match a with
  | Some x => Some x
  | None => b
  end.

(** [scan_once], [JSONArray] and [JSONObject].  The fuel bounds the depth
    of the calls; [loads] gives enough of it for any text.
    [array_items] starts at an element; [object_items] starts after the
    opening quote of a key. *)
Fixpoint scan_once (fuel : nat) (s : str) : option (value * str) :=
  match fuel with
  | O => None
  | S fuel' =>
      match s with
      | [] => None
      | c :: r =>
          if c =? QUOTE then
            match scanstring r with
            | Some (x, rest) => Some (VStr x, rest)
            | None => None
            end
          else if c =? 123 then
            match skip_ws r with
            | c1 :: r1 =>
                if c1 =? 125 then Some (VDict [], r1)
                else if c1 =? QUOTE then
                  match object_items fuel' r1 with
                  | Some (pairs, rest) => Some (VDict (dict_of_pairs pairs), rest)
                  | None => None
                  end
                else None
            | [] => None
            end
          else if c =? 91 then
            match skip_ws r with
            | c1 :: r1 =>
                if c1 =? 93 then Some (VList [], r1)
                else
                  match array_items fuel' (c1 :: r1) with
                  | Some (vs, rest) => Some (VList vs, rest)
                  | None => None
                  end
            | [] => None
            end
          else
            first_of (literal (u "null") VNone s)
           (first_of (literal (u "true") (VBool true) s)
           (first_of (literal (u "false") (VBool false) s)
           (first_of (match match_number s with
                      | Some (lexeme, rest) => Some (VNum lexeme, rest)
                      | None => None
                      end)
           (first_of (literal (u "NaN") (VNum (u "NaN")) s)
           (first_of (literal (u "Infinity") (VNum (u "Infinity")) s)
                     (literal (u "-Infinity") (VNum (u "-Infinity")) s))))))
      end
  end

with array_items (fuel : nat) (s : str) : option (list value * str) :=
  match fuel with
  | O => None
  | S fuel' =>
      match scan_once fuel' s with
      | None => None
      | Some (v, r) =>
          match skip_ws r with
          | c :: r1 =>
              if c =? 93 then Some ([v], r1)
              else if c =? 44 then
                match array_items fuel' (skip_ws r1) with
                | Some (vs, rest) => Some (v :: vs, rest)
                | None => None
                end
              else None
          | [] => None
          end
      end
  end

with object_items (fuel : nat) (s : str) : option (list (str * value) * str) :=
  match fuel with
  | O => None
  | S fuel' =>
      match scanstring s with
      | None => None
      | Some (key, r) =>
          match skip_ws r with
          | c :: r1 =>
              if c =? 58 then
                match scan_once fuel' (skip_ws r1) with
                | None => None
                | Some (v, r2) =>
                    match skip_ws r2 with
                    | c2 :: r3 =>
                        if c2 =? 125 then Some ([(key, v)], r3)
                        else if c2 =? 44 then
                          match skip_ws r3 with
                          | c3 :: r4 =>
                              if c3 =? QUOTE then
                                match object_items fuel' r4 with
                                | Some (kvs, rest) => Some ((key, v) :: kvs, rest)
                                | None => None
                                end
                              else None
                          | [] => None
                          end
                        else None
                    | [] => None
                    end
                end
              else None
          | [] => None
          end
      end
  end.

(** [json.loads(s)]: one value, blanks around it, and nothing else. *)
Definition loads (s : str) : option value :=
  match scan_once (2 * length s + 2) (skip_ws s) with
  | Some (v, rest) =>
      match skip_ws rest with
      | [] => Some v
      | _ :: _ => None
      end
  | None => None
  end.

End Json.

(* ================================================================== *)
(** ** The world: operating system and Qt *)
(* ================================================================== *)

(** *** File system.  A map from the text of a path to what is there.
    Whether an operation succeeds depends only on the paths it names and,
    where it creates a file, on the directory the file goes in. *)
Inductive node :=
| File (content : str) (mtime : Z)
| Dir (mtime : Z).

Definition node_mtime (n : node) : Z :=
  match n with
  | File _ t => t
  | Dir t => t
  end.

Abbreviation filesystem := (gmap str node).

(** [os.path.exists(p)], [Path(p).exists()] *)
Definition fs_exists (fs : filesystem) (p : str) : bool :=
  match fs !! p with
  | Some _ => true
  | None => false
  end.

(** [os.path.isfile(p)] *)
Definition fs_isfile (fs : filesystem) (p : str) : bool :=
  match fs !! p with
  | Some (File _ _) => true
  | _ => false
  end.

(** A file can be created at [p]: its directory is there.  A path without
    a directory part lies in the current directory. *)
Definition parent_ok (fs : filesystem) (p : str) : bool :=
  match dirname p with
  | [] => true
  | d =>
      match fs !! d with
      | Some (Dir _) => true
      | _ => false
      end
  end.

(** [os.remove(p)] *)
Definition os_remove (p : str) (fs : filesystem) : res filesystem :=
  match fs !! p with
  | Some (File _ _) => Val (delete p fs)
  | Some (Dir _) => Exc OSError
  | None => Exc FileNotFoundError
  end.

(** [os.makedirs(p, exist_ok=True)] at time [now].  The directories it
    makes above [p] are not recorded. *)
Definition os_makedirs (p : str) (now : Z) (fs : filesystem) : res filesystem :=
  match p with
  | [] => Exc FileNotFoundError
  | _ :: _ =>
      match fs !! p with
      | Some (Dir _) => Val fs
      | Some (File _ _) => Exc FileExistsError
      | None => Val (<[p := Dir now]> fs)
      end
  end.

(** [shutil.copyfile(src, dst)] at time [now] *)
Definition copyfile (src dst : str) (now : Z) (fs : filesystem) : res filesystem :=
  if bool_decide (src = dst) && fs_exists fs src then Exc SameFileError
  else
    match fs !! src with
    | None => Exc FileNotFoundError
    | Some (Dir _) => Exc OSError
    | Some (File content _) =>
        match fs !! dst with
        | Some (Dir _) => Exc OSError
        | _ =>
            if parent_ok fs dst then Val (<[dst := File content now]> fs)
            else Exc FileNotFoundError
        end
    end.

(** [os.path.join(a, b)] for a relative [b], on Windows. *)
Definition os_path_join (a b : str) : str := a ++ [BACKSLASH] ++ b.

(** [shutil.copy(src, dst)]: the path written and the new file system. *)
Definition shutil_copy (src dst : str) (now : Z) (fs : filesystem)
    : res (str * filesystem) :=
  let target :=
    match fs !! dst with
    | Some (Dir _) => os_path_join dst (basename src)
    | _ => dst
    end in
  match copyfile src target now fs with
  | Val fs' => Val (target, fs')
  | Exc e => Exc e
  end.

(** [with open(p, 'w') as f: f.write(content)] at time [now] *)
Definition write_text (p content : str) (now : Z) (fs : filesystem)
    : res filesystem :=
  match fs !! p with
  | Some (Dir _) => Exc OSError
  | _ =>
      if parent_ok fs p then Val (<[p := File content now]> fs)
      else Exc FileNotFoundError
  end.

(** [Path(p).stat().st_mtime] *)
Definition stat_mtime (fs : filesystem) (p : str) : res Z :=
  match fs !! p with
  | Some n => Val (node_mtime n)
  | None => Exc FileNotFoundError
  end.

(** [tempfile.mktemp(suffix)]: the first of the candidate names, with the
    suffix, that names nothing; [stems] are the values of
    [os.path.join(dir, prefix + name)] for the random names drawn. *)
Fixpoint mktemp (suffix : str) (stems : list str) (fs : filesystem)
    : res str * list str :=
  match stems with
  | [] => (Exc FileExistsError, [])
  | stem :: rest =>
      if fs_exists fs (stem ++ suffix)
      then mktemp suffix rest fs
      else (Val (stem ++ suffix), rest)
  end.

(** *** Dialogs, output, processes *)

Inductive icon := Critical | Question | Information | Warning.

(** A message box shown: its text is [text], followed by the message of
    the exception [detail] when the source formats one into it. *)
Record dialog := Dialog {
  d_icon : icon;
  d_title : str;
  d_text : str;
  d_detail : option exn
}.

(** The button a [QMessageBox.question] returns. *)
Inductive button := Yes | No | Cancel.

(** A line printed: [text], followed by the message of [detail]. *)
Record output := Print {
  o_text : str;
  o_detail : option exn
}.

(** What [subprocess.run] is given: an argument list, or one command line. *)
Inductive popen_args :=
| Argv (args : list str)
| CommandLine (line : str).

(** How a child process ends: with an exit status, or not started at all. *)
Inductive child :=
| Exited (status : Z)
| NotStarted.

(** What a worker thread does that the rest of the program can see. *)
Inductive event :=
| SubprocessRun (args : popen_args)
| Emit (payload : option bool)
| Printed (o : output).

(** [subprocess.run(args, check=True)] when the child ends as [c]. *)
Definition subprocess_run_check (args : popen_args) (c : child)
    : M (list event) unit :=
  modify (fun tr => tr ++ [SubprocessRun args]) ;;;
  match c with
  | Exited 0%Z => ret tt
  | Exited _ => raise CalledProcessError
  | NotStarted => raise FileNotFoundError
  end.

Record world := World {
  fs : filesystem;
  qsettings : gmap str str;       (* QSettings("YourOrganization", "AfterEffectsPipeline") *)
  project_ini : option (list (list str));   (* key [project_table] of ...ProjectSettings.ini *)
  processes : list str;           (* the names psutil reports *)
  shown : list dialog;            (* message boxes, oldest first *)
  started : list popen_args;      (* commands of the worker threads started *)
  printed : list output;
  username : str;                 (* getpass.getuser() *)
  clock : Z;                      (* the current time *)
  tmp_stems : list str;           (* candidate temporary names still to draw *)
  script_dir : path               (* Path(__file__).parent *)
}.

Definition set_fs (f : filesystem) (w : world) : world :=
  World f (qsettings w) (project_ini w) (processes w) (shown w) (started w)
        (printed w) (username w) (clock w) (tmp_stems w) (script_dir w).

Definition set_qsettings (q : gmap str str) (w : world) : world :=
  World (fs w) q (project_ini w) (processes w) (shown w) (started w)
        (printed w) (username w) (clock w) (tmp_stems w) (script_dir w).

Definition set_shown (d : list dialog) (w : world) : world :=
  World (fs w) (qsettings w) (project_ini w) (processes w) d (started w)
        (printed w) (username w) (clock w) (tmp_stems w) (script_dir w).

Definition set_started (t : list popen_args) (w : world) : world :=
  World (fs w) (qsettings w) (project_ini w) (processes w) (shown w) t
        (printed w) (username w) (clock w) (tmp_stems w) (script_dir w).

Definition set_printed (o : list output) (w : world) : world :=
  World (fs w) (qsettings w) (project_ini w) (processes w) (shown w) (started w)
        o (username w) (clock w) (tmp_stems w) (script_dir w).

Definition set_tmp_stems (t : list str) (w : world) : world :=
  World (fs w) (qsettings w) (project_ini w) (processes w) (shown w) (started w)
        (printed w) (username w) (clock w) t (script_dir w).

(** [settings.value(key, default)] *)
Definition settings_value (q : gmap str str) (key dflt : str) : str :=
  default dflt (q !! key).

(** *** [QTableWidget] with five columns.  Rows are kept in the order the
    program's calls put them in; sorting by a header is not modelled. *)

(** The two buttons of an action cell: what their lambdas captured. *)
Record widget := Buttons {
  captured_path : option str;
  captured_index : nat
}.

Record row := Row {
  items : list (option str);      (* the item of each column, if any *)
  cell_widget : option widget;    (* the widget of column 4 *)
  hidden : bool
}.

Abbreviation table := (list row).

Definition empty_row : row := Row (replicate 5 None) None false.

Definition rowCount (t : table) : nat := length t.

Definition setRowCount (n : nat) (t : table) : table :=
  take n t ++ replicate (n - length t) empty_row.

Definition insertRow (i : nat) (t : table) : table :=
  if decide (i <= length t)%nat then take i t ++ empty_row :: drop i t else t.

Definition removeRow (i : nat) (t : table) : table := delete i t.

Definition setItem (r c : nat) (text : str) (t : table) : table :=
  match t !! r with
  | Some x => <[r := Row (<[c := Some text]> (items x)) (cell_widget x) (hidden x)]> t
  | None => t
  end.

Definition item (r c : nat) (t : table) : option str :=
  match t !! r with
  | Some x => mjoin (items x !! c)
  | None => None
  end.

Definition setCellWidget (r : nat) (wd : widget) (t : table) : table :=
  match t !! r with
  | Some x => <[r := Row (items x) (Some wd) (hidden x)]> t
  | None => t
  end.

Definition setRowHidden (r : nat) (hide : bool) (t : table) : table :=
  match t !! r with
  | Some x => <[r := Row (items x) (cell_widget x) hide]> t
  | None => t
  end.

(** [QTableWidgetItem(x)] for a text [x].  What the other overloads of the
    constructor make of a value that is not text is not modelled: it is
    taken as a [TypeError], and no statement below rests on it. *)
Definition QTableWidgetItem (x : value) : res str :=
  match x with
  | VStr s => Val s
  | _ => Exc TypeError
  end.

(** [r >>= k] on results. *)
Definition res_bind {A B} (r : res A) (k : A -> res B) : res B :=
  match r with
  | Val a => k a
  | Exc e => Exc e
  end.

(** Iterating over an object: a list gives its items, a string its
    characters, a dictionary its keys; nothing else can be iterated. *)
Definition py_iter (v : value) : res (list value) :=
  match v with
  | VList l => Val l
  | VStr s => Val ((fun c => VStr [c]) <$> s)
  | VDict d => Val ((fun kv => VStr kv.1) <$> d)
  | _ => Exc TypeError
  end.

(** [isinstance(v, dict)] *)
Definition is_dict (v : value) : bool :=
  match v with
  | VDict _ => true
  | _ => false
  end.

(** [v[key]] for a string [key] *)
Definition subscript (v : value) (key : str) : res value :=
  match v with
  | VDict d =>
      match dict_lookup key d with
      | Some x => Val x
      | None => Exc KeyError
      end
  | _ => Exc TypeError
  end.

(** [v.get(key, dflt)] *)
Definition dict_get (v : value) (key : str) (dflt : value) : res value :=
  match v with
  | VDict d => Val (default dflt (dict_lookup key d))
  | _ => Exc AttributeError
  end.

(** [Path(v)], [os.path.basename(v)]: the argument must be text. *)
Definition as_str (v : value) : res str :=
  match v with
  | VStr s => Val s
  | _ => Exc TypeError
  end.

(** The script both revisions write, around the path [corrected_path]. *)
Definition jsx_script (corrected_path : str) : str :=
  [NEWLINE] ++
  u "            var fileToImport = new File(" ++ [QUOTE] ++ corrected_path
    ++ [QUOTE] ++ u ");" ++ [NEWLINE] ++
  u "            if (fileToImport.exists) {" ++ [NEWLINE] ++
  u "                app.project.importFile(new ImportOptions(fileToImport));"
    ++ [NEWLINE] ++
  u "            } else {" ++ [NEWLINE] ++
  u "                alert('File does not exist: " ++ corrected_path ++ u "');"
    ++ [NEWLINE] ++
  u "            }" ++ [NEWLINE] ++
  u "        ".

(** [os.path.join(a, b)] on Windows for a [b] that is a file name: nothing
    is put after an empty [a], a bare drive or a separator. *)
Definition ntpath_join (a b : str) : str :=
  match a with
  | [] => b
  | [_; c] => if (c =? 58) || is_sep c then a ++ b else a ++ [BACKSLASH] ++ b
  | _ =>
      match last a with
      | Some c => if is_sep c then a ++ b else a ++ [BACKSLASH] ++ b
      | None => b
      end
  end.

(** [v.pop(row)] for a position [row]: a list loses that item; a
    dictionary has no such key; nothing else has the method. *)
Definition pop_at (row : nat) (v : value) : res value :=
  match v with
  | VList l =>
      if decide (row < length l)%nat then Val (VList (delete row l)) else Exc IndexError
  | VDict _ => Exc KeyError
  | _ => Exc AttributeError
  end.

(** The exceptions [except OSError] catches. *)
Definition is_os_error (e : exn) : bool :=
  match e with
  | FileNotFoundError | FileExistsError | SameFileError | OSError => true
  | _ => false
  end.

(** A child process run while the program waits: its trace is kept beside
    the world, and the child leaves the file system as it is. *)
Definition on_trace {A} (c : M (list event) A) : M (world * list event) A :=
  fun s =>
    match c s.2 with
    | (r, tr) => (r, (s.1, tr))
    end.

(** [Path(s)] where the empty text matters: [Path("")] is [Path(".")]. *)
Definition pathlib_Path (s : str) : path :=
  match s with
  | [] => u "."
  | _ :: _ => s
  end.

(** The script [import_to_current_project] of [py_ae_v3.py] writes. *)
Definition import_script (file_path : str) : str :=
  [NEWLINE] ++
  u "        var proj = app.project;" ++ [NEWLINE] ++
  u "        if (proj) {" ++ [NEWLINE] ++
  u "            var fileToImport = new ImportOptions();" ++ [NEWLINE] ++
  u "            fileToImport.file = new File(" ++ [QUOTE] ++ file_path ++ [QUOTE]
    ++ u ");" ++ [NEWLINE] ++
  u "            proj.importFile(fileToImport);" ++ [NEWLINE] ++
  u "        }" ++ [NEWLINE] ++
  u "        ".

(** The executable [py_ae_v3.py] names in its code. *)
Definition aerender_path : str :=
  u "C:\Program Files\Adobe\Adobe After Effects 2024\Support Files\AfterFX.exe".

(* ================================================================== *)
(** ** The program state: the world and the attributes of the widget *)
(* ================================================================== *)

Section State.
Context {app : Type}.

Definition the_world : M (world * app) world := gets fst.
Definition self : M (world * app) app := gets snd.
Definition with_world (f : world -> world) : M (world * app) unit :=
  modify (fun s => (f s.1, s.2)).
Definition with_self (f : app -> app) : M (world * app) unit :=
  modify (fun s => (s.1, f s.2)).

(** A [QMessageBox] shown. *)
Definition message_box (i : icon) (title text : str) (detail : option exn)
    : M (world * app) unit :=
  with_world (fun w => set_shown (shown w ++ [Dialog i title text detail]) w).

Definition print (text : str) (detail : option exn) : M (world * app) unit :=
  with_world (fun w => set_printed (printed w ++ [Print text detail]) w).

(** [settings.setValue(key, v)] *)
Definition setValue (key v : str) : M (world * app) unit :=
  with_world (fun w => set_qsettings (<[key := v]> (qsettings w)) w).

(** [show_error_message(title, message)], the same in both revisions. *)
Definition show_error_message (title message : str) : M (world * app) unit :=
  message_box Critical title message None.

(** [is_after_effects_running()], the same in both revisions. *)
Definition is_after_effects_running : M (world * app) bool :=
  w <- the_world ;;
  let ae_process_name := u "AfterFX.exe" in
  ret (existsb (fun name => str_in ae_process_name name) (processes w)).

End State.

(* ================================================================== *)
(** ** [py_ae_v3.py] *)
(* ================================================================== *)

Module V3.

(** An element of [self.last_project_files]: the dictionary
    [{"path": p, "created_by": c}] that [update_last_projects_list] and
    [load_settings] build, or a bare [Path] as [load_all_projects]
    returns them. *)
Inductive project_entry :=
| ProjectInfo (p : path) (created_by : value)
| BarePath (p : path).

(** [project["path"]] *)
Definition entry_path (e : project_entry) : res path :=
  match e with
  | ProjectInfo p _ => Val p
  | BarePath _ => Exc TypeError
  end.

(** [project["created_by"]] *)
Definition entry_created_by (e : project_entry) : res value :=
  match e with
  | ProjectInfo _ c => Val c
  | BarePath _ => Exc TypeError
  end.

(** [project.name] *)
Definition entry_name (e : project_entry) : res str :=
  match e with
  | ProjectInfo _ _ => Exc AttributeError
  | BarePath p => Val (path_name p)
  end.

(** The attributes of the [AfterEffectsPipeline] widget. *)
Record app := App {
  last_project_directory : option path;
  last_project_files : list project_entry;
  imported_assets : value;
  last_projects_table : table;
  imported_assets_table : table;
  asset_search_bar : str          (* the text of the asset search field *)
}.

Definition set_last_project_directory (d : option path) (a : app) : app :=
  App d (last_project_files a) (imported_assets a) (last_projects_table a)
      (imported_assets_table a) (asset_search_bar a).

Definition set_last_project_files (l : list project_entry) (a : app) : app :=
  App (last_project_directory a) l (imported_assets a) (last_projects_table a)
      (imported_assets_table a) (asset_search_bar a).

Definition set_imported_assets (v : value) (a : app) : app :=
  App (last_project_directory a) (last_project_files a) v (last_projects_table a)
      (imported_assets_table a) (asset_search_bar a).

Definition on_last_projects_table (f : table -> table) (a : app) : app :=
  App (last_project_directory a) (last_project_files a) (imported_assets a)
      (f (last_projects_table a)) (imported_assets_table a) (asset_search_bar a).

Definition on_imported_assets_table (f : table -> table) (a : app) : app :=
  App (last_project_directory a) (last_project_files a) (imported_assets a)
      (last_projects_table a) (f (imported_assets_table a)) (asset_search_bar a).

Definition state : Type := world * app.

Section Methods.
Context {platform : Platform}.

Definition save_settings : M state unit :=
  a <- self ;;
  serialized_projects <-
    lift (res_bind
            (map_res (fun project =>
                        res_bind (entry_path project) (fun p =>
                        res_bind (entry_created_by project) (fun c =>
                        Val (VDict [(u "path", VStr (str_of_path p));
                                    (u "created_by", c)]))))
                     (last_project_files a))
            (fun dicts => Val (Json.dumps (VList dicts)))) ;;
  setValue (u "last_project_files") serialized_projects ;;;
  setValue (u "imported_assets") (Json.dumps (imported_assets a)).

Definition save_imported_assets_settings : M state unit :=
  a <- self ;;
  let serialized_assets := Json.dumps (imported_assets a) in
  setValue (u "imported_assets") serialized_assets.

Definition populate_imported_assets_table
    (asset_name file_path last_modified imported_by : value) : M state unit :=
  a <- self ;;
  let row_count := rowCount (imported_assets_table a) in
  with_self (on_imported_assets_table (insertRow row_count)) ;;;
  x0 <- lift (QTableWidgetItem asset_name) ;;
  with_self (on_imported_assets_table (setItem row_count 0 x0)) ;;;
  x1 <- lift (QTableWidgetItem file_path) ;;
  with_self (on_imported_assets_table (setItem row_count 1 x1)) ;;;
  x2 <- lift (QTableWidgetItem last_modified) ;;
  with_self (on_imported_assets_table (setItem row_count 2 x2)) ;;;
  x3 <- lift (QTableWidgetItem imported_by) ;;
  with_self (on_imported_assets_table (setItem row_count 3 x3)) ;;;
  with_self (on_imported_assets_table
               (setCellWidget row_count (Buttons (Some x1) row_count))) ;;;
  with_self (on_imported_assets_table (setRowCount (row_count + 1))).

(** The body of the loop of [populate_last_projects_table]. *)
Definition show_project (index : nat) (project_info : project_entry) : M state unit :=
  p <- lift (entry_path project_info) ;;
  let project_path := Path p in
  let project_name := path_name project_path in
  let file_path := str_of_path project_path in
  w <- the_world ;;
  mtime <- lift (stat_mtime (fs w) (str_of_path project_path)) ;;
  let last_modified := strftime mtime in
  created_by <- lift (entry_created_by project_info) ;;
  with_self (on_last_projects_table (insertRow index)) ;;;
  with_self (on_last_projects_table (setItem index 0 project_name)) ;;;
  with_self (on_last_projects_table (setItem index 1 file_path)) ;;;
  with_self (on_last_projects_table (setItem index 2 last_modified)) ;;;
  x3 <- lift (QTableWidgetItem created_by) ;;
  with_self (on_last_projects_table (setItem index 3 x3)) ;;;
  with_self (on_last_projects_table (setCellWidget index (Buttons None index))).

Definition populate_last_projects_table : M state unit :=
  with_self (on_last_projects_table (setRowCount 0)) ;;;
  a <- self ;;
  w <- the_world ;;
  existing_projects <-
    lift (filter_res (fun project =>
                        res_bind (entry_path project) (fun p =>
                        Val (fs_exists (fs w) (str_of_path (Path p)))))
                     (last_project_files a)) ;;
  with_self (set_last_project_files existing_projects) ;;;
  for_enumerate 0 existing_projects show_project ;;;
  save_settings.

Definition load_all_projects : M state (list project_entry) :=
  w <- the_world ;;
  match qsettings w !! u "last_project_directory" with
  | None => ret []
  | Some [] => ret []
  | Some (_ :: _) =>
      ret (match qsettings w !! u "last_project_files" with
           | Some stored => (fun i => BarePath (Path [i])) <$> stored
           | None => []
           end)
  end.

Definition filter_projects (text : str) : M state unit :=
  match text with
  | [] =>
      all <- load_all_projects ;;
      with_self (set_last_project_files all) ;;;
      populate_last_projects_table
  | _ :: _ =>
      a <- self ;;
      filtered_projects <-
        lift (filter_res (fun project =>
                            let needle := str_lower text in
                            res_bind (entry_name project) (fun name =>
                            Val (str_in needle (str_lower name))))
                         (last_project_files a)) ;;
      with_self (set_last_project_files filtered_projects) ;;;
      populate_last_projects_table
  end.

(** The body of the loop of [filter_assets]. *)
Definition filter_asset_row (search_text : str) (r : nat) : M state unit :=
  a <- self ;;
  match item r 0 (imported_assets_table a) with
  | Some text =>
      let asset_name := str_lower text in
      if str_in search_text asset_name
      then with_self (on_imported_assets_table (setRowHidden r false))
      else with_self (on_imported_assets_table (setRowHidden r true))
  | None => ret tt
  end.

Definition filter_assets : M state unit :=
  a <- self ;;
  let search_text := str_lower (asset_search_bar a) in
  for_each (seq 0 (rowCount (imported_assets_table a))) (filter_asset_row search_text).

Definition update_last_projects_list (project_path : path) (created_by : str)
    : M state unit :=
  let project_info := ProjectInfo project_path (VStr created_by) in
  a <- self ;;
  with_self (set_last_project_files (last_project_files a ++ [project_info])) ;;;
  populate_last_projects_table.

(** [answer] is what the user presses in the confirmation dialog. *)
Definition delete_project (answer : button) (index : Z) : M state unit :=
  a <- self ;;
  if negb ((0 <=? index)%Z && (index <? Z.of_nat (length (last_project_files a)))%Z)
  then message_box Warning (u "Invalid Selection")
                   (u "The selected project is invalid.") None
  else
    project_info <-
      lift (match last_project_files a !! Z.to_nat index with
            | Some e => Val e
            | None => Exc IndexError
            end) ;;
    p <- lift (entry_path project_info) ;;
    let project_path := Path p in
    message_box Question (u "Confirmation")
                (u "Are you sure you want to delete this project?") None ;;;
    match answer with
    | Yes =>
        try_except
          (w <- the_world ;;
           (if negb (fs_exists (fs w) (str_of_path project_path))
            then raise FileNotFoundError else ret tt) ;;;
           fs' <- lift (os_remove (str_of_path project_path) (fs w)) ;;
           with_world (set_fs fs') ;;;
           a <- self ;;
           with_self (set_last_project_files
                        (delete (Z.to_nat index) (last_project_files a))) ;;;
           populate_last_projects_table ;;;
           save_settings ;;;
           message_box Information (u "Success")
                       (u "The project has been successfully deleted.") None)
          (fun e =>
             match e with
             | FileNotFoundError =>
                 Some (message_box Information (u "File Not Found") [] (Some e))
             | _ =>
                 Some (message_box Critical (u "Error")
                                   (u "Error deleting project file: ") (Some e))
             end)
    | _ => ret tt
    end.

(** [project_name] and [ok_pressed] are what [QInputDialog.getText] returns. *)
Definition create_new_project_connection (project_name : str) (ok_pressed : bool)
    : M state unit :=
  w <- the_world ;;
  let projectsFolder :=
    settings_value (qsettings w) (u "projectsFolder") (u "default/path/to/projects") in
  (if negb (fs_exists (fs w) projectsFolder)
   then fs' <- lift (os_makedirs projectsFolder (clock w) (fs w)) ;;
        with_world (set_fs fs')
   else ret tt) ;;;
  try_except
    (match ok_pressed, project_name with
     | true, _ :: _ =>
         let new_project_path := Path_join (Path projectsFolder) (project_name ++ u ".aep") in
         let template_project_path := u "C:/Users/marty/ae_test_2/Blank_Project.aep" in
         w <- the_world ;;
         fs' <- lift (copyfile template_project_path (str_of_path new_project_path)
                               (clock w) (fs w)) ;;
         with_world (set_fs fs') ;;;
         let created_by := username w in
         update_last_projects_list new_project_path created_by ;;;
         save_settings
     | _, _ => ret tt
     end)
    (fun e => Some (print (u "An error occurred: ") (Some e))).

Definition get_after_effects_path : M state (option str) :=
  w <- the_world ;;
  let aePath := settings_value (qsettings w) (u "aePath") [] in
  if bool_decide (aePath = []) || negb (fs_isfile (fs w) aePath)
  then show_error_message (u "Error")
         (u "After Effects executable path is not set correctly in settings.") ;;;
       ret None
  else ret (Some aePath).

Definition get_assets_folder_path : M state (option str) :=
  w <- the_world ;;
  let assetsFolder := settings_value (qsettings w) (u "assetsFolder") [] in
  if bool_decide (assetsFolder = []) || negb (fs_exists (fs w) assetsFolder)
  then show_error_message (u "Assets folder not set")
         (u "Please set the assets folder path in settings.") ;;;
       ret None
  else ret (Some assetsFolder).

(** [picked] is the file name [QFileDialog.getOpenFileName] returns. *)
Definition prompt_user_for_file (picked : str) (assetsFolder : str)
    : M state (option str) :=
  match picked with
  | [] => ret None
  | _ :: _ => ret (Some picked)
  end.

(** [AfterEffectsThread(command)]: the thread keeps the list. *)
Definition AfterEffectsThread (command : list str) : popen_args := Argv command.

(** [AfterEffectsThread.run] when the child process ends as [c]. *)
Definition AfterEffectsThread_run (command : popen_args) (c : child)
    : M (list event) unit :=
  try_finally
    (try_except
       (subprocess_run_check command c)
       (fun e =>
          match e with
          | CalledProcessError =>
              Some (modify (fun tr =>
                      tr ++ [Printed (Print (u "Error during After Effects execution: ")
                                            (Some e))]))
          | _ => None
          end))
    (modify (fun tr => tr ++ [Emit None])).

Definition run_after_effects_command_async (command : list str) : M state unit :=
  let thread := AfterEffectsThread command in
  with_world (fun w => set_started (started w ++ [thread]) w).

Definition execute_jsx_script (aePath file_path : str) : M state unit :=
  let corrected_path := replace [BACKSLASH] [BACKSLASH; BACKSLASH] file_path in
  let script_content := jsx_script corrected_path in
  w <- the_world ;;
  let (name, rest) := mktemp (u ".jsx") (tmp_stems w) (fs w) in
  with_world (set_tmp_stems rest) ;;;
  script_file_path <- lift name ;;
  fs' <- lift (write_text script_file_path script_content (clock w) (fs w)) ;;
  with_world (set_fs fs') ;;;
  run_after_effects_command_async [aePath; u "-r"; script_file_path].

Definition update_imported_assets (file_path last_modified imported_by : str)
    : M state unit :=
  let asset_name := basename file_path in
  a <- self ;;
  appended <-
    lift (match imported_assets a with
          | VList l =>
              Val (VList (l ++ [VDict [(u "path", VStr file_path);
                                       (u "last_modified", VStr last_modified);
                                       (u "imported_by", VStr imported_by)]]))
          | _ => Exc AttributeError
          end) ;;
  with_self (set_imported_assets appended) ;;;
  populate_imported_assets_table (VStr asset_name) (VStr file_path)
                                 (VStr last_modified) (VStr imported_by) ;;;
  save_imported_assets_settings.

Definition import_file_connection (picked : str) : M state unit :=
  running <- is_after_effects_running ;;
  if negb running
  then show_error_message (u "After Effects Not Running")
         (u "Adobe After Effects must be open to import assets.")
  else
    found <- get_after_effects_path ;;
    match found with
    | None => ret tt
    | Some aePath =>
        found <- get_assets_folder_path ;;
        match found with
        | None => ret tt
        | Some assetsFolder =>
            chosen <- prompt_user_for_file picked assetsFolder ;;
            match chosen with
            | None => ret tt
            | Some file_name =>
                w <- the_world ;;
                copied <- lift (shutil_copy file_name assetsFolder (clock w) (fs w)) ;;
                let destination := copied.1 in
                with_world (set_fs copied.2) ;;;
                let imported_by := username w in
                let current_time := strftime (clock w) in
                execute_jsx_script aePath destination ;;;
                update_imported_assets file_name current_time imported_by
            end
        end
    end.

(** [json.loads(s)] as a computation that may raise. *)
Definition json_loads (s : str) : res value :=
  match Json.loads s with
  | Some v => Val v
  | None => Exc JSONDecodeError
  end.

(** The comprehension of [load_settings] over what [json.loads] returned:
    [[{"path": Path(project["path"]),
       "created_by": project.get("created_by", "Unknown")}
      for project in loaded if isinstance(project, dict)]] *)
Definition parse_projects (loaded : value) : res (list project_entry) :=
  res_bind (py_iter loaded) (fun projects =>
  map_res (fun project =>
             res_bind (subscript project (u "path")) (fun p =>
             res_bind (as_str p) (fun p =>
             res_bind (dict_get project (u "created_by") (VStr (u "Unknown")))
                      (fun c => Val (ProjectInfo (Path p) c)))))
          (filter is_dict projects)).

(** The first [try] block of [load_settings]. *)
Definition load_last_project_files (settings : gmap str str) : M state unit :=
  try_except
    (loaded <- lift (json_loads (settings_value settings (u "last_project_files") (u "[]"))) ;;
     entries <- lift (parse_projects loaded) ;;
     with_self (set_last_project_files entries))
    (fun e =>
       match e with
       | JSONDecodeError => Some (with_self (set_last_project_files []))
       | _ => None
       end).

(** The second [try] block of [load_settings]. *)
Definition load_imported_assets (settings : gmap str str) : M state unit :=
  try_except
    (loaded <- lift (json_loads (settings_value settings (u "imported_assets") (u "[]"))) ;;
     with_self (set_imported_assets loaded))
    (fun e =>
       match e with
       | JSONDecodeError => Some (with_self (set_imported_assets (VList [])))
       | _ => None
       end).

(** The body of the last loop of [load_settings]. *)
Definition show_asset (asset : value) : M state unit :=
  p <- lift (subscript asset (u "path")) ;;
  asset_name <- lift (res_bind (as_str p) (fun s => Val (VStr (basename s)))) ;;
  file_path <- lift (subscript asset (u "path")) ;;
  last_modified <- lift (subscript asset (u "last_modified")) ;;
  imported_by <- lift (dict_get asset (u "imported_by") (VStr (u "Unknown"))) ;;
  populate_imported_assets_table asset_name file_path last_modified imported_by.

Definition load_settings : M state unit :=
  w <- the_world ;;
  let settings := qsettings w in
  with_self (set_last_project_directory
               (match settings !! u "last_project_directory" with
                | Some (c :: d) => Some (Path (c :: d))
                | _ => None
                end)) ;;;
  load_last_project_files settings ;;;
  load_imported_assets settings ;;;
  with_self (on_last_projects_table (setRowCount 0)) ;;;
  with_self (on_imported_assets_table (setRowCount 0)) ;;;
  populate_last_projects_table ;;;
  a <- self ;;
  assets <- lift (py_iter (imported_assets a)) ;;
  for_each assets show_asset.

(** [answer] is what the user presses in the confirmation dialog; [row] is
    the row the button was made for. *)
Definition delete_imported_asset (answer : button) (row : nat) : M state unit :=
  message_box Question (u "Confirmation")
              (u "Are you sure you want to delete this asset?") None ;;;
  match answer with
  | Yes =>
      a <- self ;;
      asset_name <- lift (match item row 0 (imported_assets_table a) with
                          | Some text => Val text
                          | None => Exc AttributeError
                          end) ;;
      w <- the_world ;;
      let assetsFolder := settings_value (qsettings w) (u "assetsFolder") [] in
      let asset_path := ntpath_join assetsFolder asset_name in
      with_self (on_imported_assets_table (removeRow row)) ;;;
      a <- self ;;
      popped <- lift (pop_at row (imported_assets a)) ;;
      with_self (set_imported_assets popped) ;;;
      (if fs_exists (fs w) asset_path
       then
         try_except
           (fs' <- lift (os_remove asset_path (fs w)) ;;
            with_world (set_fs fs') ;;;
            print (u "Deleted asset at: " ++ asset_path) None)
           (fun e =>
              if is_os_error e
              then Some (message_box Critical (u "Error")
                                     (u "Failed to delete asset file: ") (Some e) ;;;
                         print (u "Failed to delete asset at: " ++ asset_path
                                  ++ u ". Error: ") (Some e))
              else None)
       else message_box Information (u "Error")
                        (u "Asset file not found in the assets folder.") None) ;;;
      save_imported_assets_settings
  | _ => ret tt
  end.

(** [import_to_current_project(file_path)] when the child process ends as
    [c].  It reads and writes no attribute of the widget: its state is the
    world and the trace of the child it waits for. *)
Definition import_to_current_project (file_path : str) (c : child)
    : M (world * list event) unit :=
  running <- is_after_effects_running ;;
  if negb running
  then show_error_message (u "After Effects Not Running")
         (u "Adobe After Effects must be open to perform this action.")
  else
    if bool_decide (aerender_path = [])
    then show_error_message (u "After Effects path not provided")
           (u "Please enter the path to After Effects.")
    else
      let script_content := import_script file_path in
      w <- the_world ;;
      let (name, rest) := mktemp (u ".jsx") (tmp_stems w) (fs w) in
      with_world (set_tmp_stems rest) ;;;
      script_file_path <- lift name ;;
      fs' <- lift (write_text script_file_path script_content (clock w) (fs w)) ;;
      with_world (set_fs fs') ;;;
      let command := [aerender_path; u "-r"; script_file_path] in
      try_except
        (on_trace (subprocess_run_check (Argv command) c))
        (fun e =>
           match e with
           | CalledProcessError =>
               Some (print (u "Error during After Effects execution: ") (Some e))
           | _ => None
           end) ;;;
      w <- the_world ;;
      fs'' <- lift (os_remove script_file_path (fs w)) ;;
      with_world (set_fs fs'').

(** [open_after_effects_project_connection] when the file dialog returns
    [project_path]; [path_parent] is [Path.parent].  The call of
    [update_last_projects_list] leaves out [created_by], which has no
    default: it is a [TypeError], and the statements after it are never
    run. *)
Definition open_after_effects_project_connection (path_parent : path -> path)
    (project_path : str) : M state unit :=
  w <- the_world ;;
  if negb (fs_exists (fs w) (str_of_path (Path aerender_path)))
  then show_error_message (u "After Effects path not provided")
         (u "Executable not found.")
  else
    match project_path with
    | [] => ret tt
    | _ :: _ =>
        print (u "Project selected: " ++ project_path) None ;;;
        with_self (set_last_project_directory
                     (Some (path_parent (Path project_path)))) ;;;
        raise TypeError
    end.

(** [showSettingsDialog] when the dialog is closed with [accepted] and
    its three fields hold [aePath], [assetsFolder] and [projectsFolder]. *)
Definition showSettingsDialog (accepted : bool) (aePath assetsFolder projectsFolder : str)
    : M state unit :=
  if accepted
  then setValue (u "aePath") aePath ;;;
       setValue (u "assetsFolder") assetsFolder ;;;
       setValue (u "projectsFolder") projectsFolder
  else ret tt.

End Methods.

End V3.

(* ================================================================== *)
(** ** [py_ae.py] *)
(* ================================================================== *)

Module PyAe.

(** The attributes of the [AfterEffectsPipeline] widget the methods below
    read or write.  This revision keeps no list of projects beside the
    table. *)
Record app := App {
  projects_table : table;
  imported_assets_table : table;
  asset_search_bar : str
}.

Definition on_projects_table (f : table -> table) (a : app) : app :=
  App (f (projects_table a)) (imported_assets_table a) (asset_search_bar a).

Definition on_imported_assets_table (f : table -> table) (a : app) : app :=
  App (projects_table a) (f (imported_assets_table a)) (asset_search_bar a).

Definition state : Type := world * app.

(** The dictionary [_create_blank_project_data] returns, with its four
    keys in order. *)
Record project_data := ProjectData {
  Project_Name : str;
  File_Path : str;
  Last_Modified : str;
  Created_By : str
}.

Definition _create_blank_project_data : project_data := ProjectData [] [] [] [].

(** [row_data.values()] *)
Definition values (d : project_data) : list str :=
  [Project_Name d; File_Path d; Last_Modified d; Created_By d].

(** [i[k]] on a stored row. *)
Definition index_row (i : list str) (k : nat) : res str :=
  match i !! k with
  | Some x => Val x
  | None => Exc IndexError
  end.

Section Methods.
Context {platform : Platform}.

Definition filter_projects (sub_string : str) : M state unit :=
  print (u "need to rewrite - substring: " ++ sub_string) None.

(** The body of the loop of [filter_assets]. *)
Definition filter_asset_row (search_text : str) (r : nat) : M state unit :=
  a <- self ;;
  match item r 0 (imported_assets_table a) with
  | Some text =>
      let asset_name := str_lower text in
      if str_in search_text asset_name
      then with_self (on_imported_assets_table (setRowHidden r false))
      else with_self (on_imported_assets_table (setRowHidden r true))
  | None => ret tt
  end.

Definition filter_assets : M state unit :=
  a <- self ;;
  let search_text := str_lower (asset_search_bar a) in
  for_each (seq 0 (rowCount (imported_assets_table a))) (filter_asset_row search_text).

Definition remove_row (index : nat) : M state unit :=
  a <- self ;;
  let count := rowCount (projects_table a) in
  if decide (index < count)%nat
  then with_self (on_projects_table (removeRow index))
  else ret tt.

(** [_create_project_widget(row_index, project_path)] *)
Definition _create_project_widget (row_index : nat) (project_path : str) : widget :=
  Buttons (Some project_path) row_index.

Definition add_project_row (row_data : project_data) : M state unit :=
  a <- self ;;
  let new_row_index := rowCount (projects_table a) in
  with_self (on_projects_table (insertRow new_row_index)) ;;;
  for_enumerate 0 (values row_data) (fun i v =>
    with_self (on_projects_table (setItem new_row_index i v))) ;;;
  let action_widget := _create_project_widget new_row_index (File_Path row_data) in
  with_self (on_projects_table (setCellWidget new_row_index action_widget)).

(** The body of the loop of [_load_project_settings]. *)
Definition load_stored_row (i : list str) : M state unit :=
  i1 <- lift (index_row i 1) ;;
  w <- the_world ;;
  if negb (fs_exists (fs w) (str_of_path (Path i1))) then ret tt
  else
    i0 <- lift (index_row i 0) ;;
    i1 <- lift (index_row i 1) ;;
    i2 <- lift (index_row i 2) ;;
    i3 <- lift (index_row i 3) ;;
    let table_data := ProjectData i0 i1 i2 i3 in
    add_project_row table_data.

Definition _load_project_settings : M state unit :=
  w <- the_world ;;
  match project_ini w with
  | None => ret tt
  | Some [] => ret tt
  | Some save_data => for_each save_data load_stored_row
  end.

(** [answer] is what the user presses in the confirmation dialog. *)
Definition delete_project (answer : button) (index : nat) : M state unit :=
  message_box Question (u "Confirmation")
              (u "Are you sure you want to delete this project?") None ;;;
  match answer with
  | Yes =>
      a <- self ;;
      text <- lift (match item index 1 (projects_table a) with
                    | Some t => Val t
                    | None => Exc AttributeError
                    end) ;;
      let project_path := Path text in
      w <- the_world ;;
      if negb (fs_exists (fs w) (str_of_path project_path))
      then raise TypeError     (* [QMessageBox.information] called without its text *)
      else
        fs' <- lift (os_remove (str_of_path project_path) (fs w)) ;;
        with_world (set_fs fs') ;;;
        remove_row index
  | _ => ret tt
  end.

(** [project_name] and [ok_pressed] are what [QInputDialog.getText] returns. *)
Definition create_new_project_connection (project_name : str) (ok_pressed : bool)
    : M state unit :=
  w <- the_world ;;
  let projectsFolder :=
    Path (settings_value (qsettings w) (u "projectsFolder") (u "default/path/to/projects")) in
  (if negb (fs_exists (fs w) (str_of_path projectsFolder))
   then fs' <- lift (os_makedirs (str_of_path projectsFolder) (clock w) (fs w)) ;;
        with_world (set_fs fs')
   else ret tt) ;;;
  try_except
    (match ok_pressed, project_name with
     | true, _ :: _ =>
         let new_project_path := Path_join projectsFolder (project_name ++ u ".aep") in
         w <- the_world ;;
         let template_project_path := Path_join (script_dir w) (u "Blank_Project.aep") in
         fs' <- lift (copyfile (str_of_path template_project_path)
                               (as_posix new_project_path) (clock w) (fs w)) ;;
         with_world (set_fs fs') ;;;
         let created_by := username w in
         w <- the_world ;;
         mtime <- lift (stat_mtime (fs w) (str_of_path new_project_path)) ;;
         let data :=
           ProjectData project_name (as_posix new_project_path)
                       (strftime mtime) (username w) in
         add_project_row data
     | _, _ => ret tt
     end)
    (fun e => Some (print (u "An error occurred: ") (Some e))).

(** [AfterEffectsThread(command, parent)]: the thread keeps the elements
    joined by blanks. *)
Definition AfterEffectsThread (command : list str) : popen_args :=
  CommandLine (join [32] command).

(** [AfterEffectsThread.run] when the child process ends as [c]. *)
Definition AfterEffectsThread_run (command : popen_args) (c : child)
    : M (list event) unit :=
  try_except
    (subprocess_run_check command c ;;;
     modify (fun tr => tr ++ [Emit (Some true)]))
    (fun e =>
       match e with
       | CalledProcessError =>
           Some (modify (fun tr =>
                   tr ++ [Printed (Print (u "[5] Error during After Effects execution: ")
                                         (Some e))]) ;;;
                 modify (fun tr => tr ++ [Emit (Some false)]))
       | _ => None
       end).

Definition run_after_effects_command_async (command : list str) : M state unit :=
  let thread := AfterEffectsThread command in
  with_world (fun w => set_started (started w ++ [thread]) w).

Definition execute_jsx_script (ae_path file_path : str) : M state unit :=
  let corrected_path := replace [SLASH; SLASH] [SLASH; SLASH; SLASH; SLASH] file_path in
  let script_content := jsx_script corrected_path in
  w <- the_world ;;
  let (name, rest) := mktemp (u ".jsx") (tmp_stems w) (fs w) in
  with_world (set_tmp_stems rest) ;;;
  script_file_path <- lift name ;;
  fs' <- lift (write_text script_file_path script_content (clock w) (fs w)) ;;
  with_world (set_fs fs') ;;;
  run_after_effects_command_async [ae_path; u "-r"; script_file_path].

(** The property [after_effects_path]. *)
Definition after_effects_path : M state path :=
  w <- the_world ;;
  let ae_path := pathlib_Path (settings_value (qsettings w) (u "aePath") []) in
  if fs_exists (fs w) (str_of_path ae_path) && fs_isfile (fs w) (str_of_path ae_path)
  then ret ae_path
  else ret (Path (u "does/not/exist/dasds")).

(** The property [assets_folder_path]; a path is never falsy. *)
Definition assets_folder_path : M state path :=
  w <- the_world ;;
  let asset_folder_path :=
    pathlib_Path (settings_value (qsettings w) (u "assetsFolder") []) in
  if fs_exists (fs w) (str_of_path asset_folder_path)
  then ret asset_folder_path
  else ret (Path (u "does/not/exist/dasds")).

(** [picked] is the file name [QFileDialog.getOpenFileName] returns. *)
Definition prompt_user_for_file (picked : str) (asset_folder : path)
    : M state (option str) :=
  match picked with
  | [] => ret None
  | _ :: _ => ret (Some picked)
  end.

Definition populate_imported_assets_table (file_path : path)
    (last_modified imported_by : str) : M state unit :=
  a <- self ;;
  let row_count := rowCount (imported_assets_table a) in
  with_self (on_imported_assets_table (insertRow row_count)) ;;;
  with_self (on_imported_assets_table (setItem row_count 0 (path_name file_path))) ;;;
  with_self (on_imported_assets_table (setItem row_count 1 (as_posix file_path))) ;;;
  with_self (on_imported_assets_table (setItem row_count 2 last_modified)) ;;;
  with_self (on_imported_assets_table (setItem row_count 3 imported_by)) ;;;
  with_self (on_imported_assets_table
               (setCellWidget row_count
                  (Buttons (Some (str_of_path file_path)) row_count))) ;;;
  with_self (on_imported_assets_table (setRowCount (row_count + 1))).

Definition update_imported_assets (file_path : path) (last_modified imported_by : str)
    : M state unit :=
  populate_imported_assets_table file_path last_modified imported_by.

(** [picked] is what the file dialog returns; [Path(None)] is a
    [TypeError]. *)
Definition import_file_connection (picked : str) : M state unit :=
  running <- is_after_effects_running ;;
  if negb running
  then show_error_message (u "After Effects Not Running")
         (u "Adobe After Effects must be open to import assets.")
  else
    ae <- after_effects_path ;;
    w <- the_world ;;
    if negb (fs_exists (fs w) (str_of_path ae)) then ret tt
    else
      ae <- after_effects_path ;;
      w <- the_world ;;
      if negb (fs_exists (fs w) (str_of_path ae)) then ret tt
      else
        ae <- after_effects_path ;;
        chosen <- prompt_user_for_file picked ae ;;
        file_path <- lift (match chosen with
                           | Some s => Val (pathlib_Path s)
                           | None => Exc TypeError
                           end) ;;
        w <- the_world ;;
        if negb (fs_exists (fs w) (str_of_path file_path)) then ret tt
        else
          folder <- assets_folder_path ;;
          let destination := Path_join folder (path_name file_path) in
          w <- the_world ;;
          copied <- lift (shutil_copy (as_posix file_path) (as_posix destination)
                                      (clock w) (fs w)) ;;
          with_world (set_fs copied.2) ;;;
          let current_time := strftime (clock w) in
          ae <- after_effects_path ;;
          execute_jsx_script (as_posix ae) (as_posix destination) ;;;
          w <- the_world ;;
          update_imported_assets file_path current_time (username w).

(** [SettingsDialog.accept], on the three fields of the dialog. *)
Definition SettingsDialog_accept (aePath assetsFolder projectsFolder : str)
    : M state unit :=
  setValue (u "assetsFolder") assetsFolder ;;;
  setValue (u "aePath") aePath ;;;
  setValue (u "projectsFolder") projectsFolder.

(** [show_settings_dialog] when the dialog is closed with [accepted]: the
    Ok button runs [SettingsDialog.accept] before the dialog returns. *)
Definition show_settings_dialog (accepted : bool) (aePath assetsFolder projectsFolder : str)
    : M state unit :=
  if accepted
  then SettingsDialog_accept aePath assetsFolder projectsFolder ;;;
       setValue (u "aePath") aePath ;;;
       setValue (u "assetsFolder") assetsFolder ;;;
       setValue (u "projectsFolder") projectsFolder
  else ret tt.

End Methods.

End PyAe.

(** A platform to run the model on: ASCII letters are lowered, other
    characters are kept, and a time stamp is shown as its decimal digits. *)
Definition ascii_lower (c : N) : N :=
  if (65 <=? c) && (c <=? 90) then c + 32 else c.

Fixpoint digits_of (fuel : nat) (n : N) (acc : str) : str :=
  match fuel with
  | O => acc
  | S fuel' =>
      let acc' := (48 + n mod 10) :: acc in
      if n <? 10 then acc' else digits_of fuel' (n / 10) acc'
  end.

Definition demo_platform : Platform :=
  {| str_lower := map ascii_lower;
     str_lower_empty := eq_refl;
     strftime := fun t => digits_of 64 (Z.to_N t) [] |}.

(* ================================================================== *)
(** ** Vocabulary of the statements *)
(* ================================================================== *)

(** [sub] occurs in [s]. *)
Definition contains (sub s : str) : Prop := exists a b, s = a ++ sub ++ b.

(** *** Values that survive [json.dumps] then [json.loads] *)

(** A Unicode scalar value: a code point that is no surrogate. *)
Definition is_scalar (c : N) : bool :=
  (c <? 55296) || ((57344 <=? c) && (c <? 1114112)).

(** Text without surrogate code points. *)
Definition text_ok (s : str) : bool := forallb is_scalar s.

(** Strings, constants, lists and dictionaries of them, with text free of
    surrogates and no key twice in a dictionary. *)
Fixpoint wf_value (v : value) : bool :=
  match v with
  | VNone | VBool _ => true
  | VNum _ => false
  | VStr s => text_ok s
  | VList l => forallb wf_value l
  | VDict d =>
      forallb (fun kv => text_ok kv.1 && wf_value kv.2) d
      && bool_decide (NoDup (d.*1))
  end.

Definition wf_member (kv : str * value) : bool := text_ok kv.1 && wf_value kv.2.

Fixpoint value_size (v : value) : nat :=
  match v with
  | VList l => S (list_sum (List.map (fun x => S (value_size x)) l))
  | VDict d => S (list_sum (List.map (fun kv => S (value_size kv.2)) d))
  | _ => 1%nat
  end.

Definition size_items (l : list value) : nat :=
  list_sum (List.map (fun x => S (value_size x)) l).

Definition size_members (d : list (str * value)) : nat :=
  list_sum (List.map (fun kv => S (value_size kv.2)) d).

(** What [Json.dumps] writes between the brackets of a list and between
    the braces of a dictionary. *)
Fixpoint dumps_items (l : list value) : str :=
  match l with
  | [] => []
  | x :: l' =>
      Json.dumps x ++ match l' with
                      | [] => []
                      | _ :: _ => Json.item_separator ++ dumps_items l'
                      end
  end.

Fixpoint dumps_members (l : list (str * value)) : str :=
  match l with
  | [] => []
  | (k, x) :: l' =>
      Json.encode_basestring_ascii k ++ Json.key_separator ++ Json.dumps x ++
      match l' with
      | [] => []
      | _ :: _ => Json.item_separator ++ dumps_members l'
      end
  end.

Definition items_tail (l : list value) : str :=
  match l with
  | [] => []
  | _ :: _ => Json.item_separator ++ dumps_items l
  end.

Definition members_tail (l : list (str * value)) : str :=
  match l with
  | [] => []
  | _ :: _ => Json.item_separator ++ dumps_members l
  end.

(** *** Rows and records *)

(** A row with its four text items and its action cell. *)
Definition text_row (a b c d : str) (wd : widget) : row :=
  Row [Some a; Some b; Some c; Some d; None] (Some wd) false.

(** The item of column 1 of a row: the file path it shows. *)
Definition row_path (x : row) : option str := mjoin (items x !! 1%nat).

(** [filter_assets] on one row: a row with a name is hidden exactly when
    the name, lowered, does not hold the search text. *)
Definition hide_by {platform : Platform} (search_text : str) (x : row) : row :=
  match mjoin (items x !! 0%nat) with
  | Some text =>
      Row (items x) (cell_widget x) (negb (str_in search_text (str_lower text)))
  | None => x
  end.

(** A project record of [py_ae_v3.py]: the dictionary with a path and the
    name of its creator. *)
Definition project_record (pc : path * str) : V3.project_entry :=
  V3.ProjectInfo pc.1 (VStr pc.2).

Definition is_record (e : V3.project_entry) : bool :=
  match e with
  | V3.ProjectInfo _ (VStr _) => true
  | _ => false
  end.

Definition entry_exists (fs : filesystem) (e : V3.project_entry) : bool :=
  match e with
  | V3.ProjectInfo p _ => fs_exists fs p
  | V3.BarePath p => fs_exists fs p
  end.

(** The dictionary [save_settings] serializes for a project. *)
Definition project_dict (e : V3.project_entry) : value :=
  match e with
  | V3.ProjectInfo p c => VDict [(u "path", VStr p); (u "created_by", c)]
  | V3.BarePath p => VStr p
  end.

(** The row [populate_last_projects_table] shows for a record. *)
Definition project_row {platform : Platform} (fs : filesystem) (index : nat)
    (e : V3.project_entry) : row :=
  match e with
  | V3.ProjectInfo p (VStr c) =>
      text_row (path_name p) p
               (strftime (default 0%Z (node_mtime <$> fs !! p))) c
               (Buttons None index)
  | _ => empty_row
  end.

Fixpoint project_rows {platform : Platform} (fs : filesystem) (i : nat)
    (l : list V3.project_entry) : table :=
  match l with
  | [] => []
  | e :: l' => project_row fs i e :: project_rows fs (S i) l'
  end.

(** The store after [save_settings]. *)
Definition saved_settings (a : V3.app) (q : gmap str str) : gmap str str :=
  <[u "imported_assets" := Json.dumps (V3.imported_assets a)]>
    (<[u "last_project_files" :=
         Json.dumps (VList (project_dict <$> V3.last_project_files a))]> q).

(** The widget after [populate_last_projects_table] in the world [w]. *)
Definition populated {platform : Platform} (w : world) (a : V3.app) : V3.app :=
  let existing :=
    filter (fun e => entry_exists (fs w) e = true) (V3.last_project_files a) in
  V3.App (V3.last_project_directory a) existing (V3.imported_assets a)
         (project_rows (fs w) 0 existing) (V3.imported_assets_table a)
         (V3.asset_search_bar a).

(** An imported-asset record: the dictionary [update_imported_assets]
    appends. *)
Record asset := Asset {
  asset_path : str;
  asset_last_modified : str;
  asset_imported_by : str
}.

Definition asset_dict (x : asset) : value :=
  VDict [(u "path", VStr (asset_path x));
         (u "last_modified", VStr (asset_last_modified x));
         (u "imported_by", VStr (asset_imported_by x))].

Definition asset_ok (x : asset) : bool :=
  text_ok (asset_path x) && text_ok (asset_last_modified x)
  && text_ok (asset_imported_by x).

(** The row [populate_imported_assets_table] shows for an asset record. *)
Definition asset_row (index : nat) (x : asset) : row :=
  text_row (basename (asset_path x)) (asset_path x) (asset_last_modified x)
           (asset_imported_by x) (Buttons (Some (asset_path x)) index).

Fixpoint asset_rows (i : nat) (l : list asset) : table :=
  match l with
  | [] => []
  | x :: l' => asset_row i x :: asset_rows (S i) l'
  end.

(** A stored row of [py_ae.py] whose file exists. *)
Definition stored_row_exists (fs : filesystem) (i : list str) : bool :=
  match i !! 1%nat with
  | Some p => fs_exists fs p
  | None => false
  end.

(** The row [add_project_row] shows for a stored row of four texts. *)
Definition stored_project_row (index : nat) (i : list str) : row :=
  match i with
  | [a; b; c; d] => text_row a b c d (Buttons (Some b) index)
  | _ => empty_row
  end.

(** The table after [_load_project_settings] read the stored rows. *)
Fixpoint load_rows (fs : filesystem) (t : table) (data : list (list str)) : table :=
  match data with
  | [] => t
  | i :: rest =>
      load_rows fs
        (if stored_row_exists fs i
         then t ++ [stored_project_row (length t) i]
         else t)
        rest
  end.

(** A computation that cannot end in the exception [e]. *)
Definition cannot_raise {St A} (e : exn) (c : M St A) : Prop :=
  forall s s', c s <> (Exc e, s').

(** Unfolding the setters of the two widgets on a widget given by its
    fields. *)
Ltac v3_simpl :=
  unfold V3.on_last_projects_table, V3.on_imported_assets_table,
    V3.set_last_project_files, V3.set_imported_assets,
    V3.set_last_project_directory in *;
  cbn [V3.last_projects_table V3.last_project_directory V3.last_project_files
       V3.imported_assets V3.imported_assets_table V3.asset_search_bar
       fst snd] in *.

Ltac pyae_simpl :=
  unfold PyAe.on_projects_table, PyAe.on_imported_assets_table in *;
  cbn [PyAe.projects_table PyAe.imported_assets_table PyAe.asset_search_bar
       fst snd] in *.

Ltac world_simpl :=
  unfold set_fs, set_qsettings, set_shown, set_started, set_printed,
    set_tmp_stems in *;
  cbn [fs qsettings project_ini processes shown started printed username
       clock tmp_stems script_dir fst snd] in *.

(** *** States the methods end in *)

(** The error [import_file_connection] shows when After Effects is not
    running. *)
Definition not_running_dialog : dialog :=
  Dialog Critical (u "After Effects Not Running")
         (u "Adobe After Effects must be open to import assets.") None.

(** The confirmation [delete_project] asks for, and the world once it has
    been shown. *)
Definition confirm_dialog : dialog :=
  Dialog Question (u "Confirmation")
         (u "Are you sure you want to delete this project?") None.

Definition asked (w : world) : world := set_shown (shown w ++ [confirm_dialog]) w.

(** The state after [delete_project] of [py_ae_v3.py] removed the file [p]
    of the record at [index]. *)
Definition deleted_state {platform : Platform} (index : Z) (p : str) (w : world)
    (a : V3.app) : world * V3.app :=
  let w1 := set_fs (delete p (fs w)) (asked w) in
  let a1 := V3.set_last_project_files
              (delete (Z.to_nat index) (V3.last_project_files a)) a in
  let a2 := populated w1 a1 in
  let w2 := set_qsettings (saved_settings a2 (saved_settings a2 (qsettings w1))) w1 in
  (set_shown (shown w2 ++ [Dialog Information (u "Success")
                                  (u "The project has been successfully deleted.")
                                  None]) w2, a2).

(** The configured projects folder, the path of a new project in it, and
    the template each revision copies. *)
Definition projects_folder (w : world) : str :=
  settings_value (qsettings w) (u "projectsFolder") (u "default/path/to/projects").

Definition new_project_path (w : world) (project_name : str) : path :=
  Path_join (Path (projects_folder w)) (project_name ++ u ".aep").

Definition v3_template : str := u "C:/Users/marty/ae_test_2/Blank_Project.aep".

Definition pyae_template (w : world) : str :=
  str_of_path (Path_join (script_dir w) (u "Blank_Project.aep")).

(** The file system once the projects folder is there. *)
Definition with_projects_folder (w : world) : filesystem :=
  if fs_exists (fs w) (projects_folder w) then fs w
  else <[projects_folder w := Dir (clock w)]> (fs w).

(** The file system once the template is copied to the new project. *)
Definition with_new_project (w : world) (project_name content : str) : filesystem :=
  <[str_of_path (new_project_path w project_name) := File content (clock w)]>
    (with_projects_folder w).

(** The conditions under which the copy of [template], a file holding
    [content], to the new project succeeds: a name was given, the folder is
    there or can be made, the new path is neither the template nor a
    directory, and the directory it lies in is there once the folder is. *)
Definition can_create (w : world) (template project_name content : str) : Prop :=
  project_name <> [] /\
  (fs_exists (fs w) (projects_folder w) = true \/ projects_folder w <> []) /\
  (exists mt, fs w !! template = Some (File content mt)) /\
  str_of_path (new_project_path w project_name) <> template /\
  (forall t, fs w !! str_of_path (new_project_path w project_name) <> Some (Dir t)) /\
  parent_ok (with_projects_folder w) (str_of_path (new_project_path w project_name)) = true.

(** The states after [create_new_project_connection] made the project [N]. *)
Definition v3_created {platform : Platform} (w : world) (a : V3.app) (N content : str)
    : world * V3.app :=
  let w2 := set_fs (with_new_project w N content) w in
  let a1 := V3.set_last_project_files
              (V3.last_project_files a
               ++ [V3.ProjectInfo (new_project_path w N) (VStr (username w))]) a in
  let a2 := populated w2 a1 in
  (set_qsettings (saved_settings a2 (saved_settings a2 (qsettings w2))) w2, a2).

Definition pyae_created {platform : Platform} (w : world) (a : PyAe.app)
    (N content : str) : world * PyAe.app :=
  (set_fs (with_new_project w N content) w,
   PyAe.on_projects_table
     (fun t => t ++ [text_row N (as_posix (new_project_path w N))
                              (strftime (clock w)) (username w)
                              (Buttons (Some (as_posix (new_project_path w N)))
                                       (length t))]) a).

(** The directory [load_settings] reads, and the state it ends in when the
    store holds the records [l] and the asset records [xs]. *)
Definition stored_directory (q : gmap str str) : option path :=
  match q !! u "last_project_directory" with
  | Some (c :: d) => Some (Path (c :: d))
  | _ => None
  end.

Definition loaded_state {platform : Platform} (w : world) (a : V3.app)
    (l : list V3.project_entry) (xs : list asset) : world * V3.app :=
  let a1 := V3.App (stored_directory (qsettings w)) l (VList (asset_dict <$> xs))
                   [] [] (V3.asset_search_bar a) in
  let a2 := populated w a1 in
  (set_qsettings (saved_settings a2 (qsettings w)) w,
   V3.on_imported_assets_table (fun _ => asset_rows 0 xs) a2).

(** The world after [execute_jsx_script] wrote [content] to [script] and
    started a worker on [command]. *)
Definition script_written (w : world) (script content : str) (rest : list str)
    (command : popen_args) : world :=
  set_started (started w ++ [command])
    (set_fs (<[script := File content (clock w)]> (fs w)) (set_tmp_stems rest w)).

(** What a worker thread's trace holds: its emissions of [finished] and
    the commands it ran. *)
Definition is_emit (e : event) : bool :=
  match e with
  | Emit _ => true
  | _ => false
  end.

Definition emissions (tr : list event) : nat := length (List.filter is_emit tr).

Definition subprocess_runs (tr : list event) : list popen_args :=
  omap (fun e => match e with SubprocessRun a => Some a | _ => None end) tr.

(** A row that shows the path of a file that exists. *)
Definition shows_existing_file (fs : filesystem) (x : row) : Prop :=
  exists p, row_path x = Some p /\ fs_exists fs p = true.

(** The path a record holds. *)
Definition entry_text (e : V3.project_entry) : option str :=
  match e with
  | V3.ProjectInfo p _ => Some p
  | V3.BarePath _ => None
  end.

(* ================================================================== *)
(** ** Worlds and widgets to run the model on *)
(* ================================================================== *)

(** A disk with one project file, no template and no After Effects. *)
Definition example_fs : filesystem :=
  <[u "/p/a.aep" := File (u "AE") 5%Z]>
    (<[u "/p" := Dir 1%Z]> (<[u "/tmp" := Dir 1%Z]> ∅)).

Definition example_world : world :=
  World example_fs ∅ None [u "explorer.exe"] [] [] [] (u "amy") 7%Z
        [u "/tmp/tmpabc"] (u "/app").

(** Two project records, the second for a file that is gone. *)
Definition example_projects : list (path * str) :=
  [(u "/p/a.aep", u "amy"); (u "/p/gone.aep", u "bob")].

Definition example_assets : list asset :=
  [Asset (u "/assets/clip.mov") (u "2024-03-17 10:00:00") (u "amy")].

Definition example_app : V3.app :=
  V3.App None (project_record <$> example_projects)
         (VList (asset_dict <$> example_assets)) [] [] [].

(** A record whose creator is written with the two surrogates of a pair. *)
Definition surrogate_app : V3.app :=
  V3.App None [V3.ProjectInfo (u "/p/a.aep") (VStr [55357; 56832])] (VList []) [] [] [].

(** A disk that also holds the templates, with a configured projects
    folder and After Effects running. *)
Definition template_world : world :=
  World (<[v3_template := File (u "blank") 3%Z]>
           (<[u "/app/Blank_Project.aep" := File (u "blank") 3%Z]> example_fs))
        (<[u "projectsFolder" := u "/p"]> ∅) None [u "AfterFX.exe"] [] [] []
        (u "amy") 7%Z [u "/tmp/tmpabc"] (u "/app").

(** Rows as [py_ae.py] stores them, the second for a file that is gone. *)
Definition stored_example : list (list str) :=
  [[u "a"; u "/p/a.aep"; u "2024-03-17 10:00:00"; u "amy"];
   [u "gone"; u "/p/gone.aep"; u "2024-03-17 10:00:00"; u "bob"]].

Definition stored_world : world :=
  World example_fs ∅ (Some stored_example) [u "explorer.exe"] [] [] []
        (u "amy") 7%Z [u "/tmp/tmpabc"] (u "/app").

Definition pyae_listing : PyAe.app :=
  PyAe.App [text_row (u "a") (u "/p/a.aep") (u "2024-03-17 10:00:00") (u "amy")
                     (Buttons (Some (u "/p/a.aep")) 0);
            text_row (u "b") (u "/p/b.aep") (u "2024-03-17 10:00:00") (u "bob")
                     (Buttons (Some (u "/p/b.aep")) 1)] [] [].

(** *** Imported assets *)

(** After Effects is among the processes. *)
Definition after_effects_runs (w : world) : Prop :=
  exists name, name ∈ processes w /\ contains (u "AfterFX.exe") name.

(** The widget once the record [x] is appended to the asset records [l]
    and shown in a new last row. *)
Definition with_asset (l : list value) (x : asset) (a : V3.app) : V3.app :=
  V3.App (V3.last_project_directory a) (V3.last_project_files a)
         (VList (l ++ [asset_dict x])) (V3.last_projects_table a)
         (V3.imported_assets_table a
          ++ [asset_row (length (V3.imported_assets_table a)) x])
         (V3.asset_search_bar a).

(** The store once the asset records [v] are saved in it. *)
Definition with_saved_assets (v : value) (w : world) : world :=
  set_qsettings (<[u "imported_assets" := Json.dumps v]> (qsettings w)) w.

(** The four texts a row shows for an asset record. *)
Definition asset_texts (x : asset) : list (option str) :=
  [Some (basename (asset_path x)); Some (asset_path x);
   Some (asset_last_modified x); Some (asset_imported_by x); None].

(** The table shows exactly the asset records, in their order. *)
Definition shows_assets (a : V3.app) : Prop :=
  exists xs, V3.imported_assets a = VList (asset_dict <$> xs) /\
             items <$> V3.imported_assets_table a = asset_texts <$> xs.

(** The errors [import_file_connection] of [py_ae_v3.py] shows when a
    setting is missing. *)
Definition no_executable_dialog : dialog :=
  Dialog Critical (u "Error")
         (u "After Effects executable path is not set correctly in settings.") None.

Definition no_assets_folder_dialog : dialog :=
  Dialog Critical (u "Assets folder not set")
         (u "Please set the assets folder path in settings.") None.

(** The two settings [import_file_connection] reads. *)
Definition aePath_setting (w : world) : str := settings_value (qsettings w) (u "aePath") [].
Definition assetsFolder_setting (w : world) : str :=
  settings_value (qsettings w) (u "assetsFolder") [].

(** The executable is configured: the setting names a file. *)
Definition executable_set (w : world) : Prop :=
  aePath_setting w <> [] /\ fs_isfile (fs w) (aePath_setting w) = true.

(** The assets folder is configured: the setting names something there. *)
Definition assets_folder_set (w : world) : Prop :=
  assetsFolder_setting w <> [] /\ fs_exists (fs w) (assetsFolder_setting w) = true.

(** Where [shutil.copy] puts the picked file: in the assets folder, under
    its own name. *)
Definition import_target (w : world) (picked : str) : str :=
  os_path_join (assetsFolder_setting w) (basename picked).

(** The file system once the picked file, holding [content], is copied. *)
Definition with_copy (w : world) (picked content : str) : filesystem :=
  <[import_target w picked := File content (clock w)]> (fs w).

(** The conditions under which an import goes through: After Effects runs,
    both settings are in place and the folder is a directory whose text
    does not end in a separator or a colon, the picked file is there under a path with
    a directory part, its copy is neither the file itself nor a directory, and a free name for the script is found in a
    directory that is there. *)
Definition can_import (w : world) (picked content script : str) (rest : list str)
    : Prop :=
  after_effects_runs w /\
  executable_set w /\
  assetsFolder_setting w <> [] /\
  (exists t, fs w !! assetsFolder_setting w = Some (Dir t)) /\
  (forall c, last (assetsFolder_setting w) = Some c -> is_sep c = false /\ c <> 58) /\
  existsb is_sep picked = true /\
  (exists mt, fs w !! picked = Some (File content mt)) /\
  import_target w picked <> picked /\
  (forall t, fs w !! import_target w picked <> Some (Dir t)) /\
  mktemp (u ".jsx") (tmp_stems w) (with_copy w picked content) = (Val script, rest) /\
  parent_ok (with_copy w picked content) script = true.

(** The world after an import: the copy and the script are written, the
    worker is started and the records are saved. *)
Definition imported_world {platform : Platform} (w : world)
    (picked content script : str) (rest : list str) (l : list value) : world :=
  with_saved_assets
    (VList (l ++ [asset_dict (Asset picked (strftime (clock w)) (username w))]))
    (script_written (set_fs (with_copy w picked content) w) script
       (jsx_script (replace [BACKSLASH] [BACKSLASH; BACKSLASH] (import_target w picked)))
       rest (Argv [aePath_setting w; u "-r"; script])).

(** The confirmation [delete_imported_asset] asks for, and the world once
    it has been shown. *)
Definition confirm_asset_dialog : dialog :=
  Dialog Question (u "Confirmation")
         (u "Are you sure you want to delete this asset?") None.

Definition asked_asset (w : world) : world :=
  set_shown (shown w ++ [confirm_asset_dialog]) w.

(** The file [delete_imported_asset] removes for the row named [name]: the
    one of that name in the assets folder. *)
Definition asset_file (w : world) (name : str) : str :=
  ntpath_join (assetsFolder_setting w) name.

(** The widget once position [row] is removed from the asset records [l]
    and from the table. *)
Definition without_asset (row : nat) (l : list value) (a : V3.app) : V3.app :=
  V3.App (V3.last_project_directory a) (V3.last_project_files a)
         (VList (delete row l)) (V3.last_projects_table a)
         (delete row (V3.imported_assets_table a)) (V3.asset_search_bar a).

(** What [delete_imported_asset] does to the world, by what is at the
    asset's file. *)
Definition asset_file_removed (w : world) (file : str) : world :=
  match fs w !! file with
  | Some (File _ _) =>
      set_printed (printed w ++ [Print (u "Deleted asset at: " ++ file) None])
                  (set_fs (delete file (fs w)) (asked_asset w))
  | Some (Dir _) =>
      set_printed (printed w ++ [Print (u "Failed to delete asset at: " ++ file
                                          ++ u ". Error: ") (Some OSError)])
        (set_shown (shown w ++ [confirm_asset_dialog;
                                Dialog Critical (u "Error")
                                       (u "Failed to delete asset file: ")
                                       (Some OSError)]) w)
  | None =>
      set_shown (shown w ++ [confirm_asset_dialog;
                             Dialog Information (u "Error")
                                    (u "Asset file not found in the assets folder.")
                                    None]) w
  end.

(** *** [import_to_current_project] of [py_ae_v3.py] *)

Definition not_running_action_dialog : dialog :=
  Dialog Critical (u "After Effects Not Running")
         (u "Adobe After Effects must be open to perform this action.") None.

(** The command it waits for. *)
Definition import_command (script : str) : popen_args :=
  Argv [aerender_path; u "-r"; script].

(** The line it prints when the child exits with an error. *)
Definition execution_error : output :=
  Print (u "Error during After Effects execution: ") (Some CalledProcessError).

(** *** Projects *)

(** The warning [delete_project] of [py_ae_v3.py] shows for an index out
    of range. *)
Definition invalid_selection_dialog : dialog :=
  Dialog Warning (u "Invalid Selection") (u "The selected project is invalid.") None.

(** The error shown when the executable named in the code is missing. *)
Definition no_aerender_dialog : dialog :=
  Dialog Critical (u "After Effects path not provided") (u "Executable not found.") None.

(** The creator [load_settings] gives a record that names none. *)
Definition unknown : value := VStr (u "Unknown").

(** *** A world to import in *)

(** After Effects runs, both settings are in place, and the asset folder
    and the temporary directory are there. *)
Definition import_world : world :=
  World (<[u "C:/AE/AfterFX.exe" := File (u "exe") 2%Z]>
           (<[u "C:/assets" := Dir 2%Z]> example_fs))
        (<[u "aePath" := u "C:/AE/AfterFX.exe"]>
           (<[u "assetsFolder" := u "C:/assets"]> ∅))
        None [u "explorer.exe"; u "AfterFX.exe"] [] [] [] (u "amy") 7%Z
        [u "/tmp/tmpabc"] (u "/app").

(** A widget whose asset table shows its one record. *)
Definition listed_app : V3.app :=
  V3.App None [] (VList (asset_dict <$> example_assets)) []
         (asset_rows 0 example_assets) [].

(** A store whose one project entry names no path. *)
Definition pathless_world : world :=
  set_qsettings
    (<[u "last_project_files"
       := Json.dumps (VList [VDict [(u "created_by", VStr (u "amy"))]])]> ∅)
    example_world.

(** A plain file name: no separator and no colon. *)
Definition plain_name (name : str) : Prop :=
  Forall (fun c => is_sep c = false /\ c <> 58) name.

(** The store after the settings dialog is accepted. *)
Definition with_settings (aePath assetsFolder projectsFolder : str) (w : world) : world :=
  set_qsettings (<[u "projectsFolder" := projectsFolder]>
                   (<[u "assetsFolder" := assetsFolder]>
                      (<[u "aePath" := aePath]> (qsettings w)))) w.

(** The error [delete_project] shows when the file cannot be removed. *)
Definition cannot_delete_dialog : dialog :=
  Dialog Critical (u "Error") (u "Error deleting project file: ") (Some OSError).

(** Stored rows of [py_ae.py] of which the second is cut short. *)
Definition short_row_world : world :=
  World example_fs ∅
        (Some [[u "a"; u "/p/a.aep"; u "2024-03-17 10:00:00"; u "amy"]; [u "b"]])
        [u "explorer.exe"] [] [] [] (u "amy") 7%Z [u "/tmp/tmpabc"] (u "/app").

(* ================================================================== *)
(** * Facts *)
(* ================================================================== *)

(** ** The [json] module: what is written is read back *)
Import Json.

(** Hexadecimal digits: what [dumps] writes in a [\uXXXX] escape, [loads]
    reads back. *)
Lemma hexval_hexdigit d : d < 16 -> hexval (hexdigit d) = Some d.
Proof.
  intros Hd. destruct d as [|p]; [reflexivity|].
  do 5 (destruct p as [p|p|]; try reflexivity; try lia).
Qed.

Lemma hex4_digits n : n < 65536 ->
  (n / 4096 mod 16) * 4096 + (n / 256 mod 16) * 256 + (n / 16 mod 16) * 16 + n mod 16 = n.
Proof. intros. zify. Z.to_euclidean_division_equations. lia. Qed.

Lemma decode_hex4 n : n < 65536 ->
  decode_uXXXX (hexdigit (n / 4096 mod 16)) (hexdigit (n / 256 mod 16))
               (hexdigit (n / 16 mod 16)) (hexdigit (n mod 16)) = Some n.
Proof.
  intros Hn. unfold decode_uXXXX.
  rewrite !hexval_hexdigit by (apply N.mod_lt; discriminate).
  f_equal. by apply hex4_digits.
Qed.

(** One step of [scanstring] for each shape of its input. *)
Lemma scanstring_quote rest : scanstring (QUOTE :: rest) = Some ([], rest).
Proof. reflexivity. Qed.

Lemma scanstring_plain c s1 :
  (c =? QUOTE) = false -> (c =? BACKSLASH) = false -> (c <? 32) = false ->
  scanstring (c :: s1) = cons_char c (scanstring s1).
Proof. intros H1 H2 H3. cbn [scanstring]. by rewrite H1, H2, H3. Qed.

Lemma scanstring_escape e c s2 :
  (e =? 117) = false -> unescape e = Some c ->
  scanstring (BACKSLASH :: e :: s2) = cons_char c (scanstring s2).
Proof.
  intros H1 H2. cbn [scanstring].
  change (BACKSLASH =? QUOTE) with false. change (BACKSLASH =? BACKSLASH) with true.
  cbv iota. by rewrite H1, H2.
Qed.

Lemma scanstring_bmp uni s6 :
  uni < 65536 -> is_high_surrogate uni = false ->
  scanstring (uXXXX uni ++ s6) = cons_char uni (scanstring s6).
Proof.
  intros Hn Hh. unfold uXXXX, hex4. cbn [app scanstring].
  change (BACKSLASH =? QUOTE) with false. change (BACKSLASH =? BACKSLASH) with true.
  change (117 =? 117) with true. cbv iota.
  rewrite decode_hex4 by done. rewrite Hh.
  by destruct s6 as [|b2 [|u2 s8]].
Qed.

Lemma scanstring_pair hi lo s12 :
  hi < 65536 -> lo < 65536 ->
  is_high_surrogate hi = true -> is_low_surrogate lo = true ->
  scanstring (uXXXX hi ++ uXXXX lo ++ s12) =
  cons_char (65536 + ((hi - 55296) * 1024 + (lo - 56320))) (scanstring s12).
Proof.
  intros Hhi Hlo Hh Hl. unfold uXXXX, hex4. cbn [app scanstring].
  change (BACKSLASH =? QUOTE) with false. change (BACKSLASH =? BACKSLASH) with true.
  change (117 =? 117) with true. cbv iota.
  rewrite !decode_hex4 by done. by rewrite Hh, Hl.
Qed.

(** A character escaped by [dumps], followed by the scan of [s], is read
    back as that character followed by what [s] holds. *)
Lemma scanstring_escape_char c s :
  is_scalar c = true ->
  scanstring (escape_char c ++ s) = cons_char c (scanstring s).
Proof.
  intros Hc. unfold is_scalar in Hc. unfold escape_char.
  destruct (N.eqb_spec c QUOTE) as [->|Hq]; [by apply scanstring_escape|].
  destruct (N.eqb_spec c BACKSLASH) as [->|Hb]; [by apply scanstring_escape|].
  destruct (N.eqb_spec c 8) as [->|?]; [by apply scanstring_escape|].
  destruct (N.eqb_spec c 12) as [->|?]; [by apply scanstring_escape|].
  destruct (N.eqb_spec c 10) as [->|?]; [by apply scanstring_escape|].
  destruct (N.eqb_spec c 13) as [->|?]; [by apply scanstring_escape|].
  destruct (N.eqb_spec c 9) as [->|?]; [by apply scanstring_escape|].
  destruct ((32 <=? c) && (c <=? 126)) eqn:Hp.
  { apply andb_prop in Hp as [H1 H2]. apply N.leb_le in H1.
    apply scanstring_plain.
    - by apply N.eqb_neq.
    - by apply N.eqb_neq.
    - apply N.ltb_ge. lia. }
  destruct (N.ltb_spec c 65536) as [Hlt|Hge].
  { apply scanstring_bmp; [done|]. unfold is_high_surrogate.
    apply andb_false_iff. rewrite N.leb_gt, N.leb_gt.
    apply orb_prop in Hc as [Hc|Hc]; [apply N.ltb_lt in Hc; lia|].
    apply andb_prop in Hc as [Hc _]. apply N.leb_le in Hc. lia. }
  assert (c < 1114112) as Hmax.
  { apply orb_prop in Hc as [Hc|Hc]; [apply N.ltb_lt in Hc; lia|].
    apply andb_prop in Hc as [_ Hc]. by apply N.ltb_lt in Hc. }
  cbv zeta. rewrite <- app_assoc.
  rewrite scanstring_pair.
  - f_equal. zify. Z.to_euclidean_division_equations. lia.
  - zify. Z.to_euclidean_division_equations. lia.
  - zify. Z.to_euclidean_division_equations. lia.
  - unfold is_high_surrogate. apply andb_true_iff. rewrite !N.leb_le.
    zify. Z.to_euclidean_division_equations. lia.
  - unfold is_low_surrogate. apply andb_true_iff. rewrite !N.leb_le.
    zify. Z.to_euclidean_division_equations. lia.
Qed.

(** A string of scalar values, as [dumps] writes it, is read back up to its
    closing quote. *)
Lemma scanstring_encoded s rest :
  text_ok s = true ->
  scanstring (flat_map escape_char s ++ QUOTE :: rest) = Some (s, rest).
Proof.
  induction s as [|c s IH]; intros Hs; [reflexivity|].
  cbn [forallb] in Hs. apply andb_prop in Hs as [Hc Hs].
  cbn [flat_map]. rewrite <- app_assoc.
  rewrite scanstring_escape_char by done. by rewrite IH.
Qed.

(** The text [dumps] writes for a list and for a dictionary. *)
Lemma dumps_list l : dumps (VList l) = 91 :: dumps_items l ++ [93].
Proof. reflexivity. Qed.

Lemma dumps_dict d : dumps (VDict d) = 123 :: dumps_members d ++ [125].
Proof. reflexivity. Qed.

(** A written value starts with a character that is no blank. *)
Lemma dumps_head v :
  wf_value v = true ->
  exists c t, dumps v = c :: t /\ is_ws c = false /\ (c =? 93) = false.
Proof.
  destruct v as [|[]|lexeme|s|l|d]; intros Hv; try discriminate.
  - by exists 110, (u "ull").
  - by exists 116, (u "rue").
  - by exists 102, (u "alse").
  - by eexists _, _.
  - rewrite dumps_list. by eexists _, _.
  - rewrite dumps_dict. by eexists _, _.
Qed.

Lemma skip_ws_head c t : is_ws c = false -> skip_ws (c :: t) = c :: t.
Proof. intros Hc. cbn [skip_ws]. by rewrite Hc. Qed.

Lemma skip_ws_dumps v rest : wf_value v = true -> skip_ws (dumps v ++ rest) = dumps v ++ rest.
Proof.
  intros Hv. destruct (dumps_head v Hv) as (c & t & -> & Hc & _).
  by apply skip_ws_head.
Qed.

(** One step of each scanner. *)
Lemma scan_once_eq fuel c r :
  scan_once (S fuel) (c :: r) =
  if c =? QUOTE then
    match scanstring r with
    | Some (x, rest) => Some (VStr x, rest)
    | None => None
    end
  else if c =? 123 then
    match skip_ws r with
    | c1 :: r1 =>
        if c1 =? 125 then Some (VDict [], r1)
        else if c1 =? QUOTE then
          match object_items fuel r1 with
          | Some (pairs, rest) => Some (VDict (dict_of_pairs pairs), rest)
          | None => None
          end
        else None
    | [] => None
    end
  else if c =? 91 then
    match skip_ws r with
    | c1 :: r1 =>
        if c1 =? 93 then Some (VList [], r1)
        else
          match array_items fuel (c1 :: r1) with
          | Some (vs, rest) => Some (VList vs, rest)
          | None => None
          end
    | [] => None
    end
  else
    first_of (literal (u "null") VNone (c :: r))
   (first_of (literal (u "true") (VBool true) (c :: r))
   (first_of (literal (u "false") (VBool false) (c :: r))
   (first_of (match match_number (c :: r) with
              | Some (lexeme, rest) => Some (VNum lexeme, rest)
              | None => None
              end)
   (first_of (literal (u "NaN") (VNum (u "NaN")) (c :: r))
   (first_of (literal (u "Infinity") (VNum (u "Infinity")) (c :: r))
             (literal (u "-Infinity") (VNum (u "-Infinity")) (c :: r))))))).
Proof. reflexivity. Qed.

Lemma array_items_eq fuel s :
  array_items (S fuel) s =
  match scan_once fuel s with
  | None => None
  | Some (v, r) =>
      match skip_ws r with
      | c :: r1 =>
          if c =? 93 then Some ([v], r1)
          else if c =? 44 then
            match array_items fuel (skip_ws r1) with
            | Some (vs, rest) => Some (v :: vs, rest)
            | None => None
            end
          else None
      | [] => None
      end
  end.
Proof. reflexivity. Qed.

Lemma object_items_eq fuel s :
  object_items (S fuel) s =
  match scanstring s with
  | None => None
  | Some (key, r) =>
      match skip_ws r with
      | c :: r1 =>
          if c =? 58 then
            match scan_once fuel (skip_ws r1) with
            | None => None
            | Some (v, r2) =>
                match skip_ws r2 with
                | c2 :: r3 =>
                    if c2 =? 125 then Some ([(key, v)], r3)
                    else if c2 =? 44 then
                      match skip_ws r3 with
                      | c3 :: r4 =>
                          if c3 =? QUOTE then
                            match object_items fuel r4 with
                            | Some (kvs, rest) => Some ((key, v) :: kvs, rest)
                            | None => None
                            end
                          else None
                      | [] => None
                      end
                    else None
                | [] => None
                end
            end
          else None
      | [] => None
      end
  end.
Proof. reflexivity. Qed.

(** Building a dictionary from pairs with distinct keys keeps the pairs. *)
Lemma dict_set_fresh k v d : k ∉ d.*1 -> dict_set k v d = d ++ [(k, v)].
Proof.
  induction d as [|[k' v'] d IH]; intros Hk; [reflexivity|].
  cbn [dict_set]. rewrite fmap_cons in Hk. apply not_elem_of_cons in Hk as [Hne Hk].
  cbn [fst] in Hne. destruct (decide (k' = k)) as [->|_]; [done|].
  cbn [app]. by rewrite IH.
Qed.

Lemma dict_of_pairs_from acc d :
  NoDup ((acc ++ d).*1) ->
  fold_left (fun d kv => dict_set kv.1 kv.2 d) d acc = acc ++ d.
Proof.
  revert acc. induction d as [|[k v] d IH]; intros acc Hnd; [by rewrite app_nil_r|].
  cbn [fold_left fst snd]. rewrite dict_set_fresh.
  - rewrite IH; rewrite <- app_assoc; done.
  - rewrite fmap_app, fmap_cons in Hnd. apply NoDup_app in Hnd as (_ & Hd & _).
    intros Hin. apply (Hd k Hin). cbn [fst]. apply list_elem_of_here.
Qed.

Lemma dict_of_pairs_nodup d : NoDup (d.*1) -> dict_of_pairs d = d.
Proof. intros Hnd. unfold dict_of_pairs. by rewrite dict_of_pairs_from. Qed.

(** With fuel for the size of the value, each scanner reads back what
    [dumps] wrote, whatever follows it. *)
Lemma scan_roundtrip n :
  (forall v rest, (value_size v <= n)%nat -> wf_value v = true ->
     scan_once n (dumps v ++ rest) = Some (v, rest)) /\
  (forall x l rest, (size_items (x :: l) <= n)%nat -> forallb wf_value (x :: l) = true ->
     array_items n (dumps_items (x :: l) ++ 93 :: rest) = Some (x :: l, rest)) /\
  (forall k x d rest, (size_members ((k, x) :: d) <= n)%nat ->
     forallb wf_member ((k, x) :: d) = true ->
     object_items n (flat_map escape_char k ++ QUOTE :: key_separator ++ dumps x
                     ++ members_tail d ++ 125 :: rest)
     = Some ((k, x) :: d, rest)).
Proof.
  induction n as [|n (IHv & IHa & IHo)].
  { split; [|split].
    - intros v rest Hn. destruct v; cbn in Hn; lia.
    - intros x l rest Hn. cbn in Hn. lia.
    - intros k x d rest Hn. cbn in Hn. lia. }
  split; [|split].
  - intros v rest Hn Hv.
    destruct v as [|[]|lexeme|s|l|d]; try discriminate; try reflexivity.
    + (* string *)
      change (dumps (VStr s) ++ rest)
        with (QUOTE :: (flat_map escape_char s ++ [QUOTE]) ++ rest).
      rewrite scan_once_eq. change (QUOTE =? QUOTE) with true. cbv iota.
      rewrite <- app_assoc. cbn [app]. by rewrite scanstring_encoded.
    + (* list *)
      rewrite dumps_list. cbn [app]. rewrite scan_once_eq.
      change (91 =? QUOTE) with false. change (91 =? 123) with false.
      change (91 =? 91) with true. cbv iota.
      rewrite <- app_assoc. cbn [app].
      destruct l as [|x l]; [reflexivity|].
      cbn [wf_value] in Hv.
      assert (wf_value x = true) as Hx by (cbn [forallb] in Hv; by apply andb_prop in Hv as [? _]).
      destruct (dumps_head x Hx) as (c & t & Hd & Hc & Hc').
      assert (dumps_items (x :: l) ++ 93 :: rest = c :: (t ++ items_tail l ++ 93 :: rest)) as Heq.
      { cbn [dumps_items]. rewrite Hd. cbn [app]. rewrite <- !app_assoc. reflexivity. }
      rewrite Heq, skip_ws_head by done. rewrite Hc'. rewrite <- Heq.
      rewrite IHa; [done| |done].
      cbn [value_size] in Hn. unfold size_items. lia.
    + (* dict *)
      rewrite dumps_dict. cbn [app]. rewrite scan_once_eq.
      change (123 =? QUOTE) with false. change (123 =? 123) with true. cbv iota.
      rewrite <- app_assoc. cbn [app].
      destruct d as [|[k x] d]; [reflexivity|].
      cbn [wf_value] in Hv. apply andb_prop in Hv as [Hv Hnd].
      cbn [dumps_members]. unfold encode_basestring_ascii at 1.
      cbn [app]. rewrite skip_ws_head by done.
      change (QUOTE =? 125) with false. change (QUOTE =? QUOTE) with true. cbv iota.
      rewrite <- !app_assoc. cbn [app].
      change (match d with [] => [] | _ :: _ => item_separator ++ dumps_members d end)
        with (members_tail d).
      rewrite IHo; [| cbn [value_size] in Hn; unfold size_members; lia | done].
      rewrite dict_of_pairs_nodup; [done|]. by apply bool_decide_eq_true in Hnd.
  - (* array items *)
    intros x l rest Hn Hv. rewrite array_items_eq.
    cbn [forallb] in Hv. apply andb_prop in Hv as [Hx Hl].
    cbn [dumps_items]. change (match l with [] => [] | _ :: _ => item_separator ++ dumps_items l end)
      with (items_tail l).
    rewrite <- app_assoc.
    unfold size_items in Hn. cbn [List.map list_sum fold_right] in Hn.
    rewrite IHv by (done || lia).
    destruct l as [|y l]; [reflexivity|].
    unfold items_tail, item_separator. cbn [app].
    rewrite skip_ws_head by done.
    change (44 =? 93) with false. change (44 =? 44) with true. cbv iota.
    assert (wf_value y = true) as Hy by (cbn [forallb] in Hl; by apply andb_prop in Hl as [? _]).
    destruct (dumps_head y Hy) as (c & t & Hd & Hc & Hc').
    assert (skip_ws (32 :: dumps_items (y :: l) ++ 93 :: rest)
            = dumps_items (y :: l) ++ 93 :: rest) as ->.
    { cbn [skip_ws]. change (is_ws 32) with true. cbv iota.
      cbn [dumps_items]. rewrite Hd. cbn [app]. by rewrite skip_ws_head. }
    rewrite IHa; [done| |done].
    unfold size_items. cbn [List.map list_sum fold_right]. cbn [List.map list_sum fold_right] in Hn. lia.
  - (* object members *)
    intros k x d rest Hn Hv. rewrite object_items_eq.
    cbn [forallb] in Hv. apply andb_prop in Hv as [Hkx Hd].
    unfold wf_member in Hkx. cbn [fst snd] in Hkx. apply andb_prop in Hkx as [Hk Hx].
    rewrite scanstring_encoded by done.
    unfold key_separator. cbn [app]. rewrite skip_ws_head by done.
    change (58 =? 58) with true. cbv iota.
    assert (skip_ws (32 :: dumps x ++ members_tail d ++ 125 :: rest)
            = dumps x ++ members_tail d ++ 125 :: rest) as ->.
    { cbn [skip_ws]. change (is_ws 32) with true. cbv iota. by apply skip_ws_dumps. }
    unfold size_members in Hn. cbn [List.map list_sum fold_right snd] in Hn.
    rewrite IHv by (done || lia).
    destruct d as [|[k' y] d]; [reflexivity|].
    unfold members_tail, item_separator. cbn [app].
    rewrite skip_ws_head by done.
    change (44 =? 125) with false. change (44 =? 44) with true. cbv iota.
    cbn [skip_ws]. change (is_ws 32) with true. cbv iota.
    cbn [dumps_members]. unfold encode_basestring_ascii at 1. cbn [app].
    rewrite skip_ws_head by done.
    change (QUOTE =? QUOTE) with true. cbv iota.
    rewrite <- !app_assoc. cbn [app].
    change (match d with [] => [] | _ :: _ => item_separator ++ dumps_members d end)
      with (members_tail d).
    rewrite IHo; [done| |done].
    unfold size_members. cbn [List.map list_sum fold_right snd] in *. lia.
Qed.

(** Induction on values, through the lists and dictionaries. *)
Lemma value_ind' (P : value -> Prop) :
  P VNone -> (forall b, P (VBool b)) -> (forall lexeme, P (VNum lexeme)) ->
  (forall s, P (VStr s)) ->
  (forall l, Forall P l -> P (VList l)) ->
  (forall d, Forall (fun kv => P kv.2) d -> P (VDict d)) ->
  forall v, P v.
Proof.
  intros HN HB HM HS HL HD. fix IH 1. intros [|b|lexeme|s|l|d].
  - exact HN.
  - apply HB.
  - apply HM.
  - apply HS.
  - apply HL. induction l as [|x l IHl]; constructor; [apply IH | exact IHl].
  - apply HD. induction d as [|[k x] d IHd]; constructor; [apply IH | exact IHd].
Qed.

(** The size of a value is at most the length of its text, so the fuel of
    [loads] is enough to read it. *)
Lemma size_items_le l :
  Forall (fun v => wf_value v = true -> (value_size v <= length (dumps v))%nat) l ->
  forallb wf_value l = true ->
  (size_items l <= length (dumps_items l) + 1)%nat.
Proof.
  unfold size_items. induction 1 as [|x l Hx Hl IH]; intros Hwf; [cbn; lia|].
  cbn [forallb] in Hwf. apply andb_prop in Hwf as [Hwx Hwl].
  specialize (Hx Hwx). specialize (IH Hwl).
  cbn [List.map list_sum fold_right dumps_items]. rewrite length_app.
  destruct l as [|y l]; [cbn; lia|].
  unfold item_separator. rewrite length_app. cbn [length].
  cbn [List.map list_sum fold_right] in IH |- *. lia.
Qed.

Lemma size_members_le d :
  Forall (fun kv => wf_value kv.2 = true -> (value_size kv.2 <= length (dumps kv.2))%nat) d ->
  forallb wf_member d = true ->
  (size_members d <= length (dumps_members d) + 1)%nat.
Proof.
  unfold size_members. induction 1 as [|[k x] d Hx Hd IH]; intros Hwf; [cbn; lia|].
  cbn [forallb] in Hwf. apply andb_prop in Hwf as [Hwx Hwd].
  unfold wf_member in Hwx. apply andb_prop in Hwx as [_ Hwx].
  cbn [snd] in Hx, Hwx. specialize (Hx Hwx). specialize (IH Hwd).
  cbn [List.map list_sum fold_right dumps_members snd].
  rewrite !length_app.
  destruct d as [|y d]; [cbn; lia|].
  unfold item_separator. rewrite length_app. cbn [length].
  cbn [List.map list_sum fold_right] in IH |- *. lia.
Qed.

Lemma size_le_dumps v : wf_value v = true -> (value_size v <= length (dumps v))%nat.
Proof.
  induction v as [| [] |lexeme|s|l IH|d IH] using value_ind'; intros Hv;
    try discriminate; try (cbn; lia).
  - rewrite dumps_list. cbn [length value_size]. rewrite length_app. cbn [length].
    pose proof (size_items_le l IH Hv) as Hle. unfold size_items in Hle. lia.
  - rewrite dumps_dict. cbn [length value_size]. rewrite length_app. cbn [length].
    cbn [wf_value] in Hv. apply andb_prop in Hv as [Hv _].
    pose proof (size_members_le d IH Hv) as Hle. unfold size_members in Hle. lia.
Qed.

(** [json.loads(json.dumps(v)) == v] for a value of strings, constants,
    lists and dictionaries with distinct keys whose text holds no surrogate. *)
Theorem loads_dumps v : wf_value v = true -> loads (dumps v) = Some v.
Proof.
  intros Hv. unfold loads.
  pose proof (skip_ws_dumps v [] Hv) as Hs. rewrite app_nil_r in Hs. rewrite Hs.
  pose proof (proj1 (scan_roundtrip (2 * length (dumps v) + 2)) v [] ) as Hr.
  rewrite app_nil_r in Hr. rewrite Hr; [done| |done].
  pose proof (size_le_dumps v Hv). lia.
Qed.

(** *** The decoder's fuel

    What a scanner leaves is no longer than what it was given, so a call
    nests no deeper than twice the length of its text: the fuel of [loads]
    never runs out, and [None] is a text that is not JSON. *)

Lemma cons_char_Some c r x rest :
  cons_char c r = Some (x, rest) -> exists x', r = Some (x', rest).
Proof. destruct r as [[x' rest']|]; [|done]. intros [= <- <-]. by eexists. Qed.

Lemma scanstring_rest_bounded (n : nat) : forall s x r,
  (length s <= n)%nat -> scanstring s = Some (x, r) -> (length r < length s)%nat.
Proof.
  induction n as [|n IH]; intros s x r Hn Hs.
  { destruct s; [discriminate Hs|cbn in Hn; lia]. }
  destruct s as [|c s1]; [discriminate Hs|]. cbn [length] in Hn |- *.
  cbn [scanstring] in Hs.
  destruct (c =? QUOTE). { injection Hs as <- <-. lia. }
  destruct (c =? BACKSLASH).
  - destruct s1 as [|e s2]; [discriminate Hs|]. cbn [length] in Hn |- *.
    destruct (e =? 117).
    + destruct s2 as [|h1 [|h2 [|h3 [|h4 s6]]]]; try discriminate Hs.
      cbn [length] in Hn |- *.
      destruct (decode_uXXXX h1 h2 h3 h4) as [uni|]; [|discriminate Hs].
      assert (forall y, cons_char uni (scanstring s6) = Some (y, r) ->
                        (length r < length s6)%nat) as Hplain.
      { intros y Hy. apply cons_char_Some in Hy as [x' Hy].
        apply IH in Hy; [done|lia]. }
      destruct s6 as [|b2 [|u2 s8]]; [apply Hplain in Hs; cbn [length] in *; lia..|].
      destruct (is_high_surrogate uni && (b2 =? BACKSLASH) && (u2 =? 117));
        [|apply Hplain in Hs; cbn [length] in *; lia].
      destruct s8 as [|k1 [|k2 [|k3 [|k4 s12]]]]; try discriminate Hs.
      destruct (decode_uXXXX k1 k2 k3 k4) as [uni2|]; [|discriminate Hs].
      destruct (is_low_surrogate uni2); [|apply Hplain in Hs; cbn [length] in *; lia].
      apply cons_char_Some in Hs as [x' Hs].
      apply IH in Hs; cbn [length] in *; lia.
    + destruct (unescape e) as [c'|]; [|discriminate Hs].
      apply cons_char_Some in Hs as [x' Hs]. apply IH in Hs; lia.
  - destruct (c <? 32); [discriminate Hs|].
    apply cons_char_Some in Hs as [x' Hs]. apply IH in Hs; lia.
Qed.

Lemma scanstring_rest s x r :
  scanstring s = Some (x, r) -> (length r < length s)%nat.
Proof. by apply (scanstring_rest_bounded (length s)). Qed.

Lemma skip_ws_length s : (length (skip_ws s) <= length s)%nat.
Proof.
  induction s as [|c s IH]; [done|]. cbn [skip_ws length].
  destruct (is_ws c); cbn [length]; lia.
Qed.

Lemma skip_ws_cons s c r : skip_ws s = c :: r -> (length r < length s)%nat.
Proof. intros Hs. pose proof (skip_ws_length s) as Hl. rewrite Hs in Hl. cbn in Hl. lia. Qed.

Lemma span_digits_rest s : (length (span_digits s).2 <= length s)%nat.
Proof.
  induction s as [|c s IH]; [done|]. cbn [span_digits].
  destruct (is_digit c); [|done]. destruct (span_digits s) as [ds rest].
  cbn [snd length] in *. lia.
Qed.

Lemma match_int_rest s i r : match_int s = Some (i, r) -> (length r <= length s)%nat.
Proof.
  unfold match_int. intros Hm.
  assert (forall sign s0, (length s0 <= length s)%nat ->
            match s0 with
            | c :: s1 =>
                if c =? 48 then Some (sign ++ [48], s1)
                else if is_digit c
                     then let (ds, rest) := span_digits s1 in Some (sign ++ c :: ds, rest)
                     else None
            | [] => None
            end = Some (i, r) -> (length r <= length s)%nat) as Hbody.
  { intros sign [|c s1] Hl Hb; [discriminate Hb|]. cbn [length] in Hl.
    destruct (c =? 48). { injection Hb as <- <-. lia. }
    destruct (is_digit c); [|discriminate Hb].
    pose proof (span_digits_rest s1) as Hd. destruct (span_digits s1) as [ds rest].
    injection Hb as <- <-. cbn [snd] in Hd. lia. }
  destruct s as [|c s']; [discriminate Hm|].
  destruct (c =? 45); cbv beta iota in Hm;
    [apply (Hbody [45] s')|apply (Hbody [] (c :: s'))]; try exact Hm; cbn [length]; lia.
Qed.

Lemma match_frac_rest s : (length (match_frac s).2 <= length s)%nat.
Proof.
  destruct s as [|c s1]; [done|]. cbn [match_frac]. destruct (c =? 46); [|done].
  pose proof (span_digits_rest s1) as Hd.
  destruct (span_digits s1) as [[|d ds] rest]; cbn [snd length] in *; lia.
Qed.

Lemma match_exp_rest s : (length (match_exp s).2 <= length s)%nat.
Proof.
  destruct s as [|c s1]; [done|]. cbn [match_exp].
  destruct ((c =? 101) || (c =? 69)); [|done].
  assert (forall sign s2, (length s2 <= length s1)%nat ->
            (length (match span_digits s2 with
                     | ([], _) => ([], c :: s1)
                     | (ds, rest) => (c :: sign ++ ds, rest)
                     end).2 <= length (c :: s1))%nat) as Hbody.
  { intros sign s2 Hl. pose proof (span_digits_rest s2) as Hd.
    destruct (span_digits s2) as [[|d ds] rest]; cbn [snd length] in *; lia. }
  destruct s1 as [|d s']; [by apply Hbody|].
  destruct ((d =? 43) || (d =? 45)); apply Hbody; cbn [length]; lia.
Qed.

Lemma match_number_rest s lexeme r :
  match_number s = Some (lexeme, r) -> (length r <= length s)%nat.
Proof.
  unfold match_number. destruct (match_int s) as [[i s1]|] eqn:Hi; [|done].
  apply match_int_rest in Hi. pose proof (match_frac_rest s1) as Hf.
  destruct (match_frac s1) as [f s2]. pose proof (match_exp_rest s2) as He.
  destruct (match_exp s2) as [e s3]. intros [= <- <-]. cbn [snd] in *. lia.
Qed.

Lemma literal_rest name v s v' r :
  literal name v s = Some (v', r) -> (length r <= length s)%nat.
Proof.
  unfold literal. destruct (startswith name s); [|done]. intros [= <- <-].
  rewrite length_drop. lia.
Qed.

Lemma first_of_Some {A} (a b : option A) x :
  first_of a b = Some x -> a = Some x \/ b = Some x.
Proof. destruct a; cbn; auto. Qed.

(** What the three scanners leave is no longer than their text. *)
Lemma scan_rest (n : nat) :
  (forall s v r, scan_once n s = Some (v, r) -> (length r <= length s)%nat) /\
  (forall s vs r, array_items n s = Some (vs, r) -> (length r <= length s)%nat) /\
  (forall s kvs r, object_items n s = Some (kvs, r) -> (length r <= length s)%nat).
Proof.
  induction n as [|n (IHs & IHa & IHo)]; [by repeat split|].
  repeat apply conj.
  - intros s v r Hs. cbn [scan_once] in Hs. destruct s as [|c s']; [discriminate Hs|].
    cbn [length].
    destruct (c =? QUOTE).
    { destruct (scanstring s') as [[x rest]|] eqn:Hx; [|discriminate Hs].
      injection Hs as <- <-. apply scanstring_rest in Hx. lia. }
    destruct (c =? 123).
    { destruct (skip_ws s') as [|c1 r1] eqn:Hw; [discriminate Hs|].
      apply skip_ws_cons in Hw.
      destruct (c1 =? 125). { injection Hs as <- <-. lia. }
      destruct (c1 =? QUOTE); [|discriminate Hs].
      destruct (object_items n r1) as [[pairs rest]|] eqn:Ho; [|discriminate Hs].
      injection Hs as <- <-. apply IHo in Ho. lia. }
    destruct (c =? 91).
    { destruct (skip_ws s') as [|c1 r1] eqn:Hw; [discriminate Hs|].
      apply skip_ws_cons in Hw.
      destruct (c1 =? 93). { injection Hs as <- <-. lia. }
      destruct (array_items n (c1 :: r1)) as [[vs rest]|] eqn:Ha; [|discriminate Hs].
      injection Hs as <- <-. apply IHa in Ha. cbn [length] in Ha. lia. }
    change (S (length s')) with (length (c :: s')).
    do 3 (apply first_of_Some in Hs as [Hs|Hs]; [by eapply literal_rest|]).
    apply first_of_Some in Hs as [Hs|Hs].
    { destruct (match_number (c :: s')) as [[lexeme rest]|] eqn:Hm; [|discriminate Hs].
      injection Hs as <- <-. by eapply match_number_rest. }
    apply first_of_Some in Hs as [Hs|Hs]; [by eapply literal_rest|].
    apply first_of_Some in Hs as [Hs|Hs]; by eapply literal_rest.
  - intros s vs r Ha. cbn [array_items] in Ha.
    destruct (scan_once n s) as [[v r0]|] eqn:Hs; [|discriminate Ha]. apply IHs in Hs.
    destruct (skip_ws r0) as [|c r1] eqn:Hw; [discriminate Ha|]. apply skip_ws_cons in Hw.
    destruct (c =? 93). { injection Ha as <- <-. lia. }
    destruct (c =? 44); [|discriminate Ha].
    destruct (array_items n (skip_ws r1)) as [[vs' rest]|] eqn:Ha'; [|discriminate Ha].
    injection Ha as <- <-. apply IHa in Ha'. pose proof (skip_ws_length r1). lia.
  - intros s kvs r Ho. cbn [object_items] in Ho.
    destruct (scanstring s) as [[key r0]|] eqn:Hk; [|discriminate Ho].
    apply scanstring_rest in Hk.
    destruct (skip_ws r0) as [|c r1] eqn:Hw; [discriminate Ho|]. apply skip_ws_cons in Hw.
    destruct (c =? 58); [|discriminate Ho].
    destruct (scan_once n (skip_ws r1)) as [[v r2]|] eqn:Hs; [|discriminate Ho].
    apply IHs in Hs. pose proof (skip_ws_length r1).
    destruct (skip_ws r2) as [|c2 r3] eqn:Hw2; [discriminate Ho|]. apply skip_ws_cons in Hw2.
    destruct (c2 =? 125). { injection Ho as <- <-. lia. }
    destruct (c2 =? 44); [|discriminate Ho].
    destruct (skip_ws r3) as [|c3 r4] eqn:Hw3; [discriminate Ho|]. apply skip_ws_cons in Hw3.
    destruct (c3 =? QUOTE); [|discriminate Ho].
    destruct (object_items n r4) as [[kvs' rest]|] eqn:Ho'; [|discriminate Ho].
    injection Ho as <- <-. apply IHo in Ho'. lia.
Qed.

(** Fuel beyond twice the length of the text changes nothing. *)
Lemma scan_fuel (n : nat) :
  (forall m s, (n <= m)%nat -> (2 * length s + 1 <= n)%nat ->
     scan_once m s = scan_once n s) /\
  (forall m s, (n <= m)%nat -> (2 * length s + 2 <= n)%nat ->
     array_items m s = array_items n s) /\
  (forall m s, (n <= m)%nat -> (2 * length s + 2 <= n)%nat ->
     object_items m s = object_items n s).
Proof.
  induction n as [|n (IHs & IHa & IHo)]; [repeat split; intros; lia|].
  repeat apply conj.
  - intros [|m] s Hm Hn; [lia|]. cbn [scan_once].
    destruct s as [|c s']; [done|]. cbn [length] in Hn.
    destruct (c =? QUOTE); [done|].
    destruct (c =? 123).
    { destruct (skip_ws s') as [|c1 r1] eqn:Hw; [done|]. apply skip_ws_cons in Hw.
      destruct (c1 =? 125); [done|]. destruct (c1 =? QUOTE); [|done].
      by rewrite (IHo m r1) by lia. }
    destruct (c =? 91); [|done].
    destruct (skip_ws s') as [|c1 r1] eqn:Hw; [done|]. apply skip_ws_cons in Hw.
    destruct (c1 =? 93); [done|].
    by rewrite (IHa m (c1 :: r1)) by (cbn [length]; lia).
  - intros [|m] s Hm Hn; [lia|]. cbn [array_items].
    rewrite (IHs m s) by lia.
    destruct (scan_once n s) as [[v r0]|] eqn:Hs; [|done].
    apply (proj1 (scan_rest n)) in Hs.
    destruct (skip_ws r0) as [|c r1] eqn:Hw; [done|]. apply skip_ws_cons in Hw.
    destruct (c =? 93); [done|]. destruct (c =? 44); [|done].
    pose proof (skip_ws_length r1).
    by rewrite (IHa m (skip_ws r1)) by lia.
  - intros [|m] s Hm Hn; [lia|]. cbn [object_items].
    destruct (scanstring s) as [[key r0]|] eqn:Hk; [|done]. apply scanstring_rest in Hk.
    destruct (skip_ws r0) as [|c r1] eqn:Hw; [done|]. apply skip_ws_cons in Hw.
    destruct (c =? 58); [|done].
    pose proof (skip_ws_length r1).
    rewrite (IHs m (skip_ws r1)) by lia.
    destruct (scan_once n (skip_ws r1)) as [[v r2]|] eqn:Hs; [|done].
    apply (proj1 (scan_rest n)) in Hs.
    destruct (skip_ws r2) as [|c2 r3] eqn:Hw2; [done|]. apply skip_ws_cons in Hw2.
    destruct (c2 =? 125); [done|]. destruct (c2 =? 44); [|done].
    destruct (skip_ws r3) as [|c3 r4] eqn:Hw3; [done|]. apply skip_ws_cons in Hw3.
    destruct (c3 =? QUOTE); [|done].
    by rewrite (IHo m r4) by lia.
Qed.

(** [loads] with any more fuel reads the same value: its [None] is a text
    that is not JSON. *)
Lemma loads_fuel (s : str) (n : nat) :
  (2 * length s + 2 <= n)%nat ->
  scan_once n (skip_ws s) = scan_once (2 * length s + 2) (skip_ws s).
Proof.
  intros Hn. pose proof (skip_ws_length s) as Hl.
  rewrite (proj1 (scan_fuel (2 * length (skip_ws s) + 1)%nat) n) by lia.
  by rewrite (proj1 (scan_fuel (2 * length (skip_ws s) + 1)%nat) (2 * length s + 2)%nat) by lia.
Qed.

(** ** Tables, and [populate_last_projects_table] *)

(** Table algebra *)
Lemma insert_last {A} (t : list A) (r y : A) : <[length t := y]> (t ++ [r]) = t ++ [y].
Proof. rewrite insert_app_r_alt by lia. by rewrite Nat.sub_diag. Qed.

Lemma lookup_last {A} (t : list A) (r : A) : (t ++ [r]) !! length t = Some r.
Proof. by rewrite list_lookup_middle. Qed.

(** Adding a row at the end of a table, and filling it. *)
Lemma insertRow_end t : insertRow (length t) t = t ++ [empty_row].
Proof.
  unfold insertRow. rewrite decide_True by lia.
  by rewrite take_ge, drop_ge by lia.
Qed.

Lemma setItem_last t r c text :
  setItem (length t) c text (t ++ [r])
  = t ++ [Row (<[c := Some text]> (items r)) (cell_widget r) (hidden r)].
Proof. unfold setItem. by rewrite lookup_last, insert_last. Qed.

Lemma setCellWidget_last t r wd :
  setCellWidget (length t) wd (t ++ [r]) = t ++ [Row (items r) (Some wd) (hidden r)].
Proof. unfold setCellWidget. by rewrite lookup_last, insert_last. Qed.

Lemma append_text_row t a b c d wd :
  setCellWidget (length t) wd
    (setItem (length t) 3 d
       (setItem (length t) 2 c
          (setItem (length t) 1 b
             (setItem (length t) 0 a (insertRow (length t) t)))))
  = t ++ [text_row a b c d wd].
Proof.
  rewrite insertRow_end, !setItem_last, setCellWidget_last. reflexivity.
Qed.

Lemma setRowCount_same t : setRowCount (length t) t = t.
Proof. unfold setRowCount. rewrite take_ge, Nat.sub_diag by lia. apply app_nil_r. Qed.

Lemma map_res_project_dict l :
  Forall (fun e => exists p c, e = V3.ProjectInfo p c) l ->
  map_res (fun project =>
             res_bind (V3.entry_path project) (fun p =>
             res_bind (V3.entry_created_by project) (fun c =>
             Val (VDict [(u "path", VStr (str_of_path p)); (u "created_by", c)]))))
          l
  = Val (project_dict <$> l).
Proof.
  induction 1 as [|e l (p & c & ->) _ IH]; [reflexivity|].
  cbn [map_res V3.entry_path V3.entry_created_by res_bind]. by rewrite IH.
Qed.

Lemma is_record_info l :
  Forall (fun e => is_record e = true) l ->
  Forall (fun e => exists p c, e = V3.ProjectInfo p c) l.
Proof.
  intros Hl. eapply Forall_impl; [exact Hl|].
  intros [p c|p] He; [by eexists _, _|discriminate].
Qed.

Section V3Facts.
Context {platform : Platform}.

(** [save_settings] on a list of records stores the two JSON texts. *)
Lemma save_settings_run w a :
  Forall (fun e => exists p c, e = V3.ProjectInfo p c) (V3.last_project_files a) ->
  V3.save_settings (w, a) = (Val tt, (set_qsettings (saved_settings a (qsettings w)) w, a)).
Proof.
  intros Hl. unfold V3.save_settings, bind, self, gets, lift. cbn [snd].
  rewrite map_res_project_dict by done. cbn [res_bind].
  destruct w. reflexivity.
Qed.

(** One turn of the loop of [populate_last_projects_table] appends the row
    of the record. *)
Lemma show_project_run w a p c :
  fs_exists (fs w) p = true ->
  V3.show_project (length (V3.last_projects_table a)) (V3.ProjectInfo p (VStr c)) (w, a)
  = (Val tt,
     (w, V3.on_last_projects_table
           (fun t => t ++ [project_row (fs w) (length t) (V3.ProjectInfo p (VStr c))]) a)).
Proof.
  intros Hp. unfold fs_exists in Hp.
  unfold V3.show_project, bind, lift, the_world, gets, with_self, modify, stat_mtime.
  unfold Path, str_of_path.
  cbn [V3.entry_path V3.entry_created_by fst snd QTableWidgetItem].
  destruct (fs w !! p) as [n|] eqn:Hn; [|discriminate].
  destruct a as [d l v t at_ sb]. unfold V3.on_last_projects_table.
  cbn [V3.last_projects_table V3.last_project_directory
       V3.last_project_files V3.imported_assets V3.imported_assets_table V3.asset_search_bar].
  rewrite append_text_row. unfold project_row. rewrite Hn. reflexivity.
Qed.

Lemma populate_loop w l : forall a,
  Forall (fun e => is_record e = true /\ entry_exists (fs w) e = true) l ->
  for_enumerate (length (V3.last_projects_table a)) l V3.show_project (w, a)
  = (Val tt,
     (w, V3.on_last_projects_table
           (fun t => t ++ project_rows (fs w) (length t) l) a)).
Proof.
  induction l as [|e l IH]; intros a Hl.
  - destruct a. cbn [for_enumerate project_rows]. unfold V3.on_last_projects_table, ret.
    cbn [V3.last_projects_table V3.last_project_directory
       V3.last_project_files V3.imported_assets V3.imported_assets_table V3.asset_search_bar].
    by rewrite app_nil_r.
  - apply Forall_cons in Hl as [[He Hx] Hl].
    destruct e as [p [| | |c| |]|p]; try discriminate.
    cbn [for_enumerate]. unfold bind at 1.
    rewrite show_project_run by exact Hx.
    set (a' := V3.on_last_projects_table _ a).
    assert (S (length (V3.last_projects_table a)) = length (V3.last_projects_table a')) as ->.
    { subst a'. destruct a. v3_simpl. rewrite length_app. cbn. lia. }
    rewrite IH by done. subst a'. destruct a as [d l0 v t at_ sb]. v3_simpl.
    rewrite <- app_assoc. cbn [app project_rows]. rewrite length_app. cbn [length].
    by rewrite Nat.add_1_r.
Qed.

Lemma filter_res_exists fs l :
  Forall (fun e => exists p c, e = V3.ProjectInfo p c) l ->
  filter_res (fun project =>
                res_bind (V3.entry_path project) (fun p =>
                Val (fs_exists fs (str_of_path (Path p))))) l
  = Val (filter (fun e => entry_exists fs e = true) l).
Proof.
  induction 1 as [|e l (p & c & ->) _ IH]; [reflexivity|].
  cbn [filter_res V3.entry_path res_bind]. rewrite IH.
  rewrite filter_cons. cbn [entry_exists]. unfold str_of_path, Path.
  by destruct (fs_exists fs p).
Qed.

(** [populate_last_projects_table] on a list of records: the list is pruned
    to the files that exist, the table shows its rows, and the settings are
    saved. *)
Lemma populate_run w a :
  Forall (fun e => is_record e = true) (V3.last_project_files a) ->
  V3.populate_last_projects_table (w, a)
  = (Val tt, (set_qsettings (saved_settings (populated w a) (qsettings w)) w,
              populated w a)).
Proof.
  intros Hl. unfold V3.populate_last_projects_table.
  unfold bind, with_self, self, the_world, gets, modify, lift.
  destruct a as [d l v t at_ sb]. v3_simpl.
  rewrite filter_res_exists by (by apply is_record_info).
  change (setRowCount 0 t) with (@nil row).
  set (existing := filter _ l).
  pose proof (populate_loop w existing (V3.App d existing v [] at_ sb)) as Hloop.
  cbn [V3.last_projects_table length] in Hloop. rewrite Hloop; clear Hloop.
  - v3_simpl. cbn [app length]. rewrite save_settings_run.
    + reflexivity.
    + cbn. apply is_record_info. subst existing. apply Forall_forall. intros e He.
      apply list_elem_of_filter in He as [_ He]. by eapply Forall_forall in Hl.
  - subst existing. apply Forall_forall. intros e He.
    apply list_elem_of_filter in He as [He1 He2]. split; [|done].
    by eapply Forall_forall in Hl.
Qed.

End V3Facts.

(** ** Substrings, and [filter_assets] *)

(** The tests of the program against the relations they decide. *)
Lemma startswith_spec p s : startswith p s = true <-> exists b, s = p ++ b.
Proof.
  revert s. induction p as [|a p IH]; intros s; cbn [startswith].
  - split; [by exists s|done].
  - destruct s as [|b s].
    + split; [done|]. by intros [? ?].
    + rewrite andb_true_iff, N.eqb_eq, IH. split.
      * intros [-> [t ->]]. by exists t.
      * intros [t Ht]. cbn [app] in Ht. injection Ht as -> ->. eauto.
Qed.

Lemma str_in_spec sub s : str_in sub s = true <-> contains sub s.
Proof.
  unfold contains. induction s as [|c s IH]; cbn [str_in].
  - rewrite orb_false_r, startswith_spec. split.
    + intros [b Hb]. by exists [], b.
    + intros (a & b & Hab). symmetry in Hab.
      apply app_eq_nil in Hab as [-> Hab]. apply app_eq_nil in Hab as [-> ->].
      by exists [].
  - rewrite orb_true_iff, startswith_spec, IH. split.
    + intros [[b Hb]|(a & b & Hab)].
      * by exists [], b.
      * exists (c :: a), b. by rewrite Hab.
    + intros ([|c' a] & b & Hab).
      * left. by exists b.
      * right. cbn [app] in Hab. injection Hab as -> ->. by exists a, b.
Qed.

Lemma str_in_empty s : str_in [] s = true.
Proof. by destruct s. Qed.

Lemma item_middle (done rest : table) x c :
  item (length done) c (done ++ x :: rest) = mjoin (items x !! c).
Proof. unfold item. by rewrite list_lookup_middle. Qed.

Lemma setRowHidden_middle (done rest : table) x b :
  setRowHidden (length done) b (done ++ x :: rest)
  = done ++ Row (items x) (cell_widget x) b :: rest.
Proof.
  unfold setRowHidden. rewrite list_lookup_middle by done.
  rewrite insert_app_r_alt by lia. by rewrite Nat.sub_diag.
Qed.

Section Filter.
Context {platform : Platform}.

(** [filter_assets] of [py_ae_v3.py] applies [hide_by] to every row. *)
Lemma v3_filter_asset_row_run w a needle done x rest :
  V3.imported_assets_table a = done ++ x :: rest ->
  V3.filter_asset_row needle (length done) (w, a)
  = (Val tt, (w, V3.on_imported_assets_table
                   (fun _ => done ++ hide_by needle x :: rest) a)).
Proof.
  intros Ht. unfold V3.filter_asset_row, bind, self, gets, with_self, modify, ret.
  cbn [snd fst]. rewrite Ht, item_middle. unfold hide_by.
  destruct a as [d l v t at_ sb]. v3_simpl. subst at_.
  destruct (mjoin (items x !! 0%nat)) as [text|]; [|by destruct x].
  destruct (str_in needle (str_lower text)); v3_simpl; by rewrite setRowHidden_middle.
Qed.

Lemma v3_filter_assets_loop w needle rest : forall done a,
  V3.imported_assets_table a = done ++ rest ->
  for_each (seq (length done) (length rest)) (V3.filter_asset_row needle) (w, a)
  = (Val tt, (w, V3.on_imported_assets_table
                   (fun _ => done ++ (hide_by needle <$> rest)) a)).
Proof.
  induction rest as [|x rest IH]; intros done a Ht.
  - destruct a. v3_simpl. subst. reflexivity.
  - cbn [length seq for_each]. unfold bind at 1.
    rewrite (v3_filter_asset_row_run w a needle done x rest Ht).
    replace (S (length done)) with (length (done ++ [hide_by needle x]))
      by (rewrite length_app; cbn; lia).
    rewrite IH.
    + destruct a. v3_simpl. rewrite <- app_assoc. reflexivity.
    + destruct a. v3_simpl. by rewrite <- app_assoc.
Qed.

Lemma v3_filter_assets_run w a :
  V3.filter_assets (w, a)
  = (Val tt, (w, V3.on_imported_assets_table
                   (fmap (hide_by (str_lower (V3.asset_search_bar a)))) a)).
Proof.
  unfold V3.filter_assets, bind, self, gets. cbn [snd]. unfold rowCount.
  rewrite (v3_filter_assets_loop w _ (V3.imported_assets_table a) [] a) by done.
  by destruct a.
Qed.

(** [filter_assets] of [py_ae.py] does the same. *)
Lemma pyae_filter_asset_row_run w a needle done x rest :
  PyAe.imported_assets_table a = done ++ x :: rest ->
  PyAe.filter_asset_row needle (length done) (w, a)
  = (Val tt, (w, PyAe.on_imported_assets_table
                   (fun _ => done ++ hide_by needle x :: rest) a)).
Proof.
  intros Ht. unfold PyAe.filter_asset_row, bind, self, gets, with_self, modify, ret.
  cbn [snd fst]. rewrite Ht, item_middle. unfold hide_by.
  destruct a as [t at_ sb]. pyae_simpl. subst at_.
  destruct (mjoin (items x !! 0%nat)) as [text|]; [|by destruct x].
  destruct (str_in needle (str_lower text)); pyae_simpl; by rewrite setRowHidden_middle.
Qed.

Lemma pyae_filter_assets_loop w needle rest : forall done a,
  PyAe.imported_assets_table a = done ++ rest ->
  for_each (seq (length done) (length rest)) (PyAe.filter_asset_row needle) (w, a)
  = (Val tt, (w, PyAe.on_imported_assets_table
                   (fun _ => done ++ (hide_by needle <$> rest)) a)).
Proof.
  induction rest as [|x rest IH]; intros done a Ht.
  - destruct a. pyae_simpl. subst. reflexivity.
  - cbn [length seq for_each]. unfold bind at 1.
    rewrite (pyae_filter_asset_row_run w a needle done x rest Ht).
    replace (S (length done)) with (length (done ++ [hide_by needle x]))
      by (rewrite length_app; cbn; lia).
    rewrite IH.
    + destruct a. pyae_simpl. rewrite <- app_assoc. reflexivity.
    + destruct a. pyae_simpl. by rewrite <- app_assoc.
Qed.

Lemma pyae_filter_assets_run w a :
  PyAe.filter_assets (w, a)
  = (Val tt, (w, PyAe.on_imported_assets_table
                   (fmap (hide_by (str_lower (PyAe.asset_search_bar a)))) a)).
Proof.
  unfold PyAe.filter_assets, bind, self, gets. cbn [snd]. unfold rowCount.
  rewrite (pyae_filter_assets_loop w _ (PyAe.imported_assets_table a) [] a) by done.
  by destruct a.
Qed.

(** [hide_by] touches nothing but the visibility. *)
Lemma hide_by_items needle (t : table) : items <$> (hide_by needle <$> t) = items <$> t.
Proof.
  rewrite <- list_fmap_compose. apply list_fmap_ext. intros _ x _. cbn.
  unfold hide_by. by destruct (mjoin (items x !! 0%nat)).
Qed.

Lemma hide_by_widgets needle (t : table) :
  cell_widget <$> (hide_by needle <$> t) = cell_widget <$> t.
Proof.
  rewrite <- list_fmap_compose. apply list_fmap_ext. intros _ x _. cbn.
  unfold hide_by. by destruct (mjoin (items x !! 0%nat)).
Qed.

Lemma hide_by_named needle (t : table) r x text :
  (hide_by needle <$> t) !! r = Some x -> item r 0 (hide_by needle <$> t) = Some text ->
  hidden x = negb (str_in needle (str_lower text)).
Proof.
  unfold item. intros Hx. rewrite Hx. rewrite list_lookup_fmap in Hx.
  destruct (t !! r) as [y|]; [|discriminate]. cbn in Hx. injection Hx as <-.
  unfold hide_by. destruct (mjoin (items y !! 0%nat)) as [text'|] eqn:Hy.
  - cbn [items hidden]. rewrite Hy. by intros [= ->].
  - by rewrite Hy.
Qed.

End Filter.

(** ** [import_file_connection] *)

Section ImportFile.
Context {platform : Platform}.

(** Without a process named as After Effects, [import_file_connection] shows
    the error and returns. *)
Lemma import_blocked picked w a :
  existsb (fun name => str_in (u "AfterFX.exe") name) (processes w) = false ->
  V3.import_file_connection picked (w, a)
  = (Val tt, (set_shown (shown w ++ [not_running_dialog]) w, a)).
Proof.
  intros Hp.
  unfold V3.import_file_connection, is_after_effects_running, bind, the_world, gets, ret.
  cbn [fst snd]. cbv zeta. rewrite Hp. reflexivity.
Qed.

End ImportFile.

(** ** [delete_project] *)

Section Delete.
Context {platform : Platform}.

Lemma index_in_range {A} (l : list A) (index : Z) x :
  (0 <= index)%Z -> l !! Z.to_nat index = Some x ->
  negb ((0 <=? index)%Z && (index <? Z.of_nat (length l))%Z) = false.
Proof.
  intros H0 Hx. apply lookup_lt_Some in Hx.
  apply negb_false_iff, andb_true_iff. split; [by apply Z.leb_le|].
  apply Z.ltb_lt. lia.
Qed.

(** [delete_project] of [py_ae_v3.py]: declined, on a file that is gone, and
    carried out. *)
Lemma v3_delete_declined answer index w a p c :
  answer <> Yes -> (0 <= index)%Z ->
  V3.last_project_files a !! Z.to_nat index = Some (V3.ProjectInfo p c) ->
  V3.delete_project answer index (w, a) = (Val tt, (asked w, a)).
Proof.
  intros Hans H0 Hx.
  unfold V3.delete_project, bind, self, gets, lift, message_box, with_world, modify.
  cbn [fst snd]. rewrite (index_in_range _ _ _ H0 Hx), Hx.
  cbn [V3.entry_path]. by destruct answer.
Qed.

Lemma v3_delete_missing index w a p c :
  (0 <= index)%Z ->
  V3.last_project_files a !! Z.to_nat index = Some (V3.ProjectInfo p c) ->
  fs_exists (fs w) p = false ->
  V3.delete_project Yes index (w, a)
  = (Val tt,
     (set_shown (shown w ++ [confirm_dialog;
                             Dialog Information (u "File Not Found") []
                                    (Some FileNotFoundError)]) w, a)).
Proof.
  intros H0 Hx Hp.
  unfold V3.delete_project, try_except, bind, self, the_world, gets, lift,
    message_box, with_world, modify, raise.
  cbn [fst snd]. rewrite (index_in_range _ _ _ H0 Hx), Hx.
  cbn [V3.entry_path]. unfold Path, str_of_path. destruct w. world_simpl.
  rewrite Hp. cbn [negb]. world_simpl. by rewrite <- app_assoc.
Qed.

Lemma populated_is_record w a :
  Forall (fun e => is_record e = true) (V3.last_project_files a) ->
  Forall (fun e => exists p c, e = V3.ProjectInfo p c)
         (V3.last_project_files (populated w a)).
Proof.
  intros Hl. apply is_record_info. cbn. apply Forall_forall. intros e He.
  apply list_elem_of_filter in He as [_ He]. by eapply Forall_forall in Hl.
Qed.

Lemma v3_delete_done index w a p c :
  (0 <= index)%Z ->
  Forall (fun e => is_record e = true) (V3.last_project_files a) ->
  V3.last_project_files a !! Z.to_nat index = Some (V3.ProjectInfo p c) ->
  fs_isfile (fs w) p = true ->
  V3.delete_project Yes index (w, a) = (Val tt, deleted_state index p w a).
Proof.
  intros H0 Hl Hx Hp.
  unfold V3.delete_project, try_except, bind, self, the_world, gets, lift,
    message_box, with_world, with_self, modify, raise, ret.
  cbn [fst snd]. rewrite (index_in_range _ _ _ H0 Hx), Hx.
  cbn [V3.entry_path fst snd]. unfold Path, str_of_path.
  unfold fs_isfile in Hp. destruct (fs w !! p) as [[content mt|mt]|] eqn:Hn; try discriminate.
  assert (fs (set_shown (shown w ++ [confirm_dialog]) w) = fs w) as Hfs by (by destruct w).
  fold confirm_dialog. unfold fs_exists, os_remove. rewrite !Hfs, Hn. cbn [negb fst snd].
  rewrite populate_run by (destruct a; v3_simpl; by apply Forall_delete).
  rewrite save_settings_run
    by (apply populated_is_record; destruct a; v3_simpl; by apply Forall_delete).
  unfold deleted_state, asked. cbv zeta. destruct w. reflexivity.
Qed.

(** [delete_project] of [py_ae.py]: declined, on a file that is gone, and
    carried out. *)
Lemma pyae_delete_declined answer index w a :
  answer <> Yes -> PyAe.delete_project answer index (w, a) = (Val tt, (asked w, a)).
Proof.
  intros Hans. unfold PyAe.delete_project, bind, message_box, with_world, modify.
  cbn [fst snd]. by destruct answer.
Qed.

Lemma pyae_delete_missing index w a p :
  item index 1 (PyAe.projects_table a) = Some p ->
  fs_exists (fs w) p = false ->
  PyAe.delete_project Yes index (w, a) = (Exc TypeError, (asked w, a)).
Proof.
  intros Hi Hp.
  unfold PyAe.delete_project, bind, self, the_world, gets, lift, message_box,
    with_world, modify, raise.
  cbn [fst snd]. rewrite Hi. unfold Path, str_of_path. cbn [fst snd].
  assert (fs (set_shown (shown w ++ [confirm_dialog]) w) = fs w) as Hfs by (by destruct w).
  fold confirm_dialog. rewrite Hfs, Hp. reflexivity.
Qed.

Lemma item_Some_lt r c (t : table) text : item r c t = Some text -> (r < length t)%nat.
Proof.
  unfold item. destruct (t !! r) eqn:Hr; [|discriminate].
  intros _. by eapply lookup_lt_Some.
Qed.

Lemma pyae_delete_done index w a p :
  item index 1 (PyAe.projects_table a) = Some p ->
  fs_isfile (fs w) p = true ->
  PyAe.delete_project Yes index (w, a)
  = (Val tt, (set_fs (delete p (fs w)) (asked w),
              PyAe.on_projects_table (removeRow index) a)).
Proof.
  intros Hi Hp.
  unfold PyAe.delete_project, PyAe.remove_row, bind, self, the_world, gets, lift,
    message_box, with_world, with_self, modify, raise, ret.
  cbn [fst snd]. rewrite Hi. unfold Path, str_of_path. cbn [fst snd].
  assert (fs (set_shown (shown w ++ [confirm_dialog]) w) = fs w) as Hfs by (by destruct w).
  fold confirm_dialog. unfold fs_exists, os_remove. rewrite !Hfs.
  unfold fs_isfile in Hp. destruct (fs w !! p) as [[content mt|mt]|] eqn:Hn; try discriminate.
  cbn [negb fst snd]. unfold rowCount.
  rewrite decide_True by (by eapply item_Some_lt).
  reflexivity.
Qed.

End Delete.

(** ** [create_new_project_connection] *)

Lemma new_project_path_not_folder w N : str_of_path (new_project_path w N) <> projects_folder w.
Proof.
  unfold new_project_path, Path_join, Path, str_of_path. intros Heq.
  apply (f_equal length) in Heq. rewrite !length_app in Heq. cbn in Heq. lia.
Qed.

Lemma with_projects_folder_other w p :
  p <> projects_folder w -> with_projects_folder w !! p = fs w !! p.
Proof.
  intros Hp. unfold with_projects_folder.
  destruct (fs_exists (fs w) (projects_folder w)); [done|].
  by rewrite lookup_insert_ne.
Qed.

Lemma with_projects_folder_template w template content mt :
  fs w !! template = Some (File content mt) ->
  with_projects_folder w !! template = Some (File content mt).
Proof.
  intros Ht. unfold with_projects_folder, fs_exists.
  destruct (fs w !! projects_folder w) eqn:Hf; [done|].
  rewrite lookup_insert_ne; [done|]. intros <-. congruence.
Qed.

(** The first statement of [create_new_project_connection] leaves the
    projects folder in place. *)
Lemma ensure_folder_run {app} (w : world) (a : app) (k : M (world * app) unit) :
  (fs_exists (fs w) (projects_folder w) = true \/ projects_folder w <> []) ->
  bind (if negb (fs_exists (fs w) (projects_folder w))
        then bind (lift (os_makedirs (projects_folder w) (clock w) (fs w)))
                  (fun fs' => with_world (set_fs fs'))
        else ret tt) (fun _ => k) (w, a)
  = k (set_fs (with_projects_folder w) w, a).
Proof.
  intros Hf. unfold with_projects_folder, bind, lift, with_world, modify, ret.
  destruct (fs_exists (fs w) (projects_folder w)) eqn:He; cbn [negb].
  - by destruct w.
  - destruct Hf as [?|Hne]; [done|]. unfold os_makedirs, fs_exists in *.
    destruct (projects_folder w) as [|c f] eqn:Hpf; [done|].
    destruct (fs w !! (c :: f)); [done|]. reflexivity.
Qed.

(** The copy of the template succeeds under [can_create]. *)
Lemma copy_template_run w template N content :
  can_create w template N content ->
  copyfile template (str_of_path (new_project_path w N)) (clock w) (with_projects_folder w)
  = Val (with_new_project w N content).
Proof.
  intros (_ & _ & (mt & Ht) & Hne & Hd & Hp). unfold copyfile.
  rewrite bool_decide_eq_false_2 by congruence. cbn [andb].
  rewrite (with_projects_folder_template _ _ _ _ Ht).
  rewrite with_projects_folder_other by apply new_project_path_not_folder.
  unfold with_new_project. rewrite Hp.
  destruct (fs w !! str_of_path (new_project_path w N)) as [[]|] eqn:Hn; try done.
  by destruct (Hd mtime).
Qed.

Section Create.
Context {platform : Platform}.

(** [create_new_project_connection] of [py_ae_v3.py] under [can_create]. *)
Lemma v3_create_done w a N content :
  can_create w v3_template N content ->
  Forall (fun e => is_record e = true) (V3.last_project_files a) ->
  V3.create_new_project_connection N true (w, a) = (Val tt, v3_created w a N content).
Proof.
  intros Hc Hl. pose proof Hc as (HN & Hf & _).
  unfold V3.create_new_project_connection.
  unfold bind at 1. unfold the_world at 1, gets at 1. cbn [fst]. cbv zeta.
  fold (projects_folder w).
  rewrite ensure_folder_run by done.
  destruct N as [|c N]; [done|].
  unfold try_except, V3.update_last_projects_list, bind, the_world, self, gets, lift,
    with_world, with_self, modify.
  cbn [fst snd].
  assert (forall x, clock (set_fs x w) = clock w) as Hclock by (by destruct w).
  assert (forall x, fs (set_fs x w) = x) as Hfs by (by destruct w).
  assert (forall x, username (set_fs x w) = username w) as Huser by (by destruct w).
  rewrite Hclock, Hfs.
  fold v3_template. fold (projects_folder w).
  change (Path_join (Path (projects_folder w)) ((c :: N) ++ u ".aep"))
    with (new_project_path w (c :: N)).
  rewrite (copy_template_run w v3_template (c :: N) content Hc).
  assert (Forall (fun e => is_record e = true)
            (V3.last_project_files a
             ++ [V3.ProjectInfo (new_project_path w (c :: N)) (VStr (username w))])) as Hl'.
  { apply Forall_app. split; [done|]. by constructor. }
  rewrite Huser.
  rewrite populate_run by (destruct a; v3_simpl; done).
  rewrite save_settings_run by (apply populated_is_record; destruct a; v3_simpl; done).
  unfold v3_created. cbv zeta. destruct w. reflexivity.
Qed.

Lemma pyae_add_project_row_run w a d :
  PyAe.add_project_row d (w, a)
  = (Val tt,
     (w, PyAe.on_projects_table
           (fun t => t ++ [text_row (PyAe.Project_Name d) (PyAe.File_Path d)
                                    (PyAe.Last_Modified d) (PyAe.Created_By d)
                                    (Buttons (Some (PyAe.File_Path d)) (length t))]) a)).
Proof.
  unfold PyAe.add_project_row, PyAe.values, PyAe._create_project_widget.
  cbn [for_enumerate].
  unfold bind, self, gets, with_self, modify, ret. cbn [fst snd].
  destruct a as [t at_ sb]. pyae_simpl. unfold rowCount.
  by rewrite append_text_row.
Qed.

(** [create_new_project_connection] of [py_ae.py] under [can_create]. *)
Lemma pyae_create_done w a N content :
  can_create w (pyae_template w) N content ->
  PyAe.create_new_project_connection N true (w, a) = (Val tt, pyae_created w a N content).
Proof.
  intros Hc. pose proof Hc as (HN & Hf & _).
  unfold PyAe.create_new_project_connection.
  unfold bind at 1. unfold the_world at 1, gets at 1. cbn [fst]. cbv zeta.
  fold (projects_folder w). unfold Path at 1 2 3, str_of_path at 1 2.
  rewrite ensure_folder_run by done.
  destruct N as [|c N]; [done|].
  unfold try_except.
  unfold bind at 1. unfold the_world at 1, gets at 1. cbn [fst].
  assert (forall x, clock (set_fs x w) = clock w) as Hclock by (by destruct w).
  assert (forall x, fs (set_fs x w) = x) as Hfs by (by destruct w).
  assert (forall x, username (set_fs x w) = username w) as Huser by (by destruct w).
  assert (forall x, script_dir (set_fs x w) = script_dir w) as Hdir by (by destruct w).
  assert (forall x y, set_fs x (set_fs y w) = set_fs x w) as Hset by (by destruct w).
  rewrite Hclock, Hfs, Hdir. fold (pyae_template w).
  change (Path_join (projects_folder w) ((c :: N) ++ u ".aep"))
    with (new_project_path w (c :: N)).
  unfold as_posix at 1.
  unfold bind at 1, lift at 1.
  rewrite (copy_template_run w (pyae_template w) (c :: N) content Hc).
  unfold bind at 1. unfold with_world at 1, modify at 1. cbn [fst snd].
  unfold bind at 1. unfold the_world at 1, gets at 1. cbn [fst].
  rewrite Hset, Hfs.
  unfold bind at 1, lift at 1. unfold stat_mtime, with_new_project.
  rewrite lookup_insert_eq. cbn [node_mtime].
  rewrite pyae_add_project_row_run. rewrite !Huser.
  unfold pyae_created. reflexivity.
Qed.

End Create.

(** ** [load_settings] *)

(** The records the program saves are values [loads] reads back. *)
Lemma wf_project_record pc :
  text_ok pc.1 && text_ok pc.2 = true -> wf_value (project_dict (project_record pc)) = true.
Proof.
  destruct pc as [p c]. cbn [fst snd]. intros Hpc. apply andb_prop in Hpc as [Hp Hc].
  unfold project_record, project_dict. cbn [wf_value forallb fst snd].
  rewrite Hp, Hc. reflexivity.
Qed.

Lemma wf_asset_dict x : asset_ok x = true -> wf_value (asset_dict x) = true.
Proof.
  unfold asset_ok. intros Hx. apply andb_prop in Hx as [Hx H3].
  apply andb_prop in Hx as [H1 H2].
  unfold asset_dict. cbn [wf_value forallb fst snd]. rewrite H1, H2, H3. reflexivity.
Qed.

Lemma wf_value_list {A} (f : A -> value) (l : list A) :
  Forall (fun x => wf_value (f x) = true) l -> wf_value (VList (f <$> l)) = true.
Proof.
  intros Hl. cbn [wf_value]. induction Hl as [|x l Hx _ IH]; [reflexivity|].
  cbn [fmap list_fmap forallb]. rewrite Hx. exact IH.
Qed.

(** The comprehension of [load_settings] rebuilds the records from their
    dictionaries. *)
Lemma parse_projects_dicts (l : list V3.project_entry) :
  Forall (fun e => exists p c, e = V3.ProjectInfo p c) l ->
  V3.parse_projects (VList (project_dict <$> l)) = Val l.
Proof.
  intros Hl. unfold V3.parse_projects. cbn [py_iter res_bind].
  induction Hl as [|e l (p & c & ->) _ IH]; [reflexivity|].
  cbn [fmap list_fmap project_dict]. rewrite filter_cons. cbn [is_dict].
  rewrite decide_True by done. cbn [map_res]. rewrite IH. reflexivity.
Qed.

Lemma project_record_info (ps : list (path * str)) :
  Forall (fun e => exists p c, e = V3.ProjectInfo p c) (project_record <$> ps).
Proof.
  apply Forall_fmap, Forall_forall. intros [p c] _. by eexists _, _.
Qed.

Lemma project_record_is_record (ps : list (path * str)) :
  Forall (fun e => is_record e = true) (project_record <$> ps).
Proof. apply Forall_fmap, Forall_forall. by intros [p c] _. Qed.

Section Load.
Context {platform : Platform}.

(** The two [try] blocks of [load_settings], on a text that is not JSON and
    on one that is. *)
Lemma load_last_project_files_invalid settings w a :
  Json.loads (settings_value settings (u "last_project_files") (u "[]")) = None ->
  V3.load_last_project_files settings (w, a)
  = (Val tt, (w, V3.set_last_project_files [] a)).
Proof.
  intros Hs. unfold V3.load_last_project_files, try_except, bind, lift, V3.json_loads.
  rewrite Hs. reflexivity.
Qed.

Lemma load_last_project_files_valid settings w a v :
  Json.loads (settings_value settings (u "last_project_files") (u "[]")) = Some v ->
  V3.load_last_project_files settings (w, a)
  = match V3.parse_projects v with
    | Val entries => (Val tt, (w, V3.set_last_project_files entries a))
    | Exc JSONDecodeError => (Val tt, (w, V3.set_last_project_files [] a))
    | Exc e => (Exc e, (w, a))
    end.
Proof.
  intros Hs. unfold V3.load_last_project_files, try_except, bind, lift, V3.json_loads.
  rewrite Hs. destruct (V3.parse_projects v) as [es|[]]; reflexivity.
Qed.

Lemma load_imported_assets_invalid settings w a :
  Json.loads (settings_value settings (u "imported_assets") (u "[]")) = None ->
  V3.load_imported_assets settings (w, a)
  = (Val tt, (w, V3.set_imported_assets (VList []) a)).
Proof.
  intros Hs. unfold V3.load_imported_assets, try_except, bind, lift, V3.json_loads.
  rewrite Hs. reflexivity.
Qed.

Lemma load_imported_assets_valid settings w a v :
  Json.loads (settings_value settings (u "imported_assets") (u "[]")) = Some v ->
  V3.load_imported_assets settings (w, a)
  = (Val tt, (w, V3.set_imported_assets v a)).
Proof.
  intros Hs. unfold V3.load_imported_assets, try_except, bind, lift, V3.json_loads.
  rewrite Hs. reflexivity.
Qed.

(** The last loop of [load_settings] appends the row of each asset record. *)
Lemma show_asset_run w a x :
  V3.show_asset (asset_dict x) (w, a)
  = (Val tt,
     (w, V3.on_imported_assets_table
           (fun t => t ++ [asset_row (length t) x]) a)).
Proof.
  unfold V3.show_asset, V3.populate_imported_assets_table.
  unfold bind, lift, self, gets, with_self, modify.
  unfold asset_dict at 1 2 3 4.
  change (subscript _ (u "path")) with (@Val value (VStr (asset_path x))).
  change (subscript _ (u "last_modified")) with (@Val value (VStr (asset_last_modified x))).
  change (dict_get _ (u "imported_by") _) with (@Val value (VStr (asset_imported_by x))).
  cbn [as_str res_bind QTableWidgetItem fst snd].
  destruct a as [d l v t at_ sb]. v3_simpl. unfold rowCount.
  rewrite append_text_row.
  replace (length at_ + 1)%nat
    with (length (at_ ++ [text_row (basename (asset_path x)) (asset_path x)
                            (asset_last_modified x) (asset_imported_by x)
                            (Buttons (Some (asset_path x)) (length at_))]))
    by (rewrite length_app; reflexivity).
  rewrite setRowCount_same. reflexivity.
Qed.

Lemma show_assets_loop w xs : forall a,
  for_each (asset_dict <$> xs) V3.show_asset (w, a)
  = (Val tt,
     (w, V3.on_imported_assets_table
           (fun t => t ++ asset_rows (length t) xs) a)).
Proof.
  induction xs as [|x xs IH]; intros a.
  - destruct a. cbn [fmap list_fmap for_each asset_rows]. unfold ret. v3_simpl.
    by rewrite app_nil_r.
  - cbn [fmap list_fmap for_each]. unfold bind at 1. rewrite show_asset_run.
    rewrite IH. destruct a as [d l v t at_ sb]. v3_simpl.
    rewrite <- app_assoc. cbn [app asset_rows]. rewrite length_app. cbn [length].
    by rewrite Nat.add_1_r.
Qed.

Lemma v3_load_run_blocks w a l xs :
  (forall a0, V3.load_last_project_files (qsettings w) (w, a0)
              = (Val tt, (w, V3.set_last_project_files l a0))) ->
  (forall a0, V3.load_imported_assets (qsettings w) (w, a0)
              = (Val tt, (w, V3.set_imported_assets (VList (asset_dict <$> xs)) a0))) ->
  Forall (fun e => is_record e = true) l ->
  V3.load_settings (w, a) = (Val tt, loaded_state w a l xs).
Proof.
  intros Hp Ha Hl. unfold V3.load_settings.
  unfold bind at 1. unfold the_world at 1, gets at 1. cbn [fst]. cbv zeta.
  unfold bind at 1. unfold with_self at 1, modify at 1. cbn [fst snd].
  unfold bind at 1. rewrite Hp.
  unfold bind at 1. rewrite Ha.
  unfold bind at 1. unfold with_self at 1, modify at 1. cbn [fst snd].
  unfold bind at 1. unfold with_self at 1, modify at 1. cbn [fst snd].
  unfold bind at 1.
  fold (stored_directory (qsettings w)).
  destruct a as [d l0 v t at_ sb]. v3_simpl.
  change (setRowCount 0 t) with (@nil row). change (setRowCount 0 at_) with (@nil row).
  rewrite populate_run by (v3_simpl; done).
  unfold bind at 1. unfold self at 1, gets at 1. cbn [snd].
  unfold bind at 1, lift at 1. unfold populated at 1. v3_simpl. cbn [py_iter].
  rewrite show_assets_loop. unfold loaded_state. cbv zeta. v3_simpl.
  unfold populated. v3_simpl. reflexivity.
Qed.

(** [load_settings] when the store holds the records [l] and the asset
    records [xs]. *)
Lemma v3_load_run w a l xs :
  Json.loads (settings_value (qsettings w) (u "last_project_files") (u "[]"))
    = Some (VList (project_dict <$> l)) ->
  Json.loads (settings_value (qsettings w) (u "imported_assets") (u "[]"))
    = Some (VList (asset_dict <$> xs)) ->
  Forall (fun e => is_record e = true) l ->
  V3.load_settings (w, a) = (Val tt, loaded_state w a l xs).
Proof.
  intros Hp Ha Hl. apply v3_load_run_blocks; [| |done].
  - intros a0. rewrite (load_last_project_files_valid _ _ _ _ Hp).
    by rewrite parse_projects_dicts by (by apply is_record_info).
  - intros a0. by rewrite (load_imported_assets_valid _ _ _ _ Ha).
Qed.

(** [load_settings] when neither stored text is JSON. *)
Lemma v3_load_run_invalid w a :
  Json.loads (settings_value (qsettings w) (u "last_project_files") (u "[]")) = None ->
  Json.loads (settings_value (qsettings w) (u "imported_assets") (u "[]")) = None ->
  V3.load_settings (w, a) = (Val tt, loaded_state w a [] []).
Proof.
  intros Hp Ha. apply v3_load_run_blocks; [| |constructor].
  - intros a0. by apply load_last_project_files_invalid.
  - intros a0. by apply load_imported_assets_invalid.
Qed.

Lemma saved_settings_projects a q :
  settings_value (saved_settings a q) (u "last_project_files") (u "[]")
  = Json.dumps (VList (project_dict <$> V3.last_project_files a)).
Proof.
  unfold settings_value, saved_settings.
  rewrite lookup_insert_ne by done. by rewrite lookup_insert_eq.
Qed.

Lemma saved_settings_assets a q :
  settings_value (saved_settings a q) (u "imported_assets") (u "[]")
  = Json.dumps (V3.imported_assets a).
Proof. unfold settings_value, saved_settings. by rewrite lookup_insert_eq. Qed.

(** [save_settings] followed by [load_settings]. *)
Lemma v3_save_load_run w a ps xs :
  Forall (fun pc => text_ok pc.1 && text_ok pc.2 = true) ps ->
  Forall (fun x => asset_ok x = true) xs ->
  V3.last_project_files a = project_record <$> ps ->
  V3.imported_assets a = VList (asset_dict <$> xs) ->
  bind V3.save_settings (fun _ => V3.load_settings) (w, a)
  = (Val tt, loaded_state (set_qsettings (saved_settings a (qsettings w)) w) a
                          (project_record <$> ps) xs).
Proof.
  intros Hps Hxs Hl Ha. unfold bind.
  rewrite save_settings_run by (rewrite Hl; apply project_record_info).
  assert (forall q, qsettings (set_qsettings q w) = q) as Hq by (by destruct w).
  apply v3_load_run.
  - rewrite Hq, saved_settings_projects, Hl. apply loads_dumps.
    rewrite <- list_fmap_compose. apply wf_value_list.
    eapply Forall_impl; [exact Hps|]. intros pc Hpc. by apply wf_project_record.
  - rewrite Hq, saved_settings_assets, Ha. apply loads_dumps.
    apply wf_value_list. eapply Forall_impl; [exact Hxs|]. intros x Hx.
    by apply wf_asset_dict.
  - apply project_record_is_record.
Qed.

End Load.

(** ** [_load_project_settings] *)

Section PyAeLoad.
Context {platform : Platform}.

(** One turn of the loop of [_load_project_settings]. *)
Lemma load_stored_row_run w a i :
  length i = 4%nat ->
  PyAe.load_stored_row i (w, a)
  = (Val tt,
     (w, PyAe.on_projects_table
           (fun t => if stored_row_exists (fs w) i
                     then t ++ [stored_project_row (length t) i] else t) a)).
Proof.
  intros Hi. destruct i as [|i0 [|i1 [|i2 [|i3 [|]]]]]; try discriminate.
  unfold PyAe.load_stored_row, stored_row_exists, PyAe.index_row.
  cbn [lookup list_lookup]. unfold bind at 1, lift at 1.
  unfold bind at 1. unfold the_world at 1, gets at 1. cbn [fst].
  unfold Path, str_of_path.
  destruct (fs_exists (fs w) i1).
  - cbn [negb]. unfold bind, lift. rewrite pyae_add_project_row_run. reflexivity.
  - cbn [negb]. unfold ret. by destruct a.
Qed.

Lemma load_rows_loop w data : forall a,
  Forall (fun i => length i = 4%nat) data ->
  for_each data PyAe.load_stored_row (w, a)
  = (Val tt, (w, PyAe.on_projects_table (fun t => load_rows (fs w) t data) a)).
Proof.
  induction data as [|i data IH]; intros a Hd.
  - cbn [for_each load_rows]. unfold ret. by destruct a.
  - apply Forall_cons in Hd as [Hi Hd].
    cbn [for_each]. unfold bind at 1. rewrite load_stored_row_run by done.
    rewrite IH by done. by destruct a.
Qed.

(** [_load_project_settings] adds the rows of [load_rows] and changes
    nothing else. *)
Lemma pyae_load_project_settings_run w a :
  Forall (fun i => length i = 4%nat) (default [] (project_ini w)) ->
  PyAe._load_project_settings (w, a)
  = (Val tt,
     (w, PyAe.on_projects_table
           (fun t => load_rows (fs w) t (default [] (project_ini w))) a)).
Proof.
  intros Hd. unfold PyAe._load_project_settings.
  unfold bind at 1. unfold the_world at 1, gets at 1. cbn [fst].
  destruct (project_ini w) as [[|i data]|]; cbn [default] in *.
  - unfold ret. by destruct a.
  - by apply load_rows_loop.
  - unfold ret. by destruct a.
Qed.

(** The rows [load_rows] adds all show a file that exists. *)
Lemma load_rows_new fs data : forall t,
  Forall (fun i => length i = 4%nat) data ->
  exists new,
    load_rows fs t data = t ++ new /\
    Forall (fun x => exists p, row_path x = Some p /\ fs_exists fs p = true) new.
Proof.
  induction data as [|i data IH]; intros t Hd.
  - exists []. split; [by rewrite app_nil_r|constructor].
  - apply Forall_cons in Hd as [Hi Hd]. cbn [load_rows].
    destruct (stored_row_exists fs i) eqn:He.
    + destruct (IH (t ++ [stored_project_row (length t) i]) Hd) as (new & -> & Hnew).
      exists (stored_project_row (length t) i :: new). split; [by rewrite <- app_assoc|].
      constructor; [|done].
      destruct i as [|i0 [|i1 [|i2 [|i3 [|]]]]]; try discriminate.
      exists i1. split; [reflexivity|]. exact He.
    + by apply IH.
Qed.

End PyAeLoad.

(** ** Exceptions a computation can end in *)

Lemma cannot_raise_ret {St A} e (a : A) : cannot_raise e (ret a : M St A).
Proof. intros s s'. unfold ret. congruence. Qed.

Lemma cannot_raise_gets {St A} e (f : St -> A) : cannot_raise e (gets f).
Proof. intros s s'. unfold gets. congruence. Qed.

Lemma cannot_raise_modify {St} e (f : St -> St) : cannot_raise e (modify f).
Proof. intros s s'. unfold modify. congruence. Qed.

Lemma cannot_raise_lift {St A} e (r : res A) :
  r <> Exc e -> cannot_raise e (lift r : M St A).
Proof. intros Hr s s'. unfold lift. congruence. Qed.

Lemma cannot_raise_bind {St A B} e (c : M St A) (k : A -> M St B) :
  cannot_raise e c -> (forall a, cannot_raise e (k a)) -> cannot_raise e (bind c k).
Proof.
  intros Hc Hk s s'. unfold bind. destruct (c s) as [[a|e'] s1] eqn:Hcs.
  - apply Hk.
  - intros [= -> ->]. by apply (Hc s s').
Qed.

Lemma cannot_raise_for_each {St A} e (l : list A) (body : A -> M St unit) :
  (forall x, cannot_raise e (body x)) -> cannot_raise e (for_each l body).
Proof.
  intros Hb. induction l as [|x l IH]; cbn [for_each].
  - apply cannot_raise_ret.
  - apply cannot_raise_bind; [apply Hb|]. intros _. exact IH.
Qed.

Lemma cannot_raise_for_enumerate {St A} e (l : list A) (body : nat -> A -> M St unit) :
  (forall i x, cannot_raise e (body i x)) ->
  forall i, cannot_raise e (for_enumerate i l body).
Proof.
  intros Hb. induction l as [|x l IH]; intros i; cbn [for_enumerate].
  - apply cannot_raise_ret.
  - apply cannot_raise_bind; [apply Hb|]. intros _. apply IH.
Qed.

(** No operation on values, records or files produces a [JSONDecodeError]. *)
Lemma res_bind_neq {A B} e (r : res A) (k : A -> res B) :
  r <> Exc e -> (forall a, k a <> Exc e) -> res_bind r k <> Exc e.
Proof. intros Hr Hk. destruct r as [a|e']; cbn; [apply Hk|congruence]. Qed.

Lemma map_res_neq {A B} e (f : A -> res B) (l : list A) :
  (forall x, f x <> Exc e) -> map_res f l <> Exc e.
Proof.
  intros Hf. induction l as [|x l IH]; cbn [map_res]; [done|].
  specialize (Hf x). destruct (f x) as [y|e1]; [|congruence].
  destruct (map_res f l) as [ys|e2]; congruence.
Qed.

Lemma filter_res_neq {A} e (p : A -> res bool) (l : list A) :
  (forall x, p x <> Exc e) -> filter_res p l <> Exc e.
Proof.
  intros Hp. induction l as [|x l IH]; cbn [filter_res]; [done|].
  specialize (Hp x). destruct (p x) as [y|e1]; [|congruence].
  destruct (filter_res p l) as [ys|e2]; congruence.
Qed.

Lemma subscript_neq v key : subscript v key <> Exc JSONDecodeError.
Proof. destruct v as [| | | | |d]; try done. cbn. by destruct (dict_lookup key d). Qed.

Lemma dict_get_neq v key dflt : dict_get v key dflt <> Exc JSONDecodeError.
Proof. by destruct v. Qed.

Lemma as_str_neq v : as_str v <> Exc JSONDecodeError.
Proof. by destruct v. Qed.

Lemma QTableWidgetItem_neq v : QTableWidgetItem v <> Exc JSONDecodeError.
Proof. by destruct v. Qed.

Lemma py_iter_neq v : py_iter v <> Exc JSONDecodeError.
Proof. by destruct v. Qed.

Lemma entry_path_neq e : V3.entry_path e <> Exc JSONDecodeError.
Proof. by destruct e. Qed.

Lemma entry_created_by_neq e : V3.entry_created_by e <> Exc JSONDecodeError.
Proof. by destruct e. Qed.

Lemma stat_mtime_neq fs p : stat_mtime fs p <> Exc JSONDecodeError.
Proof. unfold stat_mtime. by destruct (fs !! p). Qed.

Lemma parse_projects_neq v : V3.parse_projects v <> Exc JSONDecodeError.
Proof.
  unfold V3.parse_projects. apply res_bind_neq; [apply py_iter_neq|].
  intros projects. apply map_res_neq. intros project.
  apply res_bind_neq; [apply subscript_neq|]. intros p.
  apply res_bind_neq; [apply as_str_neq|]. intros p'.
  apply res_bind_neq; [apply dict_get_neq|]. done.
Qed.

Create HintDb no_json_error.
#[export] Hint Resolve cannot_raise_ret cannot_raise_gets cannot_raise_modify
  subscript_neq dict_get_neq as_str_neq QTableWidgetItem_neq py_iter_neq
  entry_path_neq entry_created_by_neq stat_mtime_neq parse_projects_neq
  : no_json_error.

Ltac no_json_error :=
  repeat first
    [ apply cannot_raise_bind; [|intros ?]
    | apply cannot_raise_lift
    | apply cannot_raise_for_each; intros ?
    | apply cannot_raise_for_enumerate; intros ? ?
    | apply res_bind_neq; [|intros ?]
    | apply map_res_neq; intros ?
    | apply filter_res_neq; intros ?
    | progress unfold the_world, self, with_self, with_world, setValue, message_box
    | solve [auto with no_json_error]
    | discriminate ].

Section NoJsonError.
Context {platform : Platform}.

(** The methods [load_settings] calls, and [load_settings] itself, never end
    in a [JSONDecodeError]. *)
Lemma save_settings_no_json_error : cannot_raise JSONDecodeError V3.save_settings.
Proof. unfold V3.save_settings. no_json_error. Qed.

Lemma populate_no_json_error :
  cannot_raise JSONDecodeError V3.populate_last_projects_table.
Proof.
  unfold V3.populate_last_projects_table, V3.show_project.
  no_json_error.
Qed.

Lemma show_asset_no_json_error asset : cannot_raise JSONDecodeError (V3.show_asset asset).
Proof.
  unfold V3.show_asset, V3.populate_imported_assets_table. no_json_error.
Qed.

Lemma load_last_project_files_no_json_error settings :
  cannot_raise JSONDecodeError (V3.load_last_project_files settings).
Proof.
  intros [w a] s'. unfold V3.load_last_project_files, try_except, bind, lift, V3.json_loads.
  destruct (Json.loads _) as [v|]; [|discriminate].
  pose proof (parse_projects_neq v) as Hv.
  destruct (V3.parse_projects v) as [es|e]; [discriminate|].
  destruct e; congruence.
Qed.

Lemma load_imported_assets_no_json_error settings :
  cannot_raise JSONDecodeError (V3.load_imported_assets settings).
Proof.
  intros [w a] s'. unfold V3.load_imported_assets, try_except, bind, lift, V3.json_loads.
  destruct (Json.loads _) as [v|]; discriminate.
Qed.

Lemma load_settings_no_json_error : cannot_raise JSONDecodeError V3.load_settings.
Proof.
  unfold V3.load_settings. cbv zeta.
  no_json_error;
    auto using load_last_project_files_no_json_error,
      load_imported_assets_no_json_error, populate_no_json_error,
      show_asset_no_json_error.
Qed.

End NoJsonError.

(** ** Worker threads and [execute_jsx_script] *)

(** [mktemp] returns a name that names nothing, made of a stem and the
    suffix. *)
Lemma mktemp_fresh suffix stems fs name rest :
  mktemp suffix stems fs = (Val name, rest) ->
  fs_exists fs name = false /\ exists stem, name = stem ++ suffix /\ stem ∈ stems.
Proof.
  induction stems as [|stem stems IH]; cbn [mktemp]; [discriminate|].
  destruct (fs_exists fs (stem ++ suffix)) eqn:He.
  - intros Hm. destruct (IH Hm) as (Hf & stem' & -> & Hin).
    split; [done|]. exists stem'. split; [done|]. by apply list_elem_of_further.
  - intros [= <- <-]. split; [done|]. exists stem. split; [done|]. apply list_elem_of_here.
Qed.

Lemma endswith_app p s : endswith p (s ++ p) = true.
Proof.
  unfold endswith. rewrite rev_app_distr. apply startswith_spec. by eexists.
Qed.

(** The trace of a worker thread, by how the child process ends. *)
Lemma v3_thread_run command c :
  V3.AfterEffectsThread_run (V3.AfterEffectsThread command) c []
  = match c with
    | Exited 0%Z => (Val tt, [SubprocessRun (Argv command); Emit None])
    | Exited _ =>
        (Val tt, [SubprocessRun (Argv command);
                  Printed (Print (u "Error during After Effects execution: ")
                                 (Some CalledProcessError));
                  Emit None])
    | NotStarted => (Exc FileNotFoundError, [SubprocessRun (Argv command); Emit None])
    end.
Proof. by destruct c as [[|p|p]|]. Qed.

Lemma pyae_thread_run command c :
  PyAe.AfterEffectsThread_run (PyAe.AfterEffectsThread command) c []
  = match c with
    | Exited 0%Z =>
        (Val tt, [SubprocessRun (CommandLine (join [32] command)); Emit (Some true)])
    | Exited _ =>
        (Val tt, [SubprocessRun (CommandLine (join [32] command));
                  Printed (Print (u "[5] Error during After Effects execution: ")
                                 (Some CalledProcessError));
                  Emit (Some false)])
    | NotStarted =>
        (Exc FileNotFoundError, [SubprocessRun (CommandLine (join [32] command))])
    end.
Proof. by destruct c as [[|p|p]|]. Qed.

Section Script.
Context {platform : Platform}.

(** [execute_jsx_script] in each revision, once [mktemp] found a name. *)
Lemma v3_execute_jsx_script_run aePath file_path w a script rest :
  mktemp (u ".jsx") (tmp_stems w) (fs w) = (Val script, rest) ->
  parent_ok (fs w) script = true ->
  V3.execute_jsx_script aePath file_path (w, a)
  = (Val tt,
     (script_written w script
        (jsx_script (replace [BACKSLASH] [BACKSLASH; BACKSLASH] file_path)) rest
        (Argv [aePath; u "-r"; script]), a)).
Proof.
  intros Hm Hp. pose proof (mktemp_fresh _ _ _ _ _ Hm) as [Hf _].
  unfold V3.execute_jsx_script, V3.run_after_effects_command_async,
    V3.AfterEffectsThread.
  unfold bind at 1. unfold the_world at 1, gets at 1. cbn [fst]. cbv zeta.
  rewrite Hm.
  unfold bind, lift, with_world, modify, write_text. cbn [fst snd].
  unfold fs_exists in Hf. destruct (fs w !! script) eqn:Hs; [discriminate|].
  rewrite Hp. unfold script_written. destruct w. reflexivity.
Qed.

Lemma pyae_execute_jsx_script_run ae_path file_path w a script rest :
  mktemp (u ".jsx") (tmp_stems w) (fs w) = (Val script, rest) ->
  parent_ok (fs w) script = true ->
  PyAe.execute_jsx_script ae_path file_path (w, a)
  = (Val tt,
     (script_written w script
        (jsx_script (replace [SLASH; SLASH] [SLASH; SLASH; SLASH; SLASH] file_path)) rest
        (CommandLine (join [32] [ae_path; u "-r"; script])), a)).
Proof.
  intros Hm Hp. pose proof (mktemp_fresh _ _ _ _ _ Hm) as [Hf _].
  unfold PyAe.execute_jsx_script, PyAe.run_after_effects_command_async,
    PyAe.AfterEffectsThread.
  unfold bind at 1. unfold the_world at 1, gets at 1. cbn [fst]. cbv zeta.
  rewrite Hm.
  unfold bind, lift, with_world, modify, write_text. cbn [fst snd].
  unfold fs_exists in Hf. destruct (fs w !! script) eqn:Hs; [discriminate|].
  rewrite Hp. unfold script_written. destruct w. reflexivity.
Qed.

End Script.

(** ** The statements of the specification *)

Lemma filter_project_records fs (ps : list (path * str)) :
  filter (fun e => entry_exists fs e = true) (project_record <$> ps)
  = project_record <$> filter (fun pc => fs_exists fs pc.1 = true) ps.
Proof.
  induction ps as [|[p c] ps IH]; [reflexivity|].
  cbn [fmap list_fmap]. rewrite !filter_cons. cbn [project_record entry_exists fst snd].
  destruct (decide (fs_exists fs p = true)); cbn [fmap list_fmap]; by rewrite <- IH.
Qed.

Section C1.
Context {platform : Platform}.

(** C1, as amended. [save_settings] followed by [load_settings] restores, in
    their order, exactly the project records whose file exists, each with
    its path and creator, and restores every imported-asset record; the
    text of the records holds no surrogate code point. *)
Theorem save_then_load_restores_existing
    (w : world) (a : V3.app) (ps : list (path * str)) (xs : list asset) :
  Forall (fun pc => text_ok pc.1 && text_ok pc.2 = true) ps ->
  Forall (fun x => asset_ok x = true) xs ->
  V3.last_project_files a = project_record <$> ps ->
  V3.imported_assets a = VList (asset_dict <$> xs) ->
  exists w' a',
    bind V3.save_settings (fun _ => V3.load_settings) (w, a) = (Val tt, (w', a')) /\
    V3.last_project_files a'
      = project_record <$> filter (fun pc => fs_exists (fs w) pc.1 = true) ps /\
    V3.imported_assets a' = VList (asset_dict <$> xs) /\
    fs w' = fs w /\
    (Forall (fun pc => fs_exists (fs w) pc.1 = true) ps ->
     V3.last_project_files a' = V3.last_project_files a).
Proof.
  intros Hps Hxs Hl Ha.
  rewrite (v3_save_load_run w a ps xs Hps Hxs Hl Ha).
  unfold loaded_state. cbv zeta. eexists _, _. split; [reflexivity|].
  assert (fs (set_qsettings (saved_settings a (qsettings w)) w) = fs w) as Hfs
    by (by destruct w).
  unfold populated. v3_simpl. rewrite Hfs, filter_project_records.
  split; [reflexivity|]. split; [reflexivity|]. split; [by destruct w|].
  intros Hall. rewrite Hl. f_equal. clear Hl Hps.
  induction Hall as [|pc ps' Hpc _ IH]; [reflexivity|].
  rewrite filter_cons, decide_True by done. by f_equal.
Qed.

End C1.

Lemma save_then_load_restores_existing_witness :
  Forall (fun pc => text_ok pc.1 && text_ok pc.2 = true) example_projects /\
  Forall (fun x => asset_ok x = true) example_assets /\
  exists w' a',
    bind V3.save_settings (fun _ => V3.load_settings (platform := demo_platform))
         (example_world, example_app) = (Val tt, (w', a')) /\
    V3.last_project_files a'
      = project_record <$> filter (fun pc => fs_exists (fs example_world) pc.1 = true)
                                  example_projects /\
    V3.imported_assets a' = VList (asset_dict <$> example_assets) /\
    fs w' = fs example_world /\
    (Forall (fun pc => fs_exists (fs example_world) pc.1 = true) example_projects ->
     V3.last_project_files a' = V3.last_project_files example_app).
Proof.
  assert (Forall (fun pc => text_ok pc.1 && text_ok pc.2 = true) example_projects) as H1
    by (repeat constructor).
  assert (Forall (fun x => asset_ok x = true) example_assets) as H2
    by (repeat constructor).
  split; [exact H1|]. split; [exact H2|].
  exact (save_then_load_restores_existing (platform := demo_platform)
           example_world example_app example_projects example_assets
           H1 H2 eq_refl eq_refl).
Defined.

(** C1 as stated fails: a record whose file is gone does not come back,
    and a creator written with the two surrogates of a pair comes back as
    one character. *)
Lemma save_then_load_is_not_identity :
  (exists w' a',
     bind V3.save_settings (fun _ => V3.load_settings (platform := demo_platform))
          (example_world, example_app) = (Val tt, (w', a')) /\
     V3.last_project_files example_app
       = [V3.ProjectInfo (u "/p/a.aep") (VStr (u "amy"));
          V3.ProjectInfo (u "/p/gone.aep") (VStr (u "bob"))] /\
     V3.last_project_files a' = [V3.ProjectInfo (u "/p/a.aep") (VStr (u "amy"))]) /\
  (exists w' a',
     bind V3.save_settings (fun _ => V3.load_settings (platform := demo_platform))
          (example_world, surrogate_app) = (Val tt, (w', a')) /\
     V3.last_project_files surrogate_app
       = [V3.ProjectInfo (u "/p/a.aep") (VStr [55357; 56832])] /\
     V3.last_project_files a' = [V3.ProjectInfo (u "/p/a.aep") (VStr [128512])]).
Proof.
  split; eexists _, _; (split; [vm_compute; reflexivity|]); split; reflexivity.
Qed.

Lemma no_process_contains (names : list str) (sub : str) :
  (forall name, name ∈ names -> ~ contains sub name) ->
  existsb (fun name => str_in sub name) names = false.
Proof.
  intros Hn. apply not_true_is_false. intros He.
  apply existsb_exists in He as (name & Hin & Hc).
  apply (Hn name); [by apply list_elem_of_In|]. by apply str_in_spec.
Qed.

Section C3.
Context {platform : Platform}.

(** C3. [import_file_connection] imports only into a running After
    Effects: when no process name contains [AfterFX.exe] it shows the
    error message and returns, and the file system, the settings, the
    threads started, the tables and the records are as before; so
    whenever a call changes any of them, such a process exists. *)
Theorem import_needs_running_after_effects (picked : str) (w : world) (a : V3.app) :
  ((forall name, name ∈ processes w -> ~ contains (u "AfterFX.exe") name) ->
   V3.import_file_connection picked (w, a)
   = (Val tt, (set_shown (shown w ++ [not_running_dialog]) w, a)))
  /\
  (forall r w' a',
     V3.import_file_connection picked (w, a) = (r, (w', a')) ->
     fs w' <> fs w \/ qsettings w' <> qsettings w \/ started w' <> started w
     \/ a' <> a ->
     exists name, name ∈ processes w /\ contains (u "AfterFX.exe") name).
Proof.
  split.
  - intros Hn. apply import_blocked. by apply no_process_contains.
  - intros r w' a' Hrun Hchanged.
    destruct (existsb (fun name => str_in (u "AfterFX.exe") name) (processes w)) eqn:He.
    + apply existsb_exists in He as (name & Hin & Hc).
      exists name. split; [by apply list_elem_of_In|]. by apply str_in_spec.
    + rewrite (import_blocked picked w a He) in Hrun. injection Hrun as <- <- <-.
      destruct w; cbn in Hchanged. by destruct Hchanged as [Hc|[Hc|[Hc|Hc]]].
Qed.

End C3.

Lemma import_needs_running_after_effects_witness :
  (forall name, name ∈ processes example_world -> ~ contains (u "AfterFX.exe") name) /\
  V3.import_file_connection (platform := demo_platform) (u "/p/a.aep")
    (example_world, example_app)
  = (Val tt, (set_shown (shown example_world ++ [not_running_dialog]) example_world,
              example_app)).
Proof.
  assert (forall name, name ∈ processes example_world -> ~ contains (u "AfterFX.exe") name)
    as Hn.
  { intros name Hin Hc. apply str_in_spec in Hc.
    apply list_elem_of_In in Hin. cbn in Hin. destruct Hin as [<-|[]]. discriminate Hc. }
  split; [exact Hn|].
  exact (proj1 (import_needs_running_after_effects (platform := demo_platform)
                  (u "/p/a.aep") example_world example_app) Hn).
Defined.

Lemma fs_of_asked w : fs (asked w) = fs w.
Proof. by destruct w. Qed.

Section C5.
Context {platform : Platform}.

Lemma v3_delete_declined_any answer index w a :
  answer <> Yes ->
  exists r w', V3.delete_project answer index (w, a) = (r, (w', a)) /\ fs w' = fs w.
Proof.
  intros Hans.
  unfold V3.delete_project, bind, self, gets, lift, message_box, with_world, modify.
  cbn [fst snd].
  destruct (negb _).
  { eexists _, _. split; [reflexivity|]. by destruct w. }
  destruct (V3.last_project_files a !! Z.to_nat index) as [[p c|p]|].
  - cbn [V3.entry_path]. eexists _, _. split; [by destruct answer|]. by destruct w.
  - cbn [V3.entry_path]. by eexists _, _.
  - by eexists _, _.
Qed.


End C5.


Lemma basename_from_plain name : forall acc,
  Forall (fun c => is_sep c = false) name -> basename_from acc name = acc.
Proof.
  induction name as [|c name IH]; intros acc Hn; [reflexivity|].
  apply Forall_cons in Hn as [Hc Hn]. cbn [basename_from]. rewrite Hc. by apply IH.
Qed.

Lemma basename_join folder name :
  Forall (fun c => is_sep c = false) name ->
  basename (folder ++ [SLASH] ++ name) = name.
Proof.
  intros Hn. unfold basename. generalize (folder ++ [SLASH] ++ name) at 1.
  induction folder as [|c folder IH]; intros acc.
  - cbn [app basename_from]. change (is_sep SLASH) with true. cbv iota.
    by apply basename_from_plain.
  - cbn [app basename_from]. destruct (is_sep c); apply IH.
Qed.

Lemma new_project_name w N :
  Forall (fun c => is_sep c = false) N ->
  path_name (new_project_path w N) = N ++ u ".aep".
Proof.
  intros HN. unfold path_name, new_project_path, Path_join, Path, str_of_path.
  apply basename_join. apply Forall_app. split; [done|]. repeat constructor.
Qed.

Lemma project_rows_app {platform : Platform} fs l e : forall i,
  project_rows fs i (l ++ [e]) = project_rows fs i l ++ [project_row fs (i + length l) e].
Proof.
  induction l as [|x l IH]; intros i; cbn [app project_rows length].
  - by rewrite Nat.add_0_r.
  - rewrite IH. by rewrite Nat.add_succ_comm.
Qed.

Lemma with_new_project_folder w N content :
  (fs_exists (fs w) (projects_folder w) = true \/ projects_folder w <> []) ->
  fs_exists (with_new_project w N content) (projects_folder w) = true.
Proof.
  intros _. unfold with_new_project, fs_exists.
  rewrite lookup_insert_ne by apply new_project_path_not_folder.
  unfold with_projects_folder, fs_exists.
  destruct (fs w !! projects_folder w) eqn:Hf; [by rewrite Hf|].
  by rewrite lookup_insert_eq.
Qed.

Lemma dirname_join folder name :
  Forall (fun c => is_sep c = false) name ->
  dirname (folder ++ [SLASH] ++ name) = folder.
Proof.
  intros Hn. induction folder as [|c folder IH]; cbn [app dirname] in *.
  - replace (existsb is_sep name) with false; [done|].
    symmetry. apply not_true_is_false. intros He.
    apply existsb_exists in He as (x & Hin & Hx).
    apply list_elem_of_In in Hin. eapply Forall_forall in Hn; [|done]. congruence.
  - replace (existsb is_sep (folder ++ SLASH :: name)) with true; [by rewrite IH|].
    symmetry. apply existsb_exists. exists SLASH. split; [|done].
    apply in_or_app. right. by left.
Qed.

(** A plain file name can be created in a projects folder that is a
    directory, or that is missing and has a name. *)
Lemma can_create_plain_name w template N content :
  N <> [] ->
  Forall (fun c => is_sep c = false) N ->
  projects_folder w <> [] ->
  (forall c mt, fs w !! projects_folder w <> Some (File c mt)) ->
  (exists mt, fs w !! template = Some (File content mt)) ->
  str_of_path (new_project_path w N) <> template ->
  (forall t, fs w !! str_of_path (new_project_path w N) <> Some (Dir t)) ->
  can_create w template N content.
Proof.
  intros HN Hplain Hf Hfile Ht Hne Hd. unfold can_create.
  split; [done|]. split; [by right|]. split; [done|]. split; [done|]. split; [done|].
  unfold parent_ok, new_project_path, Path_join, Path, str_of_path.
  rewrite dirname_join
    by (apply Forall_app; split; [done|repeat constructor]).
  destruct (projects_folder w) as [|c f] eqn:Hpf; [done|]. rewrite <- Hpf in *.
  unfold with_projects_folder, fs_exists.
  destruct (fs w !! projects_folder w) as [[c' mt|t]|] eqn:Hl.
  - by destruct (Hfile c' mt).
  - by rewrite Hl.
  - by rewrite lookup_insert_eq.
Qed.

Section C6.
Context {platform : Platform}.


End C6.

Lemma template_world_can_create :
  can_create template_world v3_template (u "Shot") (u "blank").
Proof.
  unfold can_create. split; [discriminate|]. split; [right; discriminate|].
  split; [by exists 3%Z|]. split; [discriminate|].
  split; [|reflexivity]. intros t. vm_compute. discriminate.
Qed.



Lemma project_rows_length {platform : Platform} fs l : forall i,
  length (project_rows fs i l) = length l.
Proof. induction l as [|e l IH]; intros i; cbn; [done|]. by rewrite IH. Qed.

Lemma project_rows_lookup {platform : Platform} fs l : forall i j,
  project_rows fs i l !! j = project_row fs (i + j) <$> l !! j.
Proof.
  induction l as [|e l IH]; intros i j; [done|].
  destruct j as [|j]; cbn [project_rows lookup list_lookup fmap option_fmap option_map].
  - by rewrite Nat.add_0_r.
  - rewrite IH. by rewrite Nat.add_succ_comm.
Qed.

Lemma project_rows_exist {platform : Platform} fs l : forall i,
  Forall (fun e => is_record e = true /\ entry_exists fs e = true) l ->
  Forall (shows_existing_file fs) (project_rows fs i l).
Proof.
  induction l as [|e l IH]; intros i Hl; [constructor|].
  apply Forall_cons in Hl as [[He Hx] Hl]. cbn [project_rows]. constructor; [|by apply IH].
  destruct e as [p [| | |c| |]|p]; try discriminate. by exists p.
Qed.

Section C8.
Context {platform : Platform}.


End C8.


Section C9.
Context {platform : Platform}.


End C9.


Section C10.
Context {platform : Platform}.

(** C10. [filter_assets] only toggles the visibility of rows: the world,
    the stored asset records and every other attribute are untouched, and
    the imported-assets table keeps its rows with their items and widgets;
    with the empty search text every row that has a name item is visible.
    The first part is [py_ae_v3.py], the second [py_ae.py]. *)
Theorem filter_assets_is_view_only (w : world) :
  (forall a : V3.app,
     exists t',
       V3.filter_assets (w, a)
       = (Val tt, (w, V3.on_imported_assets_table (fun _ => t') a)) /\
       length t' = length (V3.imported_assets_table a) /\
       items <$> t' = items <$> V3.imported_assets_table a /\
       cell_widget <$> t' = cell_widget <$> V3.imported_assets_table a /\
       (V3.asset_search_bar a = [] ->
        forall r x text, t' !! r = Some x -> item r 0 t' = Some text -> hidden x = false))
  /\
  (forall a : PyAe.app,
     exists t',
       PyAe.filter_assets (w, a)
       = (Val tt, (w, PyAe.on_imported_assets_table (fun _ => t') a)) /\
       length t' = length (PyAe.imported_assets_table a) /\
       items <$> t' = items <$> PyAe.imported_assets_table a /\
       cell_widget <$> t' = cell_widget <$> PyAe.imported_assets_table a /\
       (PyAe.asset_search_bar a = [] ->
        forall r x text, t' !! r = Some x -> item r 0 t' = Some text -> hidden x = false)).
Proof.
  split.
  - intros a. rewrite v3_filter_assets_run. eexists. split; [by destruct a|].
    split; [by rewrite length_fmap|]. split; [apply hide_by_items|].
    split; [apply hide_by_widgets|].
    intros Hs r x text Hx Hi. rewrite (hide_by_named _ _ _ _ _ Hx Hi).
    by rewrite Hs, str_lower_empty, str_in_empty.
  - intros a. rewrite pyae_filter_assets_run. eexists. split; [by destruct a|].
    split; [by rewrite length_fmap|]. split; [apply hide_by_items|].
    split; [apply hide_by_widgets|].
    intros Hs r x text Hx Hi. rewrite (hide_by_named _ _ _ _ _ Hx Hi).
    by rewrite Hs, str_lower_empty, str_in_empty.
Qed.

End C10.

Section FilterFacts.
Context {platform : Platform}.

(** What [filter_assets] does to each row, in both revisions: a row with a
    name item is hidden exactly when its lowered name does not contain the
    lowered search text; a row without one is left as it is. *)
Lemma filter_assets_hides_exactly (w : world) (a : V3.app) (b : PyAe.app) :
  V3.filter_assets (w, a)
  = (Val tt, (w, V3.on_imported_assets_table
                   (fmap (hide_by (str_lower (V3.asset_search_bar a)))) a))
  /\
  PyAe.filter_assets (w, b)
  = (Val tt, (w, PyAe.on_imported_assets_table
                   (fmap (hide_by (str_lower (PyAe.asset_search_bar b)))) b))
  /\
  (forall needle x text,
     mjoin (items x !! 0%nat) = Some text ->
     (hidden (hide_by needle x) = true <-> ~ contains needle (str_lower text))).
Proof.
  split; [apply v3_filter_assets_run|]. split; [apply pyae_filter_assets_run|].
  intros needle x text Hx. unfold hide_by. rewrite Hx. cbn [hidden].
  rewrite negb_true_iff, <- not_true_iff_false. by rewrite str_in_spec.
Qed.

(** [filter_projects] of [py_ae_v3.py] on a list that starts with a project
    record: the comprehension asks the dictionary for its [name]. *)
Lemma v3_filter_projects_raises (text : str) (w : world) (a : V3.app) p c rest :
  text <> [] ->
  V3.last_project_files a = V3.ProjectInfo p c :: rest ->
  V3.filter_projects text (w, a) = (Exc AttributeError, (w, a)).
Proof.
  intros Ht Hl. destruct text as [|ch text]; [done|].
  unfold V3.filter_projects, bind, self, gets, lift. cbn [snd]. by rewrite Hl.
Qed.

(** [filter_projects] of [py_ae.py] prints and changes nothing else. *)
Lemma pyae_filter_projects_run (sub_string : str) (w : world) (a : PyAe.app) :
  PyAe.filter_projects sub_string (w, a)
  = (Val tt,
     (set_printed (printed w ++ [Print (u "need to rewrite - substring: " ++ sub_string)
                                       None]) w, a)).
Proof. reflexivity. Qed.

End FilterFacts.

(** C2, where the code departs from it.  In [py_ae_v3.py] a search text
    makes [filter_projects] raise on the first project record, so the
    record of [a.aep] stays though its name does not contain [b], and the
    empty text empties the list and overwrites the stored one; in
    [py_ae.py] [filter_projects] prints a note and filters nothing. *)
Theorem filter_projects_does_not_filter :
  V3.filter_projects (platform := demo_platform) (u "b") (example_world, example_app)
  = (Exc AttributeError, (example_world, example_app))
  /\
  V3.last_project_files example_app
  = [V3.ProjectInfo (u "/p/a.aep") (VStr (u "amy"));
     V3.ProjectInfo (u "/p/gone.aep") (VStr (u "bob"))]
  /\
  str_in (str_lower (Platform := demo_platform) (u "b"))
         (str_lower (Platform := demo_platform) (path_name (u "/p/a.aep"))) = false
  /\
  (exists w' a',
     V3.filter_projects (platform := demo_platform) [] (example_world, example_app)
     = (Val tt, (w', a')) /\
     V3.last_project_files a' = [] /\ V3.last_projects_table a' = [] /\
     qsettings w' !! u "last_project_files" = Some (u "[]"))
  /\
  PyAe.filter_projects (u "b") (example_world, pyae_listing)
  = (Val tt,
     (set_printed [Print (u "need to rewrite - substring: b") None] example_world,
      pyae_listing))
  /\
  item 0 0 (PyAe.projects_table pyae_listing) = Some (u "a").
Proof.
  split; [reflexivity|]. split; [reflexivity|]. split; [reflexivity|].
  split; [|split; reflexivity].
  eexists _, _. split; [vm_compute; reflexivity|]. by repeat split.
Qed.

(** C4, where the code departs from it.  [execute_jsx_script] of
    [py_ae.py] on a path with a doubled slash writes a script that names
    another path, with four slashes, and on a path with backslashes it
    writes them as they are, unescaped; it starts its worker on a joined
    command line.  [py_ae_v3.py] doubles each backslash, changes nothing
    else and starts its worker on the argument list. *)
Theorem pyae_script_quadruples_slashes :
  PyAe.execute_jsx_script (u "C:/AE/AfterFX.exe") (u "//server/share/clip.mov")
    (example_world, pyae_listing)
  = (Val tt,
     (script_written example_world (u "/tmp/tmpabc.jsx")
        (jsx_script (u "////server/share/clip.mov")) []
        (CommandLine (u "C:/AE/AfterFX.exe -r /tmp/tmpabc.jsx")),
      pyae_listing))
  /\
  V3.execute_jsx_script (u "C:/AE/AfterFX.exe") (u "//server/share/clip.mov")
    (example_world, example_app)
  = (Val tt,
     (script_written example_world (u "/tmp/tmpabc.jsx")
        (jsx_script (u "//server/share/clip.mov")) []
        (Argv [u "C:/AE/AfterFX.exe"; u "-r"; u "/tmp/tmpabc.jsx"]),
      example_app))
  /\
  PyAe.execute_jsx_script (u "C:/AE/AfterFX.exe") (u "C:\new\clip.mov")
    (example_world, pyae_listing)
  = (Val tt,
     (script_written example_world (u "/tmp/tmpabc.jsx")
        (jsx_script (u "C:\new\clip.mov")) []
        (CommandLine (u "C:/AE/AfterFX.exe -r /tmp/tmpabc.jsx")),
      pyae_listing))
  /\
  V3.execute_jsx_script (u "C:/AE/AfterFX.exe") (u "C:\new\clip.mov")
    (example_world, example_app)
  = (Val tt,
     (script_written example_world (u "/tmp/tmpabc.jsx")
        (jsx_script (u "C:\\new\\clip.mov")) []
        (Argv [u "C:/AE/AfterFX.exe"; u "-r"; u "/tmp/tmpabc.jsx"]),
      example_app)).
Proof. repeat split; vm_compute; reflexivity. Qed.

(** C7, where the code departs from it.  The thread of [py_ae.py] joins
    the arguments with blanks and runs the one line, so two different
    argument lists run the same command; the thread of [py_ae_v3.py] runs
    the list it was given. *)
Theorem pyae_thread_joins_arguments :
  PyAe.AfterEffectsThread_run
    (PyAe.AfterEffectsThread [u "C:/Program Files/AfterFX.exe"; u "-r"; u "x.jsx"])
    (Exited 0) []
  = (Val tt,
     [SubprocessRun (CommandLine (u "C:/Program Files/AfterFX.exe -r x.jsx"));
      Emit (Some true)])
  /\
  PyAe.AfterEffectsThread [u "C:/Program Files/AfterFX.exe"; u "-r"; u "x.jsx"]
  = PyAe.AfterEffectsThread [u "C:/Program"; u "Files/AfterFX.exe"; u "-r"; u "x.jsx"]
  /\
  V3.AfterEffectsThread_run
    (V3.AfterEffectsThread [u "C:/Program Files/AfterFX.exe"; u "-r"; u "x.jsx"])
    (Exited 0) []
  = (Val tt,
     [SubprocessRun (Argv [u "C:/Program Files/AfterFX.exe"; u "-r"; u "x.jsx"]);
      Emit None]).
Proof. repeat split; vm_compute; reflexivity. Qed.

(** The worker threads of both revisions emit [finished] once when the
    child process exits, whatever its status; the thread of
    [py_ae_v3.py] runs exactly the list it was given. *)
Lemma threads_emit_finished_once (command : list str) (status : Z) :
  (exists r tr,
     V3.AfterEffectsThread_run (V3.AfterEffectsThread command) (Exited status) [] = (r, tr)
     /\ r = Val tt /\ emissions tr = 1%nat /\ subprocess_runs tr = [Argv command])
  /\
  (exists r tr,
     PyAe.AfterEffectsThread_run (PyAe.AfterEffectsThread command) (Exited status) []
       = (r, tr)
     /\ r = Val tt /\ emissions tr = 1%nat
     /\ subprocess_runs tr = [CommandLine (join [32] command)]).
Proof.
  split.
  - rewrite v3_thread_run. destruct status; by eexists _, _.
  - rewrite pyae_thread_run. destruct status; by eexists _, _.
Qed.



(** ** Imported assets of [py_ae_v3.py] *)

Lemma after_effects_runs_spec w :
  after_effects_runs w <->
  existsb (fun name => str_in (u "AfterFX.exe") name) (processes w) = true.
Proof.
  unfold after_effects_runs. rewrite existsb_exists. split.
  - intros (name & Hin & Hc). exists name. split; [by apply list_elem_of_In|].
    by apply str_in_spec.
  - intros (name & Hin & Hc). exists name. split; [by apply list_elem_of_In|].
    by apply str_in_spec.
Qed.

Section Assets.
Context {platform : Platform}.

(** [populate_imported_assets_table] appends the row of the record. *)
Lemma populate_imported_assets_table_run w a x :
  V3.populate_imported_assets_table
    (VStr (basename (asset_path x))) (VStr (asset_path x))
    (VStr (asset_last_modified x)) (VStr (asset_imported_by x)) (w, a)
  = (Val tt,
     (w, V3.on_imported_assets_table (fun t => t ++ [asset_row (length t) x]) a)).
Proof.
  unfold V3.populate_imported_assets_table.
  unfold bind, lift, self, gets, with_self, modify.
  cbn [QTableWidgetItem fst snd].
  destruct a as [d l v t at_ sb]. v3_simpl. unfold rowCount.
  rewrite append_text_row.
  replace (length at_ + 1)%nat
    with (length (at_ ++ [text_row (basename (asset_path x)) (asset_path x)
                            (asset_last_modified x) (asset_imported_by x)
                            (Buttons (Some (asset_path x)) (length at_))]))
    by (rewrite length_app; reflexivity).
  rewrite setRowCount_same. reflexivity.
Qed.

(** [update_imported_assets] appends the record, shows it and saves the
    records. *)
Lemma update_imported_assets_run w a l file_path last_modified imported_by :
  V3.imported_assets a = VList l ->
  V3.update_imported_assets file_path last_modified imported_by (w, a)
  = (Val tt,
     (with_saved_assets
        (VList (l ++ [asset_dict (Asset file_path last_modified imported_by)])) w,
      with_asset l (Asset file_path last_modified imported_by) a)).
Proof.
  intros Hl. unfold V3.update_imported_assets.
  unfold bind at 1. unfold self at 1, gets at 1. cbn [snd].
  unfold bind at 1, lift at 1. rewrite Hl.
  unfold bind at 1. unfold with_self at 1, modify at 1. cbn [fst snd].
  unfold bind at 1.
  rewrite (populate_imported_assets_table_run w _ (Asset file_path last_modified imported_by)).
  unfold V3.save_imported_assets_settings, bind, self, gets, setValue, with_world, modify.
  cbn [fst snd]. unfold with_saved_assets, with_asset.
  destruct a as [d l0 v t at_ sb]. v3_simpl. reflexivity.
Qed.

End Assets.

Section ImportSteps.
Context {platform : Platform}.

(** The two readers of the settings. *)
Lemma get_after_effects_path_set w (a : V3.app) :
  executable_set w ->
  V3.get_after_effects_path (w, a) = (Val (Some (aePath_setting w)), (w, a)).
Proof.
  intros [Hne Hf]. unfold V3.get_after_effects_path, bind, the_world, gets.
  cbn [fst]. cbv zeta. fold (aePath_setting w).
  rewrite bool_decide_eq_false_2 by done. rewrite Hf. reflexivity.
Qed.

Lemma get_after_effects_path_unset w (a : V3.app) :
  ~ executable_set w ->
  V3.get_after_effects_path (w, a)
  = (Val None, (set_shown (shown w ++ [no_executable_dialog]) w, a)).
Proof.
  intros Hno. unfold V3.get_after_effects_path, bind, the_world, gets.
  cbn [fst]. cbv zeta. fold (aePath_setting w).
  destruct (bool_decide (aePath_setting w = []) || negb (fs_isfile (fs w) (aePath_setting w)))
    eqn:Hb; [reflexivity|].
  apply orb_false_elim in Hb as [Hb1 Hb2].
  apply bool_decide_eq_false in Hb1. apply negb_false_iff in Hb2.
  by destruct Hno.
Qed.

Lemma get_assets_folder_path_set w (a : V3.app) :
  assets_folder_set w ->
  V3.get_assets_folder_path (w, a) = (Val (Some (assetsFolder_setting w)), (w, a)).
Proof.
  intros [Hne Hf]. unfold V3.get_assets_folder_path, bind, the_world, gets.
  cbn [fst]. cbv zeta. fold (assetsFolder_setting w).
  rewrite bool_decide_eq_false_2 by done. rewrite Hf. reflexivity.
Qed.

Lemma get_assets_folder_path_unset w (a : V3.app) :
  ~ assets_folder_set w ->
  V3.get_assets_folder_path (w, a)
  = (Val None, (set_shown (shown w ++ [no_assets_folder_dialog]) w, a)).
Proof.
  intros Hno. unfold V3.get_assets_folder_path, bind, the_world, gets.
  cbn [fst]. cbv zeta. fold (assetsFolder_setting w).
  destruct (bool_decide (assetsFolder_setting w = [])
            || negb (fs_exists (fs w) (assetsFolder_setting w))) eqn:Hb; [reflexivity|].
  apply orb_false_elim in Hb as [Hb1 Hb2].
  apply bool_decide_eq_false in Hb1. apply negb_false_iff in Hb2.
  by destruct Hno.
Qed.

(** With After Effects running, [import_file_connection] goes on to read
    the settings. *)
Lemma import_running picked w a :
  after_effects_runs w ->
  V3.import_file_connection picked (w, a)
  = bind V3.get_after_effects_path (fun found =>
      match found with
      | None => ret tt
      | Some aePath =>
          bind V3.get_assets_folder_path (fun found =>
            match found with
            | None => ret tt
            | Some assetsFolder =>
                bind (V3.prompt_user_for_file picked assetsFolder) (fun chosen =>
                  match chosen with
                  | None => ret tt
                  | Some file_name =>
                      bind the_world (fun w =>
                      bind (lift (shutil_copy file_name assetsFolder (clock w) (fs w)))
                        (fun copied =>
                      bind (with_world (set_fs copied.2)) (fun _ =>
                      bind (V3.execute_jsx_script aePath copied.1) (fun _ =>
                      V3.update_imported_assets file_name (strftime (clock w))
                                                (username w)))))
                  end)
            end)
      end) (w, a).
Proof.
  intros Hr. apply after_effects_runs_spec in Hr.
  unfold V3.import_file_connection.
  unfold bind at 1. unfold is_after_effects_running, bind, the_world, gets, ret.
  cbn [fst]. cbv zeta. rewrite Hr. reflexivity.
Qed.

End ImportSteps.

Lemma basename_from_plain_suffix s : forall acc pre,
  acc = pre ++ s -> Forall (fun c => is_sep c = false) pre ->
  Forall (fun c => is_sep c = false) (basename_from acc s).
Proof.
  induction s as [|c s IH]; intros acc pre Hacc Hpre; cbn [basename_from].
  - subst acc. by rewrite app_nil_r.
  - destruct (is_sep c) eqn:Hc.
    + by apply (IH s []).
    + apply (IH acc (pre ++ [c])).
      * by rewrite <- app_assoc.
      * apply Forall_app. split; [done|]. by constructor.
Qed.

(** A base name holds no separator. *)
Lemma basename_plain p : Forall (fun c => is_sep c = false) (basename p).
Proof. by apply (basename_from_plain_suffix p p []). Qed.

Lemma dirname_sep_join folder sep name :
  is_sep sep = true ->
  Forall (fun c => is_sep c = false) name ->
  dirname (folder ++ [sep] ++ name) = folder.
Proof.
  intros Hsep Hn. induction folder as [|c folder IH]; cbn [app dirname] in *.
  - replace (existsb is_sep name) with false; [done|].
    symmetry. apply not_true_is_false. intros He.
    apply existsb_exists in He as (x & Hin & Hx).
    apply list_elem_of_In in Hin. eapply Forall_forall in Hn; [|done]. congruence.
  - replace (existsb is_sep (folder ++ sep :: name)) with true; [by rewrite IH|].
    symmetry. apply existsb_exists. exists sep. split; [|done].
    apply in_or_app. right. by left.
Qed.

(** A file can be created under its base name in a folder that is a
    directory. *)
Lemma parent_ok_in_folder fs folder p t :
  fs !! folder = Some (Dir t) ->
  parent_ok fs (os_path_join folder (basename p)) = true.
Proof.
  intros Hd. unfold parent_ok, os_path_join.
  rewrite dirname_sep_join by (done || apply basename_plain).
  destruct folder; [done|]. by rewrite Hd.
Qed.

Section ImportRuns.
Context {platform : Platform}.

Lemma shutil_copy_into_folder w picked content script rest :
  can_import w picked content script rest ->
  shutil_copy picked (assetsFolder_setting w) (clock w) (fs w)
  = Val (import_target w picked, with_copy w picked content).
Proof.
  intros (_ & _ & _ & (t & Hd) & _ & _ & (mt & Hp) & Hne & Hnd & _).
  pose proof (parent_ok_in_folder _ _ picked _ Hd) as Hpar.
  unfold shutil_copy. rewrite Hd. fold (import_target w picked).
  unfold copyfile. rewrite bool_decide_eq_false_2 by congruence. cbn [andb].
  rewrite Hp. fold (import_target w picked) in Hpar. rewrite Hpar. unfold with_copy.
  destruct (fs w !! import_target w picked) as [[]|] eqn:Ht; try reflexivity.
  by destruct (Hnd mtime).
Qed.

(** An import that goes through. *)
Lemma import_done picked w a content script rest l :
  can_import w picked content script rest ->
  V3.imported_assets a = VList l ->
  V3.import_file_connection picked (w, a)
  = (Val tt,
     (imported_world w picked content script rest l,
      with_asset l (Asset picked (strftime (clock w)) (username w)) a)).
Proof.
  intros Hc Hl.
  pose proof Hc as (Hr & Hx & Hfne & (t & Hd) & _ & Hpne & _ & _ & _ & Hm & Hps).
  assert (picked <> []) as Hpicked by (intros ->; discriminate Hpne).
  rewrite import_running by done.
  unfold bind at 1. rewrite get_after_effects_path_set by done.
  unfold bind at 1. rewrite get_assets_folder_path_set
    by (split; [done|]; unfold fs_exists; by rewrite Hd).
  destruct picked as [|ch picked]; [done|].
  unfold bind at 1. unfold V3.prompt_user_for_file at 1, ret at 1.
  unfold bind at 1. unfold the_world at 1, gets at 1. cbn [fst].
  unfold bind at 1, lift at 1.
  rewrite (shutil_copy_into_folder w (ch :: picked) content script rest Hc).
  unfold bind at 1. unfold with_world at 1, modify at 1. cbn [fst snd].
  unfold bind at 1.
  assert (forall x, fs (set_fs x w) = x) as Hfs by (by destruct w).
  assert (forall x, tmp_stems (set_fs x w) = tmp_stems w) as Hts by (by destruct w).
  rewrite (v3_execute_jsx_script_run _ _ (set_fs (with_copy w (ch :: picked) content) w)
             a script rest)
    by (by rewrite ?Hfs, ?Hts).
  rewrite (update_imported_assets_run _ _ l) by done.
  unfold imported_world. reflexivity.
Qed.

End ImportRuns.

(** ** [delete_imported_asset] *)

Section DeleteAsset.
Context {platform : Platform}.

(** [delete_imported_asset], declined. *)
Lemma delete_imported_asset_declined answer row w a :
  answer <> Yes ->
  V3.delete_imported_asset answer row (w, a) = (Val tt, (asked_asset w, a)).
Proof.
  intros Ha. unfold V3.delete_imported_asset, bind, message_box, with_world, modify.
  cbn [fst snd]. by destruct answer.
Qed.

(** [delete_imported_asset] on a row without a name item. *)
Lemma delete_imported_asset_unnamed row w a :
  item row 0 (V3.imported_assets_table a) = None ->
  V3.delete_imported_asset Yes row (w, a) = (Exc AttributeError, (asked_asset w, a)).
Proof.
  intros Hi. unfold V3.delete_imported_asset.
  unfold bind, message_box, with_world, modify, self, gets, lift. cbn [fst snd].
  by rewrite Hi.
Qed.

(** [delete_imported_asset] on a named row for which there is no record. *)
Lemma delete_imported_asset_no_record row w a name l :
  item row 0 (V3.imported_assets_table a) = Some name ->
  V3.imported_assets a = VList l ->
  (length l <= row)%nat ->
  V3.delete_imported_asset Yes row (w, a)
  = (Exc IndexError,
     (asked_asset w, V3.on_imported_assets_table (delete row) a)).
Proof.
  intros Hi Hl Hlen. unfold V3.delete_imported_asset.
  unfold bind, message_box, with_world, with_self, modify, self, the_world, gets, lift.
  cbn [fst snd]. rewrite Hi. cbv zeta. cbn [fst snd].
  destruct a as [d l0 v t at_ sb]. v3_simpl. subst v. unfold pop_at.
  rewrite decide_False by lia. reflexivity.
Qed.

(** [delete_imported_asset] on a named row with its record. *)
Lemma delete_imported_asset_run row w a name l :
  item row 0 (V3.imported_assets_table a) = Some name ->
  V3.imported_assets a = VList l ->
  (row < length l)%nat ->
  V3.delete_imported_asset Yes row (w, a)
  = (Val tt,
     (with_saved_assets (VList (delete row l)) (asset_file_removed w (asset_file w name)),
      without_asset row l a)).
Proof.
  intros Hi Hl Hlen. unfold V3.delete_imported_asset.
  unfold bind at 1. unfold message_box at 1, with_world at 1, modify at 1. cbn [fst snd].
  unfold bind at 1. unfold self at 1, gets at 1. cbn [snd].
  unfold bind at 1, lift at 1. rewrite Hi.
  unfold bind at 1. unfold the_world at 1, gets at 1. cbn [fst]. cbv zeta.
  assert (qsettings (set_shown (shown w ++ [confirm_asset_dialog]) w) = qsettings w) as Hq
    by (by destruct w).
  assert (fs (set_shown (shown w ++ [confirm_asset_dialog]) w) = fs w) as Hfs
    by (by destruct w).
  fold confirm_asset_dialog. rewrite Hq, Hfs.
  fold (assetsFolder_setting w). fold (asset_file w name).
  unfold bind at 1. unfold with_self at 1, modify at 1. cbn [fst snd].
  unfold bind at 1. unfold self at 1, gets at 1. cbn [snd].
  unfold bind at 1, lift at 1.
  destruct a as [d l0 v t at_ sb]. v3_simpl. subst v. unfold pop_at.
  rewrite decide_True by lia.
  unfold bind at 1. unfold with_self at 1, modify at 1. cbn [fst snd]. v3_simpl.
  unfold bind at 1. unfold asset_file_removed, fs_exists, removeRow.
  destruct (fs w !! asset_file w name) as [[c mt|mt]|] eqn:Hf.
  - unfold try_except, bind, the_world, gets, lift, os_remove, with_world, modify, print.
    cbn [fst snd]. rewrite Hf.
    unfold V3.save_imported_assets_settings, bind, self, gets, setValue, with_world, modify.
    cbn [fst snd]. unfold with_saved_assets, without_asset, asked_asset.
    v3_simpl. destruct w. reflexivity.
  - unfold try_except, bind, the_world, gets, lift, os_remove, with_world, modify, print,
      message_box.
    cbn [fst snd]. rewrite Hf. cbn [is_os_error]. unfold with_world, modify. cbn [fst snd].
    unfold V3.save_imported_assets_settings, bind, self, gets, setValue, with_world, modify.
    cbn [fst snd]. unfold with_saved_assets, without_asset.
    v3_simpl. destruct w. world_simpl. rewrite <- app_assoc. reflexivity.
  - unfold message_box, with_world, modify. cbn [fst snd].
    unfold V3.save_imported_assets_settings, bind, self, gets, setValue, with_world, modify.
    cbn [fst snd]. unfold with_saved_assets, without_asset.
    v3_simpl. destruct w. world_simpl. rewrite <- app_assoc. reflexivity.
Qed.

End DeleteAsset.

(** ** [import_to_current_project] *)

Section ImportToCurrent.
Context {platform : Platform}.

Lemma import_to_current_project_blocked file_path c w tr :
  ~ after_effects_runs w ->
  V3.import_to_current_project file_path c (w, tr)
  = (Val tt, (set_shown (shown w ++ [not_running_action_dialog]) w, tr)).
Proof.
  intros Hr. rewrite after_effects_runs_spec in Hr. apply not_true_is_false in Hr.
  unfold V3.import_to_current_project.
  unfold bind at 1. unfold is_after_effects_running, bind, the_world, gets, ret.
  cbn [fst]. cbv zeta. rewrite Hr. reflexivity.
Qed.

(** [import_to_current_project] once a name for the script is found: the
    script is written, the child is run, and the script is removed unless
    the child could not be started. *)
Lemma import_to_current_project_run file_path c w tr script rest :
  after_effects_runs w ->
  mktemp (u ".jsx") (tmp_stems w) (fs w) = (Val script, rest) ->
  parent_ok (fs w) script = true ->
  V3.import_to_current_project file_path c (w, tr)
  = match c with
    | Exited 0%Z =>
        (Val tt, (set_tmp_stems rest w, tr ++ [SubprocessRun (import_command script)]))
    | Exited _ =>
        (Val tt,
         (set_printed (printed w ++ [execution_error]) (set_tmp_stems rest w),
          tr ++ [SubprocessRun (import_command script)]))
    | NotStarted =>
        (Exc FileNotFoundError,
         (set_fs (<[script := File (import_script file_path) (clock w)]> (fs w))
                 (set_tmp_stems rest w),
          tr ++ [SubprocessRun (import_command script)]))
    end.
Proof.
  intros Hr Hm Hp. pose proof (mktemp_fresh _ _ _ _ _ Hm) as [Hf _].
  unfold fs_exists in Hf. destruct (fs w !! script) eqn:Hs; [discriminate|].
  rewrite after_effects_runs_spec in Hr.
  unfold V3.import_to_current_project.
  unfold bind at 1. unfold is_after_effects_running, bind at 1, the_world, gets, ret.
  cbn [fst]. cbv zeta. rewrite Hr. cbn [negb].
  rewrite bool_decide_eq_false_2 by discriminate.
  unfold bind at 1. cbn [fst]. rewrite Hm.
  unfold bind at 1. unfold with_world at 1, modify at 1. cbn [fst snd].
  unfold bind at 1, lift at 1.
  unfold bind at 1, lift at 1. unfold write_text. rewrite Hs, Hp.
  unfold bind at 1. unfold with_world at 1, modify at 1. cbn [fst snd].
  unfold bind at 1. unfold try_except, on_trace, subprocess_run_check.
  unfold bind at 1. unfold modify at 1. cbn [fst snd].
  fold (import_command script).
  destruct c as [[|p|p]|]; unfold ret, raise, print, with_world, modify; cbn [fst snd].
  - unfold bind, gets, lift, os_remove, with_world, modify. cbn [fst snd].
    destruct w. world_simpl. rewrite lookup_insert_eq.
    rewrite delete_insert_id by done. reflexivity.
  - unfold bind, gets, lift, os_remove, with_world, modify. cbn [fst snd].
    destruct w. world_simpl. rewrite lookup_insert_eq.
    rewrite delete_insert_id by done. reflexivity.
  - unfold bind, gets, lift, os_remove, with_world, modify. cbn [fst snd].
    destruct w. world_simpl. rewrite lookup_insert_eq.
    rewrite delete_insert_id by done. reflexivity.
  - destruct w. reflexivity.
Qed.

End ImportToCurrent.

(** ** Projects: repeated calls, bounds and the open dialog *)

Lemma filter_existing_twice fs (l : list V3.project_entry) :
  filter (fun e => entry_exists fs e = true) (filter (fun e => entry_exists fs e = true) l)
  = filter (fun e => entry_exists fs e = true) l.
Proof.
  induction l as [|e l IH]; [reflexivity|].
  rewrite filter_cons. destruct (decide (entry_exists fs e = true)) as [He|He]; [|done].
  rewrite filter_cons, decide_True by done. by rewrite IH.
Qed.

Lemma saved_settings_twice a q : saved_settings a (saved_settings a q) = saved_settings a q.
Proof.
  unfold saved_settings.
  rewrite (insert_insert_ne _ (u "last_project_files") (u "imported_assets")) by done.
  by rewrite !insert_insert_eq.
Qed.

Section Populate.
Context {platform : Platform}.

Lemma populated_twice w q a :
  populated (set_qsettings q w) (populated w a) = populated w a.
Proof.
  unfold populated. cbv zeta. v3_simpl.
  assert (fs (set_qsettings q w) = fs w) as -> by (by destruct w).
  by rewrite filter_existing_twice.
Qed.

Lemma populated_records w a :
  Forall (fun e => is_record e = true) (V3.last_project_files a) ->
  Forall (fun e => is_record e = true) (V3.last_project_files (populated w a)).
Proof.
  intros Hl. unfold populated. v3_simpl. apply Forall_forall. intros e He.
  apply list_elem_of_filter in He as [_ He]. by eapply Forall_forall in Hl.
Qed.

(** A second [populate_last_projects_table] changes nothing. *)
Lemma populate_twice_run w a :
  Forall (fun e => is_record e = true) (V3.last_project_files a) ->
  bind V3.populate_last_projects_table (fun _ => V3.populate_last_projects_table) (w, a)
  = V3.populate_last_projects_table (w, a).
Proof.
  intros Hl. unfold bind. rewrite (populate_run w a Hl).
  rewrite populate_run by (by apply populated_records).
  rewrite populated_twice.
  assert (forall q q', set_qsettings q (set_qsettings q' w) = set_qsettings q w) as Hset
    by (by destruct w).
  assert (forall q, qsettings (set_qsettings q w) = q) as Hq by (by destruct w).
  by rewrite Hset, Hq, saved_settings_twice.
Qed.

(** A [save_settings] after it changes nothing either. *)
Lemma populate_then_save_run w a :
  Forall (fun e => is_record e = true) (V3.last_project_files a) ->
  bind V3.populate_last_projects_table (fun _ => V3.save_settings) (w, a)
  = V3.populate_last_projects_table (w, a).
Proof.
  intros Hl. unfold bind. rewrite (populate_run w a Hl).
  rewrite save_settings_run by (apply is_record_info; by apply populated_records).
  assert (forall q q', set_qsettings q (set_qsettings q' w) = set_qsettings q w) as Hset
    by (by destruct w).
  assert (forall q, qsettings (set_qsettings q w) = q) as Hq by (by destruct w).
  by rewrite Hset, Hq, saved_settings_twice.
Qed.

(** A record of a file that is not there is dropped as soon as it is
    added. *)
Lemma update_last_projects_list_missing w a p c :
  Forall (fun e => is_record e = true) (V3.last_project_files a) ->
  fs_exists (fs w) (str_of_path p) = false ->
  V3.update_last_projects_list p c (w, a) = V3.populate_last_projects_table (w, a).
Proof.
  intros Hl Hp. unfold V3.update_last_projects_list.
  unfold bind at 1. unfold self at 1, gets at 1. cbn [snd].
  unfold bind at 1. unfold with_self at 1, modify at 1. cbn [fst snd].
  rewrite populate_run.
  2:{ destruct a. v3_simpl. apply Forall_app. split; [done|]. by repeat constructor. }
  rewrite populate_run by done.
  assert (populated w (V3.set_last_project_files
                         (V3.last_project_files a ++ [V3.ProjectInfo p (VStr c)]) a)
          = populated w a) as ->; [|done].
  unfold populated. cbv zeta. destruct a as [d l v t at_ sb]. v3_simpl.
  rewrite filter_app, filter_cons, filter_nil.
  rewrite decide_False by (cbn [entry_exists]; unfold str_of_path in Hp; by rewrite Hp).
  by rewrite app_nil_r.
Qed.

(** [delete_project] with an index out of range. *)
Lemma v3_delete_out_of_range answer index w a :
  (index < 0 \/ Z.of_nat (length (V3.last_project_files a)) <= index)%Z ->
  V3.delete_project answer index (w, a)
  = (Val tt, (set_shown (shown w ++ [invalid_selection_dialog]) w, a)).
Proof.
  intros Hi. unfold V3.delete_project.
  unfold bind at 1. unfold self at 1, gets at 1. cbn [snd].
  replace ((0 <=? index)%Z && (index <? Z.of_nat (length (V3.last_project_files a)))%Z)
    with false; [reflexivity|].
  symmetry. apply andb_false_iff. rewrite Z.leb_gt, Z.ltb_ge. lia.
Qed.

(** [open_after_effects_project_connection]. *)
Lemma open_project_no_executable path_parent project_path w a :
  fs_exists (fs w) aerender_path = false ->
  V3.open_after_effects_project_connection path_parent project_path (w, a)
  = (Val tt, (set_shown (shown w ++ [no_aerender_dialog]) w, a)).
Proof.
  intros Hx. unfold V3.open_after_effects_project_connection, bind, the_world, gets.
  cbn [fst]. unfold str_of_path, Path. rewrite Hx. reflexivity.
Qed.

Lemma open_project_picked path_parent project_path w a :
  fs_exists (fs w) aerender_path = true ->
  project_path <> [] ->
  V3.open_after_effects_project_connection path_parent project_path (w, a)
  = (Exc TypeError,
     (set_printed (printed w ++ [Print (u "Project selected: " ++ project_path) None]) w,
      V3.set_last_project_directory (Some (path_parent project_path)) a)).
Proof.
  intros Hx Hp. unfold V3.open_after_effects_project_connection, bind, the_world, gets.
  cbn [fst]. unfold str_of_path, Path. rewrite Hx.
  destruct project_path; [done|]. reflexivity.
Qed.

Lemma open_project_cancelled path_parent w a :
  fs_exists (fs w) aerender_path = true ->
  V3.open_after_effects_project_connection path_parent [] (w, a) = (Val tt, (w, a)).
Proof.
  intros Hx. unfold V3.open_after_effects_project_connection, bind, the_world, gets.
  cbn [fst]. unfold str_of_path, Path. rewrite Hx. reflexivity.
Qed.

End Populate.

(** ** Missing keys, the asset table, and [import_file_connection] of [py_ae.py] *)

(** The comprehension of [load_settings] through a list of stored records:
    it raises what the first entry it cannot read raises. *)
Lemma parse_projects_cons_record p c rest :
  V3.parse_projects (VList (project_dict (V3.ProjectInfo p c) :: rest))
  = match V3.parse_projects (VList rest) with
    | Val es => Val (V3.ProjectInfo p c :: es)
    | Exc e => Exc e
    end.
Proof.
  unfold V3.parse_projects. cbn [py_iter res_bind project_dict].
  rewrite filter_cons. cbn [is_dict]. rewrite decide_True by done.
  cbn [map_res]. set (m := map_res _ (filter _ rest)). by destruct m.
Qed.

Lemma parse_projects_app (before : list V3.project_entry) (rest : list value) :
  Forall (fun e => exists p c, e = V3.ProjectInfo p c) before ->
  V3.parse_projects (VList ((project_dict <$> before) ++ rest))
  = match V3.parse_projects (VList rest) with
    | Val es => Val (before ++ es)
    | Exc e => Exc e
    end.
Proof.
  intros Hb. induction Hb as [|e l (p & c & ->) _ IH].
  - cbn [fmap list_fmap app]. by destruct (V3.parse_projects _).
  - cbn [fmap list_fmap app]. rewrite parse_projects_cons_record, IH.
    by destruct (V3.parse_projects (VList rest)).
Qed.

Lemma parse_projects_no_path d after :
  dict_lookup (u "path") d = None ->
  V3.parse_projects (VList (VDict d :: after)) = Exc KeyError.
Proof.
  intros Hd. unfold V3.parse_projects. cbn [py_iter res_bind].
  rewrite filter_cons. cbn [is_dict]. rewrite decide_True by done.
  cbn [map_res subscript]. by rewrite Hd.
Qed.

Lemma parse_projects_no_creator p after :
  V3.parse_projects (VList (VDict [(u "path", VStr p)] :: after))
  = match V3.parse_projects (VList after) with
    | Val es => Val (V3.ProjectInfo p unknown :: es)
    | Exc e => Exc e
    end.
Proof.
  unfold V3.parse_projects. cbn [py_iter res_bind].
  rewrite filter_cons. cbn [is_dict]. rewrite decide_True by done.
  cbn [map_res]. set (m := map_res _ (filter _ after)). by destruct m.
Qed.

Section MissingKeys.
Context {platform : Platform}.

(** [load_settings] when the stored projects hold an entry it cannot read:
    the exception is no [JSONDecodeError] and is not caught. *)
Lemma load_settings_unreadable_projects w a v e :
  Json.loads (settings_value (qsettings w) (u "last_project_files") (u "[]")) = Some v ->
  V3.parse_projects v = Exc e ->
  e <> JSONDecodeError ->
  V3.load_settings (w, a)
  = (Exc e, (w, V3.set_last_project_directory (stored_directory (qsettings w)) a)).
Proof.
  intros Hs Hp He. unfold V3.load_settings.
  unfold bind at 1. unfold the_world at 1, gets at 1. cbn [fst]. cbv zeta.
  unfold bind at 1. unfold with_self at 1, modify at 1. cbn [fst snd].
  unfold bind at 1. rewrite (load_last_project_files_valid _ _ _ _ Hs), Hp.
  fold (stored_directory (qsettings w)). by destruct e.
Qed.

(** The last loop of [load_settings] on a record without its importer, and
    on one without its time. *)
Lemma show_asset_no_importer w a p lm :
  V3.show_asset (VDict [(u "path", VStr p); (u "last_modified", VStr lm)]) (w, a)
  = (Val tt,
     (w, V3.on_imported_assets_table
           (fun t => t ++ [asset_row (length t) (Asset p lm (u "Unknown"))]) a)).
Proof.
  rewrite <- (populate_imported_assets_table_run w a (Asset p lm (u "Unknown"))).
  reflexivity.
Qed.

Lemma show_asset_no_time w a d p :
  dict_lookup (u "path") d = Some (VStr p) ->
  dict_lookup (u "last_modified") d = None ->
  V3.show_asset (VDict d) (w, a) = (Exc KeyError, (w, a)).
Proof.
  intros Hp Hl. unfold V3.show_asset, bind, lift, subscript. rewrite Hp, Hl.
  reflexivity.
Qed.

End MissingKeys.

(** Rows and records under [fmap] and [delete]. *)
Lemma asset_rows_items xs : forall i, items <$> asset_rows i xs = asset_texts <$> xs.
Proof.
  induction xs as [|x xs IH]; intros i; [reflexivity|].
  cbn [asset_rows fmap list_fmap]. f_equal. apply IH.
Qed.

Lemma item_of_texts (t : table) (xs : list asset) row x :
  items <$> t = asset_texts <$> xs ->
  xs !! row = Some x ->
  item row 0 t = Some (basename (asset_path x)).
Proof.
  intros Ht Hx. unfold item.
  assert ((items <$> t) !! row = Some (asset_texts x)) as Hi
    by (by rewrite Ht, list_lookup_fmap, Hx).
  rewrite list_lookup_fmap in Hi.
  destruct (t !! row) as [r|]; [|discriminate]. cbn in Hi. injection Hi as ->.
  reflexivity.
Qed.

Section Aligned.
Context {platform : Platform}.

Lemma shows_assets_update w a file_path last_modified imported_by :
  shows_assets a ->
  exists w' a',
    V3.update_imported_assets file_path last_modified imported_by (w, a)
    = (Val tt, (w', a')) /\ shows_assets a'.
Proof.
  intros (xs & Hl & Ht).
  rewrite (update_imported_assets_run _ _ _ _ _ _ Hl). eexists _, _. split; [reflexivity|].
  exists (xs ++ [Asset file_path last_modified imported_by]).
  unfold with_asset. v3_simpl. split.
  - by rewrite fmap_app.
  - rewrite !fmap_app, Ht. reflexivity.
Qed.

Lemma shows_assets_delete w a row :
  shows_assets a ->
  (row < length (V3.imported_assets_table a))%nat ->
  exists w' a',
    V3.delete_imported_asset Yes row (w, a) = (Val tt, (w', a')) /\ shows_assets a'.
Proof.
  intros (xs & Hl & Ht) Hrow.
  assert (length (V3.imported_assets_table a) = length xs) as Hlen.
  { apply (f_equal length) in Ht. by rewrite !length_fmap in Ht. }
  destruct (lookup_lt_is_Some_2 xs row) as [x Hx]; [lia|].
  rewrite (delete_imported_asset_run row w a _ _ (item_of_texts _ _ _ _ Ht Hx) Hl)
    by (rewrite length_fmap; lia).
  eexists _, _. split; [reflexivity|].
  exists (delete row xs). unfold without_asset. v3_simpl. split.
  - by rewrite list_fmap_delete.
  - by rewrite !list_fmap_delete, Ht.
Qed.

Lemma shows_assets_loaded w a l xs : shows_assets (loaded_state w a l xs).2.
Proof.
  exists xs. unfold loaded_state, populated. cbv zeta. v3_simpl. split; [reflexivity|].
  apply asset_rows_items.
Qed.

End Aligned.

Section PyAeImport.
Context {platform : Platform}.

(** The property [after_effects_path] answers the stand-in path unless the
    setting names a file. *)
Lemma pyae_after_effects_path_unset w (a : PyAe.app) :
  fs_isfile (fs w) (pathlib_Path (aePath_setting w)) = false ->
  PyAe.after_effects_path (w, a) = (Val (u "does/not/exist/dasds"), (w, a)).
Proof.
  intros Hf. unfold PyAe.after_effects_path, bind, the_world, gets, ret. cbn [fst].
  cbv zeta. fold (aePath_setting w). unfold str_of_path. rewrite Hf.
  by rewrite andb_false_r.
Qed.

Lemma pyae_after_effects_path_set w (a : PyAe.app) :
  fs_isfile (fs w) (pathlib_Path (aePath_setting w)) = true ->
  PyAe.after_effects_path (w, a) = (Val (pathlib_Path (aePath_setting w)), (w, a)).
Proof.
  intros Hf. unfold PyAe.after_effects_path, bind, the_world, gets, ret. cbn [fst].
  cbv zeta. fold (aePath_setting w). unfold str_of_path. rewrite Hf.
  replace (fs_exists (fs w) (pathlib_Path (aePath_setting w))) with true; [done|].
  unfold fs_isfile, fs_exists in *. by destruct (fs w !! _).
Qed.

Lemma pyae_import_blocked picked w a :
  ~ after_effects_runs w ->
  PyAe.import_file_connection picked (w, a)
  = (Val tt, (set_shown (shown w ++ [not_running_dialog]) w, a)).
Proof.
  intros Hr. rewrite after_effects_runs_spec in Hr. apply not_true_is_false in Hr.
  unfold PyAe.import_file_connection.
  unfold bind at 1. unfold is_after_effects_running, bind, the_world, gets, ret.
  cbn [fst]. cbv zeta. rewrite Hr. reflexivity.
Qed.

Lemma pyae_import_no_executable picked w a :
  after_effects_runs w ->
  fs_isfile (fs w) (pathlib_Path (aePath_setting w)) = false ->
  fs_exists (fs w) (u "does/not/exist/dasds") = false ->
  PyAe.import_file_connection picked (w, a) = (Val tt, (w, a)).
Proof.
  intros Hr Hf Hd. rewrite after_effects_runs_spec in Hr.
  unfold PyAe.import_file_connection.
  unfold bind at 1. unfold is_after_effects_running, bind at 1, the_world, gets, ret.
  cbn [fst]. cbv zeta. rewrite Hr. cbn [negb].
  unfold bind at 1. rewrite pyae_after_effects_path_unset by done.
  unfold bind at 1. cbn [fst]. unfold str_of_path. rewrite Hd. reflexivity.
Qed.

Lemma pyae_import_cancelled w a :
  after_effects_runs w ->
  fs_isfile (fs w) (pathlib_Path (aePath_setting w)) = true ->
  PyAe.import_file_connection [] (w, a) = (Exc TypeError, (w, a)).
Proof.
  intros Hr Hf. rewrite after_effects_runs_spec in Hr.
  assert (fs_exists (fs w) (pathlib_Path (aePath_setting w)) = true) as Hx.
  { unfold fs_isfile, fs_exists in *. by destruct (fs w !! _). }
  unfold PyAe.import_file_connection.
  unfold bind at 1. unfold is_after_effects_running, bind at 1, the_world, gets, ret.
  cbn [fst]. cbv zeta. rewrite Hr. cbn [negb].
  unfold bind at 1. rewrite pyae_after_effects_path_set by done.
  unfold bind at 1. cbn [fst]. unfold str_of_path. rewrite Hx. cbn [negb].
  unfold bind at 1. rewrite pyae_after_effects_path_set by done.
  unfold bind at 1. cbn [fst]. rewrite Hx. cbn [negb].
  unfold bind at 1. rewrite pyae_after_effects_path_set by done.
  reflexivity.
Qed.

Lemma pyae_import_missing_file picked w a :
  after_effects_runs w ->
  fs_isfile (fs w) (pathlib_Path (aePath_setting w)) = true ->
  picked <> [] ->
  fs_exists (fs w) picked = false ->
  PyAe.import_file_connection picked (w, a) = (Val tt, (w, a)).
Proof.
  intros Hr Hf Hp Hm. rewrite after_effects_runs_spec in Hr.
  assert (fs_exists (fs w) (pathlib_Path (aePath_setting w)) = true) as Hx.
  { unfold fs_isfile, fs_exists in *. by destruct (fs w !! _). }
  unfold PyAe.import_file_connection.
  unfold bind at 1. unfold is_after_effects_running, bind at 1, the_world, gets, ret.
  cbn [fst]. cbv zeta. rewrite Hr. cbn [negb].
  unfold bind at 1. rewrite pyae_after_effects_path_set by done.
  unfold bind at 1. cbn [fst]. unfold str_of_path. rewrite Hx. cbn [negb].
  unfold bind at 1. rewrite pyae_after_effects_path_set by done.
  unfold bind at 1. cbn [fst]. rewrite Hx. cbn [negb].
  unfold bind at 1. rewrite pyae_after_effects_path_set by done.
  destruct picked as [|c picked]; [done|].
  unfold PyAe.prompt_user_for_file, bind, ret, lift. cbn [fst pathlib_Path].
  rewrite Hm. reflexivity.
Qed.

End PyAeImport.

(** ** Cancelled dialogs, failed removals and short rows *)

Section Cancelled.
Context {platform : Platform}.

(** [create_new_project_connection] when no name is confirmed: only the
    first statement has an effect. *)
Lemma v3_create_cancelled project_name ok_pressed w a :
  ok_pressed = false \/ project_name = [] ->
  (fs_exists (fs w) (projects_folder w) = true \/ projects_folder w <> []) ->
  V3.create_new_project_connection project_name ok_pressed (w, a)
  = (Val tt, (set_fs (with_projects_folder w) w, a)).
Proof.
  intros Hc Hf. unfold V3.create_new_project_connection.
  unfold bind at 1. unfold the_world at 1, gets at 1. cbn [fst]. cbv zeta.
  fold (projects_folder w). rewrite ensure_folder_run by done.
  unfold try_except. destruct Hc as [->| ->]; [reflexivity|]. by destruct ok_pressed.
Qed.

Lemma pyae_create_cancelled project_name ok_pressed w a :
  ok_pressed = false \/ project_name = [] ->
  (fs_exists (fs w) (projects_folder w) = true \/ projects_folder w <> []) ->
  PyAe.create_new_project_connection project_name ok_pressed (w, a)
  = (Val tt, (set_fs (with_projects_folder w) w, a)).
Proof.
  intros Hc Hf. unfold PyAe.create_new_project_connection.
  unfold bind at 1. unfold the_world at 1, gets at 1. cbn [fst]. cbv zeta.
  fold (projects_folder w). unfold Path at 1 2 3, str_of_path at 1 2.
  rewrite ensure_folder_run by done.
  unfold try_except. destruct Hc as [->| ->]; [reflexivity|]. by destruct ok_pressed.
Qed.

(** With an empty projects folder in the settings, at which nothing
    exists, [os.makedirs] fails before the name is asked for. *)
Lemma v3_create_no_folder project_name ok_pressed w a :
  projects_folder w = [] ->
  fs_exists (fs w) [] = false ->
  V3.create_new_project_connection project_name ok_pressed (w, a)
  = (Exc FileNotFoundError, (w, a)).
Proof.
  intros Hf Hx. unfold V3.create_new_project_connection.
  unfold bind at 1. unfold the_world at 1, gets at 1. cbn [fst]. cbv zeta.
  fold (projects_folder w). rewrite Hf, Hx. reflexivity.
Qed.

(** [delete_project] of [py_ae_v3.py] on a record whose path is a
    directory: [os.remove] fails and the error is shown. *)
Lemma v3_delete_directory index w a p c t :
  (0 <= index)%Z ->
  V3.last_project_files a !! Z.to_nat index = Some (V3.ProjectInfo p c) ->
  fs w !! p = Some (Dir t) ->
  V3.delete_project Yes index (w, a)
  = (Val tt,
     (set_shown (shown w ++ [confirm_dialog; cannot_delete_dialog]) w, a)).
Proof.
  intros H0 Hl Hd. unfold V3.delete_project.
  unfold bind at 1. unfold self at 1, gets at 1. cbn [snd].
  rewrite (index_in_range _ _ _ H0 Hl). cbn [negb].
  unfold bind at 1, lift at 1. rewrite Hl.
  unfold bind at 1, lift at 1. cbn [V3.entry_path].
  unfold bind at 1. unfold message_box at 1, with_world at 1, modify at 1. cbn [fst snd].
  unfold try_except, bind, the_world, gets, lift, raise, ret.
  cbn [fst]. unfold Path, str_of_path.
  assert (forall d, fs (set_shown d w) = fs w) as Hfs by (by destruct w).
  rewrite Hfs. unfold fs_exists, os_remove. rewrite Hd. cbn [negb].
  unfold message_box, with_world, modify. cbn [fst snd].
  destruct w. world_simpl. rewrite <- app_assoc. reflexivity.
Qed.

(** The settings dialog, accepted. *)
Lemma v3_settings_accepted aePath assetsFolder projectsFolder w a :
  V3.showSettingsDialog true aePath assetsFolder projectsFolder (w, a)
  = (Val tt,
     (set_qsettings (<[u "projectsFolder" := projectsFolder]>
                      (<[u "assetsFolder" := assetsFolder]>
                         (<[u "aePath" := aePath]> (qsettings w)))) w, a)).
Proof.
  unfold V3.showSettingsDialog, bind, setValue, with_world, modify. cbn [fst snd].
  destruct w. reflexivity.
Qed.

Lemma pyae_settings_accepted aePath assetsFolder projectsFolder w a :
  PyAe.show_settings_dialog true aePath assetsFolder projectsFolder (w, a)
  = (Val tt,
     (set_qsettings (<[u "projectsFolder" := projectsFolder]>
                      (<[u "assetsFolder" := assetsFolder]>
                         (<[u "aePath" := aePath]> (qsettings w)))) w, a)).
Proof.
  unfold PyAe.show_settings_dialog, PyAe.SettingsDialog_accept, bind, setValue,
    with_world, modify.
  cbn [fst snd]. destruct w. world_simpl. f_equal. f_equal. f_equal.
  apply map_eq. intros k.
  destruct (decide (k = u "projectsFolder")) as [->|H1]; [by simplify_map_eq|].
  destruct (decide (k = u "assetsFolder")) as [->|H2]; [by simplify_map_eq|].
  destruct (decide (k = u "aePath")) as [->|H3]; by simplify_map_eq.
Qed.

End Cancelled.

Section ShortRows.
Context {platform : Platform}.

(** A stored row that is too short stops [_load_project_settings]. *)
Lemma load_stored_row_short w a i :
  (length i < 4)%nat ->
  (length i < 2)%nat \/ stored_row_exists (fs w) i = true ->
  PyAe.load_stored_row i (w, a) = (Exc IndexError, (w, a)).
Proof.
  intros Hlen Hcase. unfold PyAe.load_stored_row, PyAe.index_row.
  destruct i as [|i0 [|i1 [|i2 [|i3 [|]]]]]; cbn [length] in Hlen; try lia;
    try reflexivity.
  - destruct Hcase as [Hc|Hc]; [cbn in Hc; lia|].
    unfold stored_row_exists in Hc. cbn [lookup list_lookup] in Hc |- *.
    unfold bind, lift, the_world, gets. cbn [fst]. unfold Path, str_of_path.
    rewrite Hc. reflexivity.
  - destruct Hcase as [Hc|Hc]; [cbn in Hc; lia|].
    unfold stored_row_exists in Hc. cbn [lookup list_lookup] in Hc |- *.
    unfold bind, lift, the_world, gets. cbn [fst]. unfold Path, str_of_path.
    rewrite Hc. reflexivity.
Qed.

Lemma load_rows_until_short w good bad after : forall a,
  Forall (fun i => length i = 4%nat) good ->
  (length bad < 4)%nat ->
  (length bad < 2)%nat \/ stored_row_exists (fs w) bad = true ->
  for_each (good ++ bad :: after) PyAe.load_stored_row (w, a)
  = (Exc IndexError,
     (w, PyAe.on_projects_table (fun t => load_rows (fs w) t good) a)).
Proof.
  induction good as [|i good IH]; intros a Hg Hlen Hcase.
  - cbn [app for_each load_rows]. unfold bind. rewrite load_stored_row_short by done.
    by destruct a.
  - apply Forall_cons in Hg as [Hi Hg].
    cbn [app for_each]. unfold bind at 1. rewrite load_stored_row_run by done.
    rewrite IH by done. by destruct a.
Qed.

Lemma load_project_settings_until_short w a good bad after :
  project_ini w = Some (good ++ bad :: after) ->
  Forall (fun i => length i = 4%nat) good ->
  (length bad < 4)%nat ->
  (length bad < 2)%nat \/ stored_row_exists (fs w) bad = true ->
  PyAe._load_project_settings (w, a)
  = (Exc IndexError,
     (w, PyAe.on_projects_table (fun t => load_rows (fs w) t good) a)).
Proof.
  intros Hini Hg Hlen Hcase. unfold PyAe._load_project_settings.
  unfold bind at 1. unfold the_world at 1, gets at 1. cbn [fst]. rewrite Hini.
  destruct (good ++ bad :: after) eqn:Hd; [by destruct good|].
  rewrite <- Hd. by apply load_rows_until_short.
Qed.

(** A stored row of two or three texts whose file is gone is passed
    over. *)
Lemma load_stored_row_gone w a i :
  (2 <= length i)%nat ->
  stored_row_exists (fs w) i = false ->
  PyAe.load_stored_row i (w, a) = (Val tt, (w, a)).
Proof.
  intros Hlen Hx. destruct i as [|i0 [|i1 i]]; cbn [length] in Hlen; try lia.
  unfold PyAe.load_stored_row, PyAe.index_row, stored_row_exists in *.
  cbn [lookup list_lookup] in *.
  unfold bind, lift, the_world, gets, ret. cbn [fst]. unfold Path, str_of_path.
  by rewrite Hx.
Qed.

End ShortRows.

(** ** Further properties of the program *)

Lemma import_world_runs : after_effects_runs import_world.
Proof.
  exists (u "AfterFX.exe"). split; [|by exists [], []].
  apply list_elem_of_In. cbn. auto.
Qed.

Lemma template_world_runs : after_effects_runs template_world.
Proof.
  exists (u "AfterFX.exe"). split; [|by exists [], []].
  apply list_elem_of_In. cbn. auto.
Qed.

Section ImportSettings.
Context {platform : Platform}.

(** [import_file_connection] of [py_ae_v3.py], with After Effects running,
    stops at the first thing that is missing: without a configured
    executable it shows one error, without an assets folder another, and
    when the file dialog is cancelled it returns; each time the file
    system, the settings, the workers and the widget are as before. *)
Theorem import_stops_at_missing_setting (picked : str) (w : world) (a : V3.app) :
  after_effects_runs w ->
  (~ executable_set w ->
   V3.import_file_connection picked (w, a)
   = (Val tt, (set_shown (shown w ++ [no_executable_dialog]) w, a)))
  /\
  (executable_set w -> ~ assets_folder_set w ->
   V3.import_file_connection picked (w, a)
   = (Val tt, (set_shown (shown w ++ [no_assets_folder_dialog]) w, a)))
  /\
  (executable_set w -> assets_folder_set w ->
   V3.import_file_connection [] (w, a) = (Val tt, (w, a))).
Proof.
  intros Hr. repeat apply conj.
  - intros Hx. rewrite import_running by done. unfold bind.
    by rewrite get_after_effects_path_unset.
  - intros Hx Hf. rewrite import_running by done. unfold bind at 1.
    rewrite get_after_effects_path_set by done. unfold bind.
    by rewrite get_assets_folder_path_unset.
  - intros Hx Hf. rewrite import_running by done. unfold bind at 1.
    rewrite get_after_effects_path_set by done. unfold bind at 1.
    by rewrite get_assets_folder_path_set.
Qed.


End ImportSettings.

Lemma import_stops_at_missing_setting_witness :
  after_effects_runs template_world /\
  ~ executable_set template_world /\
  V3.import_file_connection (platform := demo_platform) (u "/p/a.aep")
    (template_world, example_app)
  = (Val tt, (set_shown (shown template_world ++ [no_executable_dialog]) template_world,
              example_app)).
Proof.
  assert (~ executable_set template_world) as Hx by (by intros [Hne _]).
  split; [exact template_world_runs|]. split; [exact Hx|].
  exact (proj1 (import_stops_at_missing_setting (platform := demo_platform)
                  (u "/p/a.aep") template_world example_app template_world_runs) Hx).
Defined.

Lemma import_world_can_import :
  can_import import_world (u "/p/a.aep") (u "AE") (u "/tmp/tmpabc.jsx") [].
Proof.
  unfold can_import. split; [exact import_world_runs|].
  split; [by split|]. split; [discriminate|]. split; [by exists 2%Z|].
  split; [intros c [= <-]; by split|]. split; [reflexivity|].
  split; [by exists 5%Z|]. split; [discriminate|].
  split; [intros t; vm_compute; discriminate|].
  split; reflexivity.
Qed.


Section AssetRecords.
Context {platform : Platform}.

(** What [update_imported_assets] saves is read back: after it appends a
    record to the asset records, the text it stored under
    [imported_assets] is JSON that the second block of [load_settings]
    decodes to the very list now in memory.  The text of the records holds
    no surrogate code point. *)
Theorem saved_assets_are_read_back (w : world) (a : V3.app) (xs : list asset)
    (file_path last_modified imported_by : str) :
  V3.imported_assets a = VList (asset_dict <$> xs) ->
  Forall (fun x => asset_ok x = true) xs ->
  asset_ok (Asset file_path last_modified imported_by) = true ->
  exists w' a',
    V3.update_imported_assets file_path last_modified imported_by (w, a)
    = (Val tt, (w', a')) /\
    V3.imported_assets a'
    = VList (asset_dict <$> (xs ++ [Asset file_path last_modified imported_by])) /\
    forall a0,
      V3.load_imported_assets (qsettings w') (w', a0)
      = (Val tt, (w', V3.set_imported_assets (V3.imported_assets a') a0)).
Proof.
  intros Hl Hxs Hx. rewrite (update_imported_assets_run _ _ _ _ _ _ Hl).
  eexists _, _. split; [reflexivity|].
  unfold with_asset. v3_simpl. split; [by rewrite fmap_app|].
  intros a0. apply load_imported_assets_valid.
  unfold with_saved_assets, settings_value.
  assert (forall q, qsettings (set_qsettings q w) = q) as -> by (by destruct w).
  rewrite lookup_insert_eq. cbn [default]. apply loads_dumps.
  replace ((asset_dict <$> xs) ++ [asset_dict (Asset file_path last_modified imported_by)])
    with (asset_dict <$> (xs ++ [Asset file_path last_modified imported_by]))
    by (by rewrite fmap_app).
  apply wf_value_list.
  apply Forall_app. split.
  - eapply Forall_impl; [exact Hxs|]. intros x Hx'. by apply wf_asset_dict.
  - constructor; [|constructor]. by apply wf_asset_dict.
Qed.

(** [delete_imported_asset] of [py_ae_v3.py].  Unless the user answers
    Yes, only the question is shown.  On Yes, for a row with a plain file
    name and a record at the same position, the row and the record are removed,
    the records are saved, and the file of the row's name in the assets
    folder is deleted if it is a file, the rest of the file system being
    left alone.  A row without a name item is an [AttributeError] before
    anything is changed; a named row without a record loses its row and
    then is an [IndexError], with nothing deleted or saved. *)
Theorem delete_imported_asset_removes_row_and_record (row : nat) (w : world)
    (a : V3.app) :
  (forall answer, answer <> Yes ->
     V3.delete_imported_asset answer row (w, a) = (Val tt, (asked_asset w, a)))
  /\
  (forall name l,
     item row 0 (V3.imported_assets_table a) = Some name ->
     plain_name name ->
     V3.imported_assets a = VList l ->
     (row < length l)%nat ->
     exists w' a',
       V3.delete_imported_asset Yes row (w, a) = (Val tt, (w', a')) /\
       V3.imported_assets_table a' = delete row (V3.imported_assets_table a) /\
       V3.imported_assets a' = VList (delete row l) /\
       qsettings w' !! u "imported_assets" = Some (Json.dumps (VList (delete row l))) /\
       fs w' = (if fs_isfile (fs w) (asset_file w name)
                then delete (asset_file w name) (fs w) else fs w))
  /\
  (item row 0 (V3.imported_assets_table a) = None ->
   V3.delete_imported_asset Yes row (w, a) = (Exc AttributeError, (asked_asset w, a)))
  /\
  (forall name l,
     item row 0 (V3.imported_assets_table a) = Some name ->
     V3.imported_assets a = VList l ->
     (length l <= row)%nat ->
     V3.delete_imported_asset Yes row (w, a)
     = (Exc IndexError, (asked_asset w, V3.on_imported_assets_table (delete row) a))).
Proof.
  repeat apply conj.
  - intros answer Ha. by apply delete_imported_asset_declined.
  - intros name l Hi _ Hl Hrow.
    rewrite (delete_imported_asset_run row w a name l Hi Hl Hrow).
    eexists _, _. split; [reflexivity|]. unfold without_asset. v3_simpl.
    split; [reflexivity|]. split; [reflexivity|].
    unfold with_saved_assets, asset_file_removed, fs_isfile.
    destruct (fs w !! asset_file w name) as [[c mt|mt]|]; destruct w; world_simpl;
      by rewrite lookup_insert_eq.
  - by apply delete_imported_asset_unnamed.
  - intros name l Hi Hl Hrow. by eapply delete_imported_asset_no_record.
Qed.


End AssetRecords.

Lemma listed_app_shows_assets : shows_assets listed_app.
Proof. by exists example_assets. Qed.

Lemma saved_assets_are_read_back_witness :
  V3.imported_assets example_app = VList (asset_dict <$> example_assets) /\
  Forall (fun x => asset_ok x = true) example_assets /\
  asset_ok (Asset (u "/p/a.aep") (u "7") (u "amy")) = true /\
  exists w' a',
    V3.update_imported_assets
      (u "/p/a.aep") (u "7") (u "amy") (example_world, example_app)
    = (Val tt, (w', a')) /\
    V3.imported_assets a'
    = VList (asset_dict <$> (example_assets ++ [Asset (u "/p/a.aep") (u "7") (u "amy")])) /\
    forall a0,
      V3.load_imported_assets (qsettings w') (w', a0)
      = (Val tt, (w', V3.set_imported_assets (V3.imported_assets a') a0)).
Proof.
  assert (Forall (fun x => asset_ok x = true) example_assets) as Hxs
    by (repeat constructor).
  split; [reflexivity|]. split; [exact Hxs|]. split; [reflexivity|].
  exact (saved_assets_are_read_back example_world example_app
           example_assets (u "/p/a.aep") (u "7") (u "amy") eq_refl Hxs eq_refl).
Defined.

Lemma delete_imported_asset_removes_row_and_record_witness :
  item 0 0 (V3.imported_assets_table listed_app) = Some (u "clip.mov") /\
  plain_name (u "clip.mov") /\
  V3.imported_assets listed_app = VList (asset_dict <$> example_assets) /\
  (0 < length (asset_dict <$> example_assets))%nat /\
  exists w' a',
    V3.delete_imported_asset Yes 0 (import_world, listed_app)
    = (Val tt, (w', a')) /\
    V3.imported_assets_table a' = delete 0%nat (V3.imported_assets_table listed_app) /\
    V3.imported_assets a' = VList (delete 0%nat (asset_dict <$> example_assets)) /\
    qsettings w' !! u "imported_assets"
      = Some (Json.dumps (VList (delete 0%nat (asset_dict <$> example_assets)))) /\
    fs w' = (if fs_isfile (fs import_world) (asset_file import_world (u "clip.mov"))
             then delete (asset_file import_world (u "clip.mov")) (fs import_world)
             else fs import_world).
Proof.
  assert (0 < length (asset_dict <$> example_assets))%nat as Hlen by (cbn; lia).
  assert (plain_name (u "clip.mov")) as Hplain by (repeat constructor; discriminate).
  split; [reflexivity|]. split; [exact Hplain|]. split; [reflexivity|].
  split; [exact Hlen|].
  exact (proj1 (proj2 (delete_imported_asset_removes_row_and_record
                         0 import_world listed_app))
           (u "clip.mov") (asset_dict <$> example_assets) eq_refl Hplain eq_refl Hlen).
Defined.




Section Projects.
Context {platform : Platform}.

(** [open_after_effects_project_connection] never lists the project it
    opens.  When the executable named in the code is missing it shows an
    error; when the file dialog is cancelled it changes nothing; and when
    a project is picked it prints the path, remembers the directory and
    then ends in a [TypeError], raised by the call of
    [update_last_projects_list] without its creator: the list of projects,
    the tables, the settings, the file system and the workers are as
    before. *)
Theorem open_project_dialog_never_lists_the_project (path_parent : path -> path)
    (project_path : str) (w : world) (a : V3.app) :
  (fs_exists (fs w) aerender_path = false ->
   V3.open_after_effects_project_connection path_parent project_path (w, a)
   = (Val tt, (set_shown (shown w ++ [no_aerender_dialog]) w, a)))
  /\
  (fs_exists (fs w) aerender_path = true ->
   V3.open_after_effects_project_connection path_parent [] (w, a) = (Val tt, (w, a)))
  /\
  (fs_exists (fs w) aerender_path = true ->
   project_path <> [] ->
   exists w' a',
     V3.open_after_effects_project_connection path_parent project_path (w, a)
     = (Exc TypeError, (w', a')) /\
     V3.last_project_directory a' = Some (path_parent project_path) /\
     V3.last_project_files a' = V3.last_project_files a /\
     V3.last_projects_table a' = V3.last_projects_table a /\
     V3.imported_assets a' = V3.imported_assets a /\
     qsettings w' = qsettings w /\ fs w' = fs w /\ started w' = started w /\
     printed w' = printed w ++ [Print (u "Project selected: " ++ project_path) None]).
Proof.
  repeat apply conj.
  - by apply open_project_no_executable.
  - by apply open_project_cancelled.
  - intros Hx Hp. rewrite (open_project_picked path_parent project_path w a Hx Hp).
    eexists _, _. split; [reflexivity|]. destruct w, a. by repeat split.
Qed.


(** [populate_last_projects_table] settles the list of projects: on a list
    of records, running it twice is running it once, a [save_settings]
    after it changes nothing, and [update_last_projects_list] with a path
    at which nothing exists adds no record: it does what
    [populate_last_projects_table] alone does. *)
Theorem populate_is_idempotent (w : world) (a : V3.app) :
  Forall (fun e => is_record e = true) (V3.last_project_files a) ->
  bind V3.populate_last_projects_table (fun _ => V3.populate_last_projects_table) (w, a)
  = V3.populate_last_projects_table (w, a)
  /\
  bind V3.populate_last_projects_table (fun _ => V3.save_settings) (w, a)
  = V3.populate_last_projects_table (w, a)
  /\
  (forall (p : path) (c : str),
     fs_exists (fs w) (str_of_path p) = false ->
     V3.update_last_projects_list p c (w, a) = V3.populate_last_projects_table (w, a)).
Proof.
  intros Hl. split; [by apply populate_twice_run|].
  split; [by apply populate_then_save_run|].
  intros p c Hp. by apply update_last_projects_list_missing.
Qed.

(** When [delete_project] of [py_ae_v3.py] cannot delete, it leaves all as
    it is.  For a negative index, or one not below the number of records,
    it shows the warning and does nothing else, whatever the user would
    answer.  When the path of the record is a directory, the removal fails:
    after the question the error is shown, and the file system, the
    records, the table and the settings are as before. *)
Theorem delete_project_leaves_all_on_failure (index : Z) (w : world) (a : V3.app) :
  (forall answer,
     (index < 0 \/ Z.of_nat (length (V3.last_project_files a)) <= index)%Z ->
     V3.delete_project answer index (w, a)
     = (Val tt, (set_shown (shown w ++ [invalid_selection_dialog]) w, a)))
  /\
  (forall p c t,
     (0 <= index)%Z ->
     V3.last_project_files a !! Z.to_nat index = Some (V3.ProjectInfo p c) ->
     fs w !! p = Some (Dir t) ->
     V3.delete_project Yes index (w, a)
     = (Val tt, (set_shown (shown w ++ [confirm_dialog; cannot_delete_dialog]) w, a))).
Proof.
  split.
  - intros answer Hi. by apply v3_delete_out_of_range.
  - intros p c t H0 Hl Hd. by eapply v3_delete_directory.
Qed.


(** The settings dialog.  Accepted, it stores the three texts of its
    fields, in both revisions alike, so that they are what the readers of
    the settings get, the empty text included; the stored projects and
    assets, like every other key, are untouched, and so are the file
    system and the widget.  Cancelled, it changes nothing. *)
Theorem settings_dialog_stores_its_fields (aePath assetsFolder projectsFolder : str)
    (w : world) :
  (forall a : V3.app,
     V3.showSettingsDialog true aePath assetsFolder projectsFolder (w, a)
     = (Val tt, (with_settings aePath assetsFolder projectsFolder w, a)) /\
     V3.showSettingsDialog false aePath assetsFolder projectsFolder (w, a)
     = (Val tt, (w, a)))
  /\
  (forall a : PyAe.app,
     PyAe.show_settings_dialog true aePath assetsFolder projectsFolder (w, a)
     = (Val tt, (with_settings aePath assetsFolder projectsFolder w, a)) /\
     PyAe.show_settings_dialog false aePath assetsFolder projectsFolder (w, a)
     = (Val tt, (w, a)))
  /\
  aePath_setting (with_settings aePath assetsFolder projectsFolder w) = aePath
  /\
  assetsFolder_setting (with_settings aePath assetsFolder projectsFolder w) = assetsFolder
  /\
  projects_folder (with_settings aePath assetsFolder projectsFolder w) = projectsFolder
  /\
  fs (with_settings aePath assetsFolder projectsFolder w) = fs w
  /\
  (forall key,
     key <> u "aePath" -> key <> u "assetsFolder" -> key <> u "projectsFolder" ->
     qsettings (with_settings aePath assetsFolder projectsFolder w) !! key
     = qsettings w !! key).
Proof.
  assert (forall q, qsettings (set_qsettings q w) = q) as Hq by (by destruct w).
  repeat apply conj.
  - intros a. split; [apply v3_settings_accepted|reflexivity].
  - intros a. split; [apply pyae_settings_accepted|reflexivity].
  - unfold aePath_setting, with_settings, settings_value. rewrite Hq. by simplify_map_eq.
  - unfold assetsFolder_setting, with_settings, settings_value. rewrite Hq.
    by simplify_map_eq.
  - unfold projects_folder, with_settings, settings_value. rewrite Hq. by simplify_map_eq.
  - by destruct w.
  - intros key H1 H2 H3. unfold with_settings. rewrite Hq. by simplify_map_eq.
Qed.

(** [import_file_connection] of [py_ae.py] before it copies anything.
    Without After Effects running it shows the error.  With it running:
    when the configured executable is not a file it returns without a
    word; when the file dialog is cancelled it ends in a [TypeError],
    [Path(None)]; when the picked file does not exist it returns.  In each
    of the three the file system, the settings, the workers and the tables
    are as before. *)
Theorem pyae_import_stops_early (picked : str) (w : world) (a : PyAe.app) :
  (~ after_effects_runs w ->
   PyAe.import_file_connection picked (w, a)
   = (Val tt, (set_shown (shown w ++ [not_running_dialog]) w, a)))
  /\
  (after_effects_runs w ->
   fs_isfile (fs w) (pathlib_Path (aePath_setting w)) = false ->
   fs_exists (fs w) (u "does/not/exist/dasds") = false ->
   PyAe.import_file_connection picked (w, a) = (Val tt, (w, a)))
  /\
  (after_effects_runs w ->
   fs_isfile (fs w) (pathlib_Path (aePath_setting w)) = true ->
   PyAe.import_file_connection [] (w, a) = (Exc TypeError, (w, a)))
  /\
  (after_effects_runs w ->
   fs_isfile (fs w) (pathlib_Path (aePath_setting w)) = true ->
   picked <> [] ->
   fs_exists (fs w) picked = false ->
   PyAe.import_file_connection picked (w, a) = (Val tt, (w, a))).
Proof.
  repeat apply conj.
  - by apply pyae_import_blocked.
  - by apply pyae_import_no_executable.
  - by apply pyae_import_cancelled.
  - by apply pyae_import_missing_file.
Qed.

End Projects.

Lemma open_project_dialog_never_lists_the_project_witness :
  fs_exists (fs example_world) aerender_path = false /\
  V3.open_after_effects_project_connection (fun p => dirname p) (u "/p/a.aep")
    (example_world, example_app)
  = (Val tt, (set_shown (shown example_world ++ [no_aerender_dialog]) example_world,
              example_app)).
Proof.
  split; [reflexivity|].
  exact (proj1 (open_project_dialog_never_lists_the_project (fun p => dirname p)
                  (u "/p/a.aep") example_world example_app) eq_refl).
Defined.


Lemma populate_is_idempotent_witness :
  Forall (fun e => is_record e = true) (V3.last_project_files example_app) /\
  bind (V3.populate_last_projects_table (platform := demo_platform))
       (fun _ => V3.populate_last_projects_table (platform := demo_platform))
       (example_world, example_app)
  = V3.populate_last_projects_table (platform := demo_platform)
      (example_world, example_app).
Proof.
  assert (Forall (fun e => is_record e = true) (V3.last_project_files example_app)) as Hl
    by (repeat constructor).
  split; [exact Hl|].
  exact (proj1 (populate_is_idempotent (platform := demo_platform)
                  example_world example_app Hl)).
Defined.

Lemma delete_project_leaves_all_on_failure_witness :
  (2 < 0 \/ Z.of_nat (length (V3.last_project_files example_app)) <= 2)%Z /\
  V3.delete_project (platform := demo_platform) Yes 2 (example_world, example_app)
  = (Val tt, (set_shown (shown example_world ++ [invalid_selection_dialog]) example_world,
              example_app)).
Proof.
  assert (2 < 0 \/ Z.of_nat (length (V3.last_project_files example_app)) <= 2)%Z as Hi
    by (right; cbn; lia).
  split; [exact Hi|].
  exact (proj1 (delete_project_leaves_all_on_failure (platform := demo_platform) 2
                  example_world example_app) Yes Hi).
Defined.


Lemma pyae_import_stops_early_witness :
  after_effects_runs import_world /\
  fs_isfile (fs import_world) (pathlib_Path (aePath_setting import_world)) = true /\
  PyAe.import_file_connection (platform := demo_platform) [] (import_world, pyae_listing)
  = (Exc TypeError, (import_world, pyae_listing)).
Proof.
  split; [exact import_world_runs|]. split; [reflexivity|].
  exact (proj1 (proj2 (proj2 (pyae_import_stops_early (platform := demo_platform)
                                [] import_world pyae_listing)))
           import_world_runs eq_refl).
Defined.

Section StoredRows.
Context {platform : Platform}.


End StoredRows.

